(** * products_bank: the sale lifecycle service, its validation and scoping

    A shallow embedding of the backend of the products_bank repository.
    Each module follows one source unit:
    - [Constants]            utils/constants.js
    - [error], [errorHandler] utils/errors.js, middleware/errorMiddleware.js
    - [Schema]               the attributes of the models (models/*.js) and the
                             columns their migrations create
    - [SaleModel]            models/Sale.js and the migration of [ventas]
    - [SaleService]          the sale service (services/saleService.js; in the
                             source tree its text follows the user service in
                             backend/src/services/userService.js)
    - [ValidationMiddleware] middleware/validationMiddleware.js
    - [SaleController]       controllers/saleController.js, routes/saleRoutes.js
    - [UserService], [UserController]
                             services/userService.js, controllers/userController.js
    - [StatsService]         services/statsService.js

    Conventions of the embedding.
    - Integers (ids, role ids) are [Z].
    - The two DECIMAL(_, 2) columns ([cupoSolicitado], [tasa]) are fixed-point
      numbers, represented by their value in hundredths: 15.5 is [1550],
      100.01 is [10001], -0.01 is [-1].  Where the code hands such a value
      on through [parseFloat], [Num z] stands for the double nearest to
      z / 100.
    - Timestamps are [Z] (milliseconds).
    - A request field is a [js A]: absent ([undefined]), [null], or a value.
    - The database is an explicit state; every service function is a
      computation [M A := DB -> (error + A) * DB], so that what a failing call
      leaves in the store is visible in its result.  The clock is an argument
      [now] of the functions that write.
    - No service call runs in a transaction: a statement that has been
      executed stays executed when a later statement of the same call fails.
    - A query that orders by [createdAt] alone leaves the order of rows with
      equal [createdAt] to the storage engine; the engine's choice is an
      argument [order] of the functions that issue such a query. *)

From Stdlib Require Import ZArith List String Bool Lia Sorting.Sorted Sorting.Permutation.
Import ListNotations.
Local Open Scope string_scope.
Local Open Scope Z_scope.

(** ** JavaScript values as the services see them *)

Inductive js (A : Type) : Type :=
| undefined : js A
| null : js A
| val (a : A) : js A.
Arguments undefined {A}.
Arguments null {A}.
Arguments val {A} a.

(** The result of [parseInt] / [parseFloat]. *)
Inductive num : Type :=
| NaN : num
| Num (z : Z) : num.

Definition decimal := Z.

Definition parseInt (x : js Z) : num :=
  match x with val z => Num z | _ => NaN end.

Definition parseFloat (x : js decimal) : num :=
  match x with val d => Num d | _ => NaN end.

(** [x === n] for a parsed number and a numeric constant: [NaN] equals nothing. *)
Definition num_is (x : num) (n : Z) : bool :=
  match x with Num z => z =? n | NaN => false end.

(** Truthiness: [if (x)], [!x], [x || y], [x ? a : b]. *)
Definition truthyNum (x : js Z) : bool :=
  match x with val z => negb (z =? 0) | _ => false end.

Definition truthyStr (x : js string) : bool :=
  match x with val s => negb (String.eqb s "") | _ => false end.

(** A date string or Date object: every present value is truthy. *)
Definition truthyDate (x : js Z) : bool :=
  match x with val _ => true | _ => false end.

Definition isUndefined {A} (x : js A) : bool :=
  match x with undefined => true | _ => false end.

Definition isNull {A} (x : js A) : bool :=
  match x with null => true | _ => false end.

(** ** utils/constants.js *)

Module Constants.

Module ROLES.
Definition ADMIN_ID : Z := 1.
Definition ADVISOR_ID : Z := 2.
End ROLES.

Module PRODUCTS.
Definition CONSUMER_CREDIT_ID : Z := 1.
Definition FREE_INVESTMENT_PAYROLL_ID : Z := 2.
Definition CREDIT_CARD_ID : Z := 3.
End PRODUCTS.

Record StatusTable : Type := {
  OPEN : string;
  IN_PROCESS : string;
  FINISHED : string
}.

Module VALIDATION.
Definition AMOUNT_MIN : decimal := 1.      (* 0.01 *)
Definition RATE_MIN : decimal := 0.        (* 0 *)
Definition RATE_MAX : decimal := 10000.    (* 100 *)
End VALIDATION.

(** The status tables the module exports, by export name.  The file
    defines and exports exactly one, under the name SALE_STATUSES. *)
Definition exportedStatusTables : list (string * StatusTable) :=
  [ ("SALE_STATUSES",
     {| OPEN := "Abierto"; IN_PROCESS := "En Proceso"; FINISHED := "Finalizado" |}) ].

(** [const { name } = require('../utils/constants')]: a name the module
    does not export is bound to [undefined], here [None]. *)
Fixpoint lookupExport (name : string) (l : list (string * StatusTable))
  : option StatusTable :=
  match l with
  | [] => None
  | (k, v) :: r => if String.eqb k name then Some v else lookupExport name r
  end.

Definition require (name : string) : option StatusTable :=
  lookupExport name exportedStatusTables.

End Constants.

(** ** utils/errors.js and the error handler *)

Inductive error : Type :=
| ValidationError (message : string)
| AuthorizationError (message : string)
| NotFoundError (message : string)
| SequelizeValidationError          (* a model validator rejected a value *)
| SequelizeForeignKeyConstraintError
| SequelizeDatabaseError            (* the store rejected the statement *)
| TypeError (message : string).     (* property read on undefined or null *)

Inductive ERROR_CODE : Type :=
| VALIDATION_ERROR | AUTHORIZATION_ERROR | NOT_FOUND | DATABASE_ERROR | SERVER_ERROR.

(** [errorHandler]: the code and HTTP status a thrown error is answered with. *)
Definition errorHandler (e : error) : ERROR_CODE * Z :=
  match e with
  | ValidationError _ => (VALIDATION_ERROR, 400)
  | AuthorizationError _ => (AUTHORIZATION_ERROR, 403)
  | NotFoundError _ => (NOT_FOUND, 404)
  | SequelizeValidationError => (VALIDATION_ERROR, 400)
  | SequelizeForeignKeyConstraintError => (VALIDATION_ERROR, 400)
  | SequelizeDatabaseError => (DATABASE_ERROR, 500)
  | TypeError _ => (SERVER_ERROR, 500)
  end.

Definition isValidationFailure (e : error) : bool :=
  match fst (errorHandler e) with VALIDATION_ERROR => true | _ => false end.

(** ** The store *)

Module Sale.
Record t : Type := mk {
  id : Z;
  productoId : Z;
  cupoSolicitado : decimal;
  franquiciaId : option Z;
  tasa : option decimal;
  estado : string;
  usuarioCreadorId : Z;
  usuarioActualizadorId : Z;
  createdAt : Z;
  updatedAt : Z
}.
End Sale.

Module User.
Record t : Type := mk {
  id : Z;
  nombre : string;
  email : string;
  rolId : Z
}.
End User.

(** The tables, each in the order in which the storage engine scans it.
    The two catalogs are kept by their primary keys. *)
Record DB : Type := {
  productos_tipos : list Z;
  franquicias : list Z;
  usuarios : list User.t;
  ventas : list Sale.t;
  ventas_autoIncrement : Z
}.

Definition withVentas (db : DB) (l : list Sale.t) : DB :=
  {| productos_tipos := productos_tipos db;
     franquicias := franquicias db;
     usuarios := usuarios db;
     ventas := l;
     ventas_autoIncrement := ventas_autoIncrement db |}.

Definition withUsuarios (db : DB) (l : list User.t) : DB :=
  {| productos_tipos := productos_tipos db;
     franquicias := franquicias db;
     usuarios := l;
     ventas := ventas db;
     ventas_autoIncrement := ventas_autoIncrement db |}.

(** ** Computations over the store that may throw *)

Definition M (A : Type) : Type := DB -> (error + A) * DB.

Definition ret {A} (a : A) : M A := fun db => (inr a, db).

Definition throw {A} (e : error) : M A := fun db => (inl e, db).

Definition bind {A B} (c : M A) (k : A -> M B) : M B :=
  fun db =>
    match c db with
    | (inr a, db') => k a db'
    | (inl e, db') => (inl e, db')
    end.

Definition gets {A} (f : DB -> A) : M A := fun db => (inr (f db), db).

Definition modify (f : DB -> DB) : M unit := fun db => (inr tt, f db).

Declare Scope m_scope.
Delimit Scope m_scope with m.
Notation "x <- c ;; k" := (bind c (fun x => k))
  (at level 61, c at next level, right associativity) : m_scope.
Notation "c ;;; k" := (bind c (fun _ => k))
  (at level 61, right associativity) : m_scope.
Local Open Scope m_scope.

(** [if (cond) throw e;] *)
Definition throwIf (cond : bool) (e : error) : M unit :=
  if cond then throw e else ret tt.

(** ** The schema

    The attributes a query may name.  The table of a model has the
    attributes the model defines and the two timestamps
    ([timestamps: true]); the migrations create the same columns. *)

Module Schema.

Inductive Model : Type := TProduct | TFranchise | TUser | TRole.

Definition attributesOf (m : Model) : list string :=
  match m with
  | TProduct => ["id"; "nombre"; "createdAt"; "updatedAt"]
  | TFranchise => ["id"; "nombre"; "createdAt"; "updatedAt"]
  | TUser => ["id"; "nombre"; "email"; "password"; "rolId"; "createdAt"; "updatedAt"]
  | TRole => ["id"; "nombre"; "descripcion"; "createdAt"; "updatedAt"]
  end.

(** One entry of an [include] list: [{ model, as, attributes }].  A nested
    include is listed after the entry it is nested in. *)
Record Include : Type := {
  model : Model;
  alias : string;
  attributes : list string
}.

(** Every attribute the include names is a column of its table. *)
Definition selectable (i : Include) : bool :=
  forallb (fun a => existsb (String.eqb a) (attributesOf (model i))) (attributes i).

End Schema.

(** ** models: Product, Franchise, Sale, User *)

Module Product.
(** [Product.findByPk(id)]: is there a row with this primary key?
    A key that is [undefined] or [null] finds nothing. *)
Definition findByPk (pk : js Z) : M bool :=
  gets (fun db =>
    match pk with
    | val p => existsb (Z.eqb p) (productos_tipos db)
    | _ => false
    end).
End Product.

Module Franchise.
Definition findByPk (pk : js Z) : M bool :=
  gets (fun db =>
    match pk with
    | val f => existsb (Z.eqb f) (franquicias db)
    | _ => false
    end).
End Franchise.

Module SaleModel.

(** The values handed to [Sale.create]. *)
Record CreateValues : Type := {
  c_productoId : num;
  c_cupoSolicitado : num;
  c_franquiciaId : option num;       (* [None] is null *)
  c_tasa : option num;
  c_estado : string;
  c_usuarioCreadorId : Z;
  c_usuarioActualizadorId : Z
}.

(** The object handed to [sale.update]: a field is [None] when the key is
    not set on the object. *)
Record UpdateValues : Type := {
  u_productoId : option num;
  u_cupoSolicitado : option num;
  u_franquiciaId : option (option num);
  u_tasa : option (option num);
  u_estado : option string;
  u_usuarioActualizadorId : option Z
}.

(** [const updateData = {}] *)
Definition emptyUpdate : UpdateValues :=
  {| u_productoId := None; u_cupoSolicitado := None; u_franquiciaId := None;
     u_tasa := None; u_estado := None; u_usuarioActualizadorId := None |}.

(** [Object.keys(updateData).length === 0] *)
Definition noKeys (u : UpdateValues) : bool :=
  match u_productoId u, u_cupoSolicitado u, u_franquiciaId u,
        u_tasa u, u_estado u, u_usuarioActualizadorId u with
  | None, None, None, None, None, None => true
  | _, _, _, _, _, _ => false
  end.

(** Validators declared on the model: [cupoSolicitado] has min 0.01 and
    isDecimal; [tasa] has min 0, max 100 and isDecimal, and being nullable
    is not validated when null. *)
Definition validCupoSolicitado (x : num) : bool :=
  match x with Num d => 1 <=? d | NaN => false end.

Definition validTasa (x : option num) : bool :=
  match x with
  | None => true
  | Some (Num t) => (0 <=? t) && (t <=? 10000)
  | Some NaN => false
  end.

(** The ENUM of the [estado] column. *)
Definition estadoInEnum (s : string) : bool :=
  String.eqb s "Abierto" || String.eqb s "En Proceso" || String.eqb s "Finalizado".

Definition findRow (pk : Z) (l : list Sale.t) : option Sale.t :=
  find (fun s => Sale.id s =? pk) l.

(** [Sale.findByPk(id)] *)
Definition findByPk (pk : Z) : M (option Sale.t) :=
  gets (fun db => findRow pk (ventas db)).

(** A query with [include] joins the tables of the includes and selects
    the attributes they name; the store refuses the statement when one of
    them is not a column of its table (a SequelizeDatabaseError).  The
    joins are outer joins on foreign keys, so they neither drop nor repeat
    a sale. *)
Definition joining (include : list Schema.Include) : M unit :=
  throwIf (negb (forallb Schema.selectable include)) SequelizeDatabaseError.

(** [Sale.findByPk(id, { include })]; the row is returned without the
    joined names. *)
Definition findByPkIncluding (pk : Z) (include : list Schema.Include)
  : M (option Sale.t) :=
  joining include ;;;
  findByPk pk.

(** What a DECIMAL(precision, 2) column holds: at most [precision] digits,
    so fewer than [10 ^ precision] hundredths in absolute value. *)
Definition fitsDecimal (precision : Z) (d : decimal) : bool :=
  Z.abs d <? 10 ^ precision.

(** The foreign keys of [ventas]: the product, the franchise when there is
    one, the creator and the updater must be rows of their tables. *)
Definition productExists (db : DB) (p : Z) : bool :=
  existsb (Z.eqb p) (productos_tipos db).

Definition franchiseExists (db : DB) (f : option Z) : bool :=
  match f with
  | Some z => existsb (Z.eqb z) (franquicias db)
  | None => true
  end.

Definition userExists (db : DB) (u : Z) : bool :=
  existsb (fun x => User.id x =? u) (usuarios db).

(** [Sale.create(values)] at time [now]: the model validators run first.
    The INSERT fails when a value is one no column can hold ([NaN] in an
    integer column, a string outside the ENUM, a decimal with too many
    digits), and when a foreign key refers to no row.  Otherwise the row
    gets the next auto-increment key and both timestamps, and goes to the
    end of the table. *)
Definition create (v : CreateValues) (now : Z) : M Sale.t :=
  throwIf (negb (validCupoSolicitado (c_cupoSolicitado v) && validTasa (c_tasa v)))
          SequelizeValidationError ;;;
  match c_productoId v, c_cupoSolicitado v, c_franquiciaId v, c_tasa v with
  | Num p, Num c, (None | Some (Num _)) as f, (None | Some (Num _)) as t =>
      let f := match f with Some (Num z) => Some z | _ => None end in
      let t := match t with Some (Num z) => Some z | _ => None end in
      if estadoInEnum (c_estado v) && fitsDecimal 15 c
         && match t with Some z => fitsDecimal 5 z | None => true end then
        referenced <- gets (fun db =>
          productExists db p && franchiseExists db f
          && userExists db (c_usuarioCreadorId v)
          && userExists db (c_usuarioActualizadorId v)) ;;
        if referenced then
          pk <- gets ventas_autoIncrement ;;
          let row :=
            {| Sale.id := pk;
               Sale.productoId := p;
               Sale.cupoSolicitado := c;
               Sale.franquiciaId := f;
               Sale.tasa := t;
               Sale.estado := c_estado v;
               Sale.usuarioCreadorId := c_usuarioCreadorId v;
               Sale.usuarioActualizadorId := c_usuarioActualizadorId v;
               Sale.createdAt := now;
               Sale.updatedAt := now |} in
          modify (fun db =>
            {| productos_tipos := productos_tipos db;
               franquicias := franquicias db;
               usuarios := usuarios db;
               ventas := ventas db ++ [row];
               ventas_autoIncrement := pk + 1 |}) ;;;
          ret row
        else throw SequelizeForeignKeyConstraintError
      else throw SequelizeDatabaseError
  | _, _, _, _ => throw SequelizeDatabaseError
  end.

(** The row after [sale.update(u)] at time [now]: exactly the keys set on
    [u] are written, and [updatedAt]. *)
Definition applyUpdate (u : UpdateValues) (now : Z) (s : Sale.t) : Sale.t :=
  {| Sale.id := Sale.id s;
     Sale.productoId :=
       match u_productoId u with Some (Num p) => p | _ => Sale.productoId s end;
     Sale.cupoSolicitado :=
       match u_cupoSolicitado u with Some (Num c) => c | _ => Sale.cupoSolicitado s end;
     Sale.franquiciaId :=
       match u_franquiciaId u with
       | Some (Some (Num f)) => Some f
       | Some _ => None
       | None => Sale.franquiciaId s
       end;
     Sale.tasa :=
       match u_tasa u with
       | Some (Some (Num t)) => Some t
       | Some _ => None
       | None => Sale.tasa s
       end;
     Sale.estado := match u_estado u with Some e => e | None => Sale.estado s end;
     Sale.usuarioCreadorId := Sale.usuarioCreadorId s;
     Sale.usuarioActualizadorId :=
       match u_usuarioActualizadorId u with
       | Some a => a
       | None => Sale.usuarioActualizadorId s
       end;
     Sale.createdAt := Sale.createdAt s;
     Sale.updatedAt := now |}.

(** Can the columns hold the values of [u]? *)
Definition storable (u : UpdateValues) : bool :=
  match u_productoId u with Some NaN => false | _ => true end
  && match u_franquiciaId u with Some (Some NaN) => false | _ => true end
  && match u_estado u with Some e => estadoInEnum e | None => true end
  && match u_cupoSolicitado u with Some (Num c) => fitsDecimal 15 c | _ => true end
  && match u_tasa u with Some (Some (Num t)) => fitsDecimal 5 t | _ => true end.

(** Do the foreign keys [u] writes refer to rows? *)
Definition referencesExist (db : DB) (u : UpdateValues) : bool :=
  match u_productoId u with Some (Num p) => productExists db p | _ => true end
  && match u_franquiciaId u with
     | Some (Some (Num f)) => franchiseExists db (Some f)
     | _ => true
     end
  && match u_usuarioActualizadorId u with Some a => userExists db a | None => true end.

(** [sale.update(u)]: the validators of the fields being written run, then
    UPDATE ventas SET ... WHERE id = sale.id, which the store refuses for a
    value a column cannot hold or a foreign key that refers to no row. *)
Definition update (sale : Sale.t) (u : UpdateValues) (now : Z) : M unit :=
  throwIf (negb (match u_cupoSolicitado u with
                 | Some c => validCupoSolicitado c
                 | None => true
                 end
                 && match u_tasa u with Some t => validTasa t | None => true end))
          SequelizeValidationError ;;;
  throwIf (negb (storable u)) SequelizeDatabaseError ;;;
  referenced <- gets (fun db => referencesExist db u) ;;
  throwIf (negb referenced) SequelizeForeignKeyConstraintError ;;;
  modify (fun db =>
    withVentas db
      (map (fun r => if Sale.id r =? Sale.id sale then applyUpdate u now r else r)
           (ventas db))).

(** [sale.destroy()]: DELETE FROM ventas WHERE id = sale.id. *)
Definition destroy (sale : Sale.t) : M unit :=
  modify (fun db =>
    withVentas db (filter (fun r => negb (Sale.id r =? Sale.id sale)) (ventas db))).

(** *** Queries *)

(** [whereClause.createdAt]: an object with optional [Op.gte] and [Op.lte],
    each a Date ([NaN] for an invalid one). *)
Record DateRange : Type := {
  gte : option num;
  lte : option num
}.

(** A where clause: a key is [None] when it is not set on the object. *)
Record WhereClause : Type := {
  w_usuarioCreadorId : option num;
  w_productoId : option num;
  w_estado : option string;
  w_createdAt : option DateRange
}.

(** [const whereClause = {}] *)
Definition emptyWhere : WhereClause :=
  {| w_usuarioCreadorId := None; w_productoId := None;
     w_estado := None; w_createdAt := None |}.

Definition optTest {A} (o : option A) (p : A -> bool) : bool :=
  match o with Some a => p a | None => true end.

Definition num_le (x y : num) : bool :=
  match x, y with Num a, Num b => a <=? b | _, _ => false end.

(** The rows a where clause selects: the conjunction of its keys. *)
Definition selects (w : WhereClause) (s : Sale.t) : bool :=
  optTest (w_usuarioCreadorId w) (fun u => num_is u (Sale.usuarioCreadorId s))
  && optTest (w_productoId w) (fun p => num_is p (Sale.productoId s))
  && optTest (w_estado w) (fun e => String.eqb (Sale.estado s) e)
  && optTest (w_createdAt w) (fun r =>
       optTest (gte r) (fun t => num_le t (Num (Sale.createdAt s)))
       && optTest (lte r) (fun t => num_le (Num (Sale.createdAt s)) t)).

(** [order: [['createdAt', 'DESC']]], and no second key.  The statement
    fixes the order of rows whose creation times differ; the order among
    rows that tie is the storage engine's, and neither the query nor the
    tables determine it.  An [Ordering] is what the engine makes of the
    selected rows; what every engine guarantees of it is
    [ordersByCreatedAtDesc], below. *)
Definition Ordering : Type := list Sale.t -> list Sale.t.

(** [Sale.findAndCountAll({ where, include, limit, offset, order })]:
    [count] is the number of selected rows, [rows] the requested window.
    A negative LIMIT or OFFSET is rejected by the store. *)
Definition findAndCountAll (order : Ordering) (w : WhereClause)
           (include : list Schema.Include) (limit offset : Z)
  : M (Z * list Sale.t) :=
  joining include ;;;
  selected <- gets (fun db => filter (selects w) (ventas db)) ;;
  if (limit <? 0) || (offset <? 0) then throw SequelizeDatabaseError
  else
    ret (Z.of_nat (List.length selected),
         firstn (Z.to_nat limit) (skipn (Z.to_nat offset) (order selected))).

Definition sumOf (l : list Sale.t) : decimal :=
  fold_right (fun s acc => Sale.cupoSolicitado s + acc) 0 l.

(** [Sale.sum('cupoSolicitado', { where })]: SUM over no row is NULL. *)
Definition sum (w : WhereClause) : M (js decimal) :=
  gets (fun db =>
    match filter (selects w) (ventas db) with
    | [] => null
    | l => val (sumOf l)
    end).

(** [Sale.count({ where })] *)
Definition count (w : WhereClause) : M Z :=
  gets (fun db => Z.of_nat (List.length (filter (selects w) (ventas db)))).

End SaleModel.

(** ** services/saleService.js *)

Module Filters.
(** The filter object of the list and aggregate reads.  Dates are
    timestamps. *)
Record t : Type := mk {
  productoId : js Z;
  estado : js string;
  startDate : js Z;
  endDate : js Z;
  usuarioCreadorId : js Z
}.
(** [{}] *)
Definition empty : t := mk undefined undefined undefined undefined undefined.
End Filters.

Module Pagination.
(** The controllers set a key only to a parsed integer; [None] is a key
    that is not set. *)
Record t : Type := mk {
  page : option Z;
  limit : option Z
}.
End Pagination.

Module SaleData.
(** The body of a create request, and the patch of an update request. *)
Record t : Type := mk {
  productoId : js Z;
  cupoSolicitado : js decimal;
  franquiciaId : js Z;
  tasa : js decimal;
  estado : js string
}.
End SaleData.

Module SaleService.
Import Constants SaleModel.

(** [const { ROLES, PRODUCTS, SALE_STATUS } = require('../utils/constants')] *)
Definition SALE_STATUS : option StatusTable := Constants.require "SALE_STATUS".

(** [SALE_STATUS.OPEN], [SALE_STATUS.IN_PROCESS], [SALE_STATUS.FINISHED] *)
Definition readStatus (field : StatusTable -> string) (name : string) : M string :=
  match SALE_STATUS with
  | Some table => ret (field table)
  | None =>
      throw (TypeError
               ("Cannot read properties of undefined (reading '" ++ name ++ "')"))
  end.

(** [new Date(x)] *)
Definition newDate (x : js Z) : num :=
  match x with val t => Num t | _ => NaN end.

Definition strOf (x : js string) : string :=
  match x with val s => s | _ => "" end.

Definition buildWhereClause (userRolId userId : Z) (additionalFilters : Filters.t)
  : WhereClause :=
  let whereClause := emptyWhere in
  (* Role-based filtering *)
  let whereClause :=
    if userRolId =? ROLES.ADVISOR_ID then
      {| w_usuarioCreadorId := Some (Num userId);
         w_productoId := w_productoId whereClause;
         w_estado := w_estado whereClause;
         w_createdAt := w_createdAt whereClause |}
    else whereClause in
  (* Apply additional filters *)
  let '(Filters.mk productoId estado startDate endDate usuarioCreadorId) :=
    additionalFilters in
  let whereClause :=
    if truthyNum productoId then
      {| w_usuarioCreadorId := w_usuarioCreadorId whereClause;
         w_productoId := Some (parseInt productoId);
         w_estado := w_estado whereClause;
         w_createdAt := w_createdAt whereClause |}
    else whereClause in
  let whereClause :=
    if truthyStr estado then
      {| w_usuarioCreadorId := w_usuarioCreadorId whereClause;
         w_productoId := w_productoId whereClause;
         w_estado := Some (strOf estado);
         w_createdAt := w_createdAt whereClause |}
    else whereClause in
  let whereClause :=
    if truthyDate startDate || truthyDate endDate then
      {| w_usuarioCreadorId := w_usuarioCreadorId whereClause;
         w_productoId := w_productoId whereClause;
         w_estado := w_estado whereClause;
         w_createdAt :=
           Some {| gte := if truthyDate startDate then Some (newDate startDate)
                          else None;
                   lte := if truthyDate endDate then Some (newDate endDate)
                          else None |} |}
    else whereClause in
  (* Allow admin to filter by specific advisor *)
  let whereClause :=
    if truthyNum usuarioCreadorId && (userRolId =? ROLES.ADMIN_ID) then
      {| w_usuarioCreadorId := Some (parseInt usuarioCreadorId);
         w_productoId := w_productoId whereClause;
         w_estado := w_estado whereClause;
         w_createdAt := w_createdAt whereClause |}
    else whereClause in
  whereClause.

(** [{ model, as, attributes }] *)
Definition including (m : Schema.Model) (a : string) (attrs : list string)
  : Schema.Include :=
  {| Schema.model := m; Schema.alias := a; Schema.attributes := attrs |}.

(** What [findAllSales] returns.  An item carries the columns of its row;
    the names joined in from the catalogs and the users are left out. *)
Record SalesPage : Type := {
  sales : list Sale.t;
  total : Z;
  page : Z;
  limit : Z;
  totalPages : option Z            (* [None] when [limit] is 0 *)
}.

(** [Math.ceil(count / limit)] for [0 <= count], [0 <= limit]. *)
Definition ceilDiv (count limit : Z) : option Z :=
  if limit =? 0 then None else Some ((count + limit - 1) / limit).

Definition findAllSales (order : Ordering) (filters : Filters.t)
           (userRolId userId : Z) (pagination : Pagination.t) : M SalesPage :=
  (* const { page = 1, limit = 10 } = pagination *)
  let page := match Pagination.page pagination with Some p => p | None => 1 end in
  let limit := match Pagination.limit pagination with Some l => l | None => 10 end in
  let whereClause := buildWhereClause userRolId userId filters in
  let offset := (page - 1) * limit in
  (* Query sales *)
  r <- findAndCountAll order whereClause
         [ including Schema.TProduct "producto" ["id"; "nombre"; "tipo"];
           including Schema.TFranchise "franquicia" ["id"; "nombre"];
           including Schema.TUser "usuarioCreador" ["id"; "nombre"; "email"];
           including Schema.TRole "rol" ["nombre"];
           including Schema.TUser "usuarioActualizador" ["id"; "nombre"] ]
         limit offset ;;
  let '(count, rows) := r in
  ret {| sales := rows;
         total := count;
         page := page;
         limit := limit;
         totalPages := ceilDiv count limit |}.

Definition findSaleById (id userRolId userId : Z) : M Sale.t :=
  sale <- findByPkIncluding id
            [ including Schema.TProduct "producto"
                        ["id"; "nombre"; "tipo"; "descripcion"];
              including Schema.TFranchise "franquicia" ["id"; "nombre"];
              including Schema.TUser "usuarioCreador" ["id"; "nombre"; "email"];
              including Schema.TRole "rol" ["nombre"];
              including Schema.TUser "usuarioActualizador"
                        ["id"; "nombre"; "email"] ] ;;
  match sale with
  | None => throw (NotFoundError "Sale not found")
  | Some sale =>
      throwIf ((userRolId =? ROLES.ADVISOR_ID)
               && negb (Sale.usuarioCreadorId sale =? userId))
              (AuthorizationError "You can only view your own sales") ;;;
      ret sale
  end.

(** [estado || SALE_STATUS.OPEN]: the right operand is read only when the
    left one is falsy. *)
Definition estadoOrOpen (estado : js string) : M string :=
  if truthyStr estado then ret (strOf estado) else readStatus OPEN "OPEN".

Definition createNewSale (saleData : SaleData.t) (userId : Z) (now : Z) : M Sale.t :=
  let '(SaleData.mk productoId cupoSolicitado franquiciaId tasa estado) := saleData in
  (* Validate required fields *)
  throwIf (negb (truthyNum productoId) || negb (truthyNum cupoSolicitado))
          (ValidationError "Product and requested amount are required") ;;;
  (* Validate product exists *)
  product <- Product.findByPk productoId ;;
  throwIf (negb product) (ValidationError "Invalid product ID") ;;;
  (* Conditional validation: Franchise required for credit cards *)
  throwIf (num_is (parseInt productoId) PRODUCTS.CREDIT_CARD_ID
           && negb (truthyNum franquiciaId))
          (ValidationError "Franchise is required for credit cards") ;;;
  (* Conditional validation: Franchise only allowed for credit cards *)
  throwIf (negb (num_is (parseInt productoId) PRODUCTS.CREDIT_CARD_ID)
           && truthyNum franquiciaId)
          (ValidationError "Franchise is only applicable to credit cards") ;;;
  (* Validate franchise if provided *)
  (if truthyNum franquiciaId then
     franchise <- Franchise.findByPk franquiciaId ;;
     throwIf (negb franchise) (ValidationError "Invalid franchise ID")
   else ret tt) ;;;
  (* Conditional validation: Rate required for credits and payrolls *)
  let productId := parseInt productoId in
  throwIf ((num_is productId PRODUCTS.CONSUMER_CREDIT_ID
            || num_is productId PRODUCTS.FREE_INVESTMENT_PAYROLL_ID)
           && negb (truthyNum tasa))
          (ValidationError "Rate is required for credits and payrolls") ;;;
  (* Conditional validation: Rate only allowed for credits and payrolls *)
  throwIf (negb (num_is productId PRODUCTS.CONSUMER_CREDIT_ID)
           && negb (num_is productId PRODUCTS.FREE_INVESTMENT_PAYROLL_ID)
           && negb (isUndefined tasa) && negb (isNull tasa))
          (ValidationError "Rate is only applicable to credits and payrolls") ;;;
  (* Create sale *)
  estado' <- estadoOrOpen estado ;;
  sale <- create {| c_productoId := parseInt productoId;
                    c_cupoSolicitado := parseFloat cupoSolicitado;
                    c_franquiciaId :=
                      if truthyNum franquiciaId then Some (parseInt franquiciaId)
                      else None;
                    c_tasa := if truthyNum tasa then Some (parseFloat tasa) else None;
                    c_estado := estado';
                    c_usuarioCreadorId := userId;
                    c_usuarioActualizadorId := userId |} now ;;
  (* Load created sale with associations *)
  createdSale <- findByPkIncluding (Sale.id sale)
                   [ including Schema.TProduct "producto" ["id"; "nombre"; "tipo"];
                     including Schema.TFranchise "franquicia" ["id"; "nombre"];
                     including Schema.TUser "usuarioCreador"
                               ["id"; "nombre"; "email"] ] ;;
  match createdSale with
  | Some s => ret s
  | None => throw (TypeError "Cannot read properties of null (reading 'id')")
  end.

(** [validStatuses.includes(x)] *)
Definition includes (l : list string) (x : js string) : bool :=
  match x with val s => existsb (String.eqb s) l | _ => false end.

(** [updateData.productoId = v] and the like. *)
Definition setProductoId (u : UpdateValues) (v : num) : UpdateValues :=
  {| u_productoId := Some v; u_cupoSolicitado := u_cupoSolicitado u;
     u_franquiciaId := u_franquiciaId u; u_tasa := u_tasa u;
     u_estado := u_estado u; u_usuarioActualizadorId := u_usuarioActualizadorId u |}.

Definition setCupoSolicitado (u : UpdateValues) (v : num) : UpdateValues :=
  {| u_productoId := u_productoId u; u_cupoSolicitado := Some v;
     u_franquiciaId := u_franquiciaId u; u_tasa := u_tasa u;
     u_estado := u_estado u; u_usuarioActualizadorId := u_usuarioActualizadorId u |}.

Definition setFranquiciaId (u : UpdateValues) (v : option num) : UpdateValues :=
  {| u_productoId := u_productoId u; u_cupoSolicitado := u_cupoSolicitado u;
     u_franquiciaId := Some v; u_tasa := u_tasa u;
     u_estado := u_estado u; u_usuarioActualizadorId := u_usuarioActualizadorId u |}.

Definition setTasa (u : UpdateValues) (v : option num) : UpdateValues :=
  {| u_productoId := u_productoId u; u_cupoSolicitado := u_cupoSolicitado u;
     u_franquiciaId := u_franquiciaId u; u_tasa := Some v;
     u_estado := u_estado u; u_usuarioActualizadorId := u_usuarioActualizadorId u |}.

Definition setEstado (u : UpdateValues) (v : string) : UpdateValues :=
  {| u_productoId := u_productoId u; u_cupoSolicitado := u_cupoSolicitado u;
     u_franquiciaId := u_franquiciaId u; u_tasa := u_tasa u;
     u_estado := Some v; u_usuarioActualizadorId := u_usuarioActualizadorId u |}.

Definition setUsuarioActualizadorId (u : UpdateValues) (v : Z) : UpdateValues :=
  {| u_productoId := u_productoId u; u_cupoSolicitado := u_cupoSolicitado u;
     u_franquiciaId := u_franquiciaId u; u_tasa := u_tasa u;
     u_estado := u_estado u; u_usuarioActualizadorId := Some v |}.

(** The part of [updateSaleById] that builds [updateData] from the patch. *)
Definition buildUpdateData (saleData : SaleData.t) : M UpdateValues :=
  let updateData := emptyUpdate in
  updateData <-
    (if negb (isUndefined (SaleData.productoId saleData)) then
       (* Validate product exists *)
       product <- Product.findByPk (SaleData.productoId saleData) ;;
       throwIf (negb product) (ValidationError "Invalid product ID") ;;;
       ret (setProductoId updateData (parseInt (SaleData.productoId saleData)))
     else ret updateData) ;;
  let updateData :=
    if negb (isUndefined (SaleData.cupoSolicitado saleData)) then
      setCupoSolicitado updateData (parseFloat (SaleData.cupoSolicitado saleData))
    else updateData in
  updateData <-
    (if negb (isUndefined (SaleData.franquiciaId saleData)) then
       if negb (isNull (SaleData.franquiciaId saleData)) then
         (* Validate franchise exists *)
         franchise <- Franchise.findByPk (SaleData.franquiciaId saleData) ;;
         throwIf (negb franchise) (ValidationError "Invalid franchise ID") ;;;
         ret (setFranquiciaId updateData
                (Some (parseInt (SaleData.franquiciaId saleData))))
       else ret (setFranquiciaId updateData None)
     else ret updateData) ;;
  let updateData :=
    if negb (isUndefined (SaleData.tasa saleData)) then
      setTasa updateData
        (if negb (isNull (SaleData.tasa saleData))
         then Some (parseFloat (SaleData.tasa saleData)) else None)
    else updateData in
  updateData <-
    (if negb (isUndefined (SaleData.estado saleData)) then
       (* Validate status *)
       open <- readStatus OPEN "OPEN" ;;
       inProcess <- readStatus IN_PROCESS "IN_PROCESS" ;;
       finished <- readStatus FINISHED "FINISHED" ;;
       let validStatuses := [open; inProcess; finished] in
       throwIf (negb (includes validStatuses (SaleData.estado saleData)))
               (ValidationError "Invalid status") ;;;
       ret (setEstado updateData (strOf (SaleData.estado saleData)))
     else ret updateData) ;;
  ret updateData.

Definition updateSaleById (id : Z) (saleData : SaleData.t) (userRolId userId : Z)
           (now : Z) : M Sale.t :=
  (* Find sale *)
  sale <- findByPk id ;;
  match sale with
  | None => throw (NotFoundError "Sale not found")
  | Some sale =>
      (* Check authorization: Advisors can only update their own sales *)
      throwIf ((userRolId =? ROLES.ADVISOR_ID)
               && negb (Sale.usuarioCreadorId sale =? userId))
              (AuthorizationError "You can only update your own sales") ;;;
      (* Build update object *)
      updateData <- buildUpdateData saleData ;;
      (* Check if there's anything to update *)
      throwIf (noKeys updateData) (ValidationError "No fields to update") ;;;
      (* Set updater *)
      let updateData := setUsuarioActualizadorId updateData userId in
      (* Update sale *)
      update sale updateData now ;;;
      (* Load updated sale with associations *)
      updatedSale <- findByPkIncluding id
                       [ including Schema.TProduct "producto"
                                   ["id"; "nombre"; "tipo"];
                         including Schema.TFranchise "franquicia" ["id"; "nombre"];
                         including Schema.TUser "usuarioActualizador"
                                   ["id"; "nombre"] ] ;;
      match updatedSale with
      | Some s => ret s
      | None => throw (TypeError "Cannot read properties of null (reading 'id')")
      end
  end.

Definition deleteSaleById (id userRolId userId : Z) : M bool :=
  (* Find sale *)
  sale <- findByPk id ;;
  match sale with
  | None => throw (NotFoundError "Sale not found")
  | Some sale =>
      (* Check authorization: Advisors can only delete their own sales *)
      throwIf ((userRolId =? ROLES.ADVISOR_ID)
               && negb (Sale.usuarioCreadorId sale =? userId))
              (AuthorizationError "You can only delete your own sales") ;;;
      (* Delete sale *)
      destroy sale ;;;
      ret true
  end.

Definition calculateTotalAmount (userRolId userId : Z) (filters : Filters.t) : M num :=
  let whereClause := buildWhereClause userRolId userId filters in
  (* Calculate sum *)
  result <- SaleModel.sum whereClause ;;
  (* const total = result || 0 *)
  let total := if truthyNum result then result else val 0 in
  ret (parseFloat total).

(** [{ ...baseWhereClause, estado: e }] *)
Definition withEstado (w : WhereClause) (e : string) : WhereClause :=
  {| w_usuarioCreadorId := w_usuarioCreadorId w;
     w_productoId := w_productoId w;
     w_estado := Some e;
     w_createdAt := w_createdAt w |}.

Record StatusCounts : Type := {
  open : Z;
  inProcess : Z;
  finished : Z;
  totalCount : Z
}.

Definition getSalesCountByStatus (userRolId userId : Z) : M StatusCounts :=
  let baseWhereClause := buildWhereClause userRolId userId Filters.empty in
  e <- readStatus OPEN "OPEN" ;;
  openCount <- count (withEstado baseWhereClause e) ;;
  e <- readStatus IN_PROCESS "IN_PROCESS" ;;
  inProcessCount <- count (withEstado baseWhereClause e) ;;
  e <- readStatus FINISHED "FINISHED" ;;
  finishedCount <- count (withEstado baseWhereClause e) ;;
  ret {| open := openCount;
         inProcess := inProcessCount;
         finished := finishedCount;
         totalCount := openCount + inProcessCount + finishedCount |}.

End SaleService.

(** ** middleware/validationMiddleware.js *)

Module ValidationMiddleware.
Import Constants.

Record FieldError : Type := {
  field : string;
  msg : string
}.

(** A validator of a chain: when the value fails it, the chain reports the
    message. *)
Definition check (ok : bool) (f m : string) : list FieldError :=
  if ok then [] else [ {| field := f; msg := m |} ].

(** express-validator tests the value as a string; [undefined] and [null]
    are the empty string. *)
Definition notEmptyNum (x : js Z) : bool :=
  match x with val _ => true | _ => false end.

Definition isInt_min (m : Z) (x : js Z) : bool :=
  match x with val z => m <=? z | _ => false end.

Definition isFloat_min (m : decimal) (x : js decimal) : bool :=
  match x with val d => m <=? d | _ => false end.

Definition isFloat_min_max (lo hi : decimal) (x : js decimal) : bool :=
  match x with val d => (lo <=? d) && (d <=? hi) | _ => false end.

Definition isIn (l : list string) (x : js string) : bool :=
  match x with val s => existsb (String.eqb s) l | _ => false end.

(** The chains of [validateSaleCreate], in order.  A chain under [.if]
    runs only when its condition holds; [.optional()] skips an absent
    field. *)
Definition validateSaleCreate (body : SaleData.t) : list FieldError :=
  let '(SaleData.mk productoId cupoSolicitado franquiciaId tasa estado) := body in
  check (notEmptyNum productoId) "productoId" "Product is required"
  ++ check (isInt_min 1 productoId) "productoId" "Invalid product ID"
  ++ check (notEmptyNum cupoSolicitado) "cupoSolicitado" "Requested amount is required"
  ++ check (isFloat_min VALIDATION.AMOUNT_MIN cupoSolicitado) "cupoSolicitado"
           "Amount must be at least 0.01"
  ++ (if num_is (parseInt productoId) PRODUCTS.CREDIT_CARD_ID then
        check (notEmptyNum franquiciaId) "franquiciaId"
              "Franchise is required for credit cards"
        ++ check (isInt_min 1 franquiciaId) "franquiciaId" "Invalid franchise ID"
      else [])
  ++ (if num_is (parseInt productoId) PRODUCTS.CONSUMER_CREDIT_ID
         || num_is (parseInt productoId) PRODUCTS.FREE_INVESTMENT_PAYROLL_ID then
        check (notEmptyNum tasa) "tasa" "Rate is required for credits and payrolls"
        ++ check (isFloat_min_max VALIDATION.RATE_MIN VALIDATION.RATE_MAX tasa) "tasa"
                 "Rate must be between 0 and 100"
      else [])
  ++ (if isUndefined estado then []
      else check (isIn ["Abierto"; "En Proceso"; "Finalizado"] estado) "estado"
                 "Invalid status").

Definition handleValidationErrors (errors : list FieldError) : M unit :=
  match errors with
  | [] => ret tt
  | _ :: _ => throw (ValidationError "Validation failed")
  end.

(** [validateId]: the route parameter, tested as an integer from 1 up. *)
Definition validateId (id : Z) : list FieldError :=
  check (1 <=? id) "id" "Invalid ID".

(** [validatePagination] on the query fields [page] and [limit]. *)
Definition validatePagination (page limit : js Z) : list FieldError :=
  (if isUndefined page then []
   else check (isInt_min 1 page) "page" "Page must be a positive integer")
  ++ (if isUndefined limit then []
      else check (match limit with
                  | val z => (1 <=? z) && (z <=? 100)
                  | _ => false
                  end)
                 "limit" "Limit must be between 1 and 100").

(** The chains of [validateSaleUpdate]: every field is optional and is
    tested on its own. *)
Definition validateSaleUpdate (body : SaleData.t) : list FieldError :=
  let '(SaleData.mk productoId cupoSolicitado franquiciaId tasa estado) := body in
  (if isUndefined productoId then []
   else check (isInt_min 1 productoId) "productoId" "Invalid product ID")
  ++ (if isUndefined cupoSolicitado then []
      else check (isFloat_min VALIDATION.AMOUNT_MIN cupoSolicitado) "cupoSolicitado"
                 "Amount must be at least 0.01")
  ++ (if isUndefined franquiciaId then []
      else check (isInt_min 1 franquiciaId) "franquiciaId" "Invalid franchise ID")
  ++ (if isUndefined tasa then []
      else check (isFloat_min_max VALIDATION.RATE_MIN VALIDATION.RATE_MAX tasa) "tasa"
                 "Rate must be between 0 and 100")
  ++ (if isUndefined estado then []
      else check (isIn ["Abierto"; "En Proceso"; "Finalizado"] estado) "estado"
                 "Invalid status").

End ValidationMiddleware.

(** ** controllers/saleController.js and the POST /api/sales route *)

Module SaleController.

(** [createSale]: the body fields go to the service with the caller's id. *)
Definition createSale (body : SaleData.t) (currentUser : User.t) (now : Z)
  : M Sale.t :=
  let '(SaleData.mk productoId cupoSolicitado franquiciaId tasa estado) := body in
  let saleData := SaleData.mk productoId cupoSolicitado franquiciaId tasa estado in
  SaleService.createNewSale saleData (User.id currentUser) now.

(** [router.post('/', verifyAuth, validateSaleCreate, saleController.createSale)]
    for an authenticated caller. *)
Definition postSale (body : SaleData.t) (currentUser : User.t) (now : Z)
  : M Sale.t :=
  ValidationMiddleware.handleValidationErrors
    (ValidationMiddleware.validateSaleCreate body) ;;;
  createSale body currentUser now.

(** [updateSale]: the keys present in the body go to the service. *)
Definition updateSale (id : Z) (body : SaleData.t) (currentUser : User.t) (now : Z)
  : M Sale.t :=
  let '(SaleData.mk productoId cupoSolicitado franquiciaId tasa estado) := body in
  let updateData := SaleData.mk productoId cupoSolicitado franquiciaId tasa estado in
  SaleService.updateSaleById id updateData (User.rolId currentUser)
                             (User.id currentUser) now.

(** [router.put('/:id', verifyAuth, validateId, validateSaleUpdate, updateSale)] *)
Definition putSale (id : Z) (body : SaleData.t) (currentUser : User.t) (now : Z)
  : M Sale.t :=
  ValidationMiddleware.handleValidationErrors (ValidationMiddleware.validateId id) ;;;
  ValidationMiddleware.handleValidationErrors
    (ValidationMiddleware.validateSaleUpdate body) ;;;
  updateSale id body currentUser now.

(** [if (page) pagination.page = parseInt(page)], the same for [limit]. *)
Definition buildPagination (page limit : js Z) : Pagination.t :=
  Pagination.mk (if truthyNum page then match page with val p => Some p | _ => None end
                 else None)
                (if truthyNum limit then match limit with val l => Some l | _ => None end
                 else None).

(** [getMySales]: the list, filtered by the caller's own id. *)
Definition getMySales (order : SaleModel.Ordering) (page limit : js Z)
           (currentUser : User.t) : M SaleService.SalesPage :=
  let pagination := buildPagination page limit in
  SaleService.findAllSales order
    (Filters.mk undefined undefined undefined undefined (val (User.id currentUser)))
    (User.rolId currentUser) (User.id currentUser) pagination.

(** [router.get('/my-sales', verifyAuth, validatePagination, getMySales)] *)
Definition getMySalesRoute (order : SaleModel.Ordering) (page limit : js Z)
           (currentUser : User.t) : M SaleService.SalesPage :=
  ValidationMiddleware.handleValidationErrors
    (ValidationMiddleware.validatePagination page limit) ;;;
  getMySales order page limit currentUser.

End SaleController.

(** ** services/userService.js and controllers/userController.js *)

Module UserModel.

Definition findByPk (pk : Z) : M (option User.t) :=
  gets (fun db => find (fun u => User.id u =? pk) (usuarios db)).

(** [user.destroy()]: DELETE FROM usuarios WHERE id = user.id.  The
    [ventas] table references users ON DELETE RESTRICT. *)
Definition destroy (user : User.t) : M unit :=
  referenced <- gets (fun db =>
    existsb (fun s => (Sale.usuarioCreadorId s =? User.id user)
                      || (Sale.usuarioActualizadorId s =? User.id user))
            (ventas db)) ;;
  if referenced then throw SequelizeForeignKeyConstraintError
  else
    modify (fun db =>
      withUsuarios db
        (filter (fun u => negb (User.id u =? User.id user)) (usuarios db))).

End UserModel.

Module UserService.

Definition deleteUserById (id : Z) : M bool :=
  (* Find user *)
  user <- UserModel.findByPk id ;;
  match user with
  | None => throw (NotFoundError "User not found")
  | Some user =>
      (* Delete user *)
      UserModel.destroy user ;;;
      ret true
  end.

(** [findUserById]: the user, without the joined role name. *)
Definition findUserById (id : Z) : M User.t :=
  user <- UserModel.findByPk id ;;
  match user with
  | None => throw (NotFoundError "User not found")
  | Some user => ret user
  end.

Record RoleCounts : Type := {
  adminCount : Z;
  advisorCount : Z;
  totalUsers : Z
}.

(** [User.count({ where: { rolId } })] *)
Definition countByRole (rolId : Z) : M Z :=
  gets (fun db =>
    Z.of_nat (List.length (filter (fun u => User.rolId u =? rolId) (usuarios db)))).

Definition getUsersCountByRole : M RoleCounts :=
  adminCount <- countByRole Constants.ROLES.ADMIN_ID ;;
  advisorCount <- countByRole Constants.ROLES.ADVISOR_ID ;;
  ret {| adminCount := adminCount;
         advisorCount := advisorCount;
         totalUsers := adminCount + advisorCount |}.

End UserService.

Module UserController.

(** [deleteUser]: [id] is the route parameter, already an integer after
    [validateId]; the answer is the message of the success response. *)
Definition deleteUser (id : Z) (currentUser : User.t) : M string :=
  (* Prevent admin from deleting themselves *)
  throwIf (id =? User.id currentUser)
          (ValidationError "You cannot delete your own account") ;;;
  (* Delete user *)
  UserService.deleteUserById id ;;;
  ret "User deleted successfully".

(** [getUserById] *)
Definition getUserById (id : Z) : M User.t :=
  UserService.findUserById id.

End UserController.

(** ** middleware/roleMiddleware.js

    The checks run after [verifyAuth], which sets [req.user]; they are
    modelled for such a request, with the loaded user as [currentUser]. *)

Module RoleMiddleware.
Import Constants.

Definition isAdmin (currentUser : User.t) : M unit :=
  throwIf (negb (User.rolId currentUser =? ROLES.ADMIN_ID))
          (AuthorizationError "Admin access required").

Definition isAdvisor (currentUser : User.t) : M unit :=
  throwIf (negb (User.rolId currentUser =? ROLES.ADVISOR_ID))
          (AuthorizationError "Advisor access required").

Definition isAdminOrAdvisor (currentUser : User.t) : M unit :=
  let validRoles := [ROLES.ADMIN_ID; ROLES.ADVISOR_ID] in
  throwIf (negb (existsb (Z.eqb (User.rolId currentUser)) validRoles))
          (AuthorizationError "Access denied").

Definition hasRole (allowedRoles : list Z) (currentUser : User.t) : M unit :=
  throwIf (negb (existsb (Z.eqb (User.rolId currentUser)) allowedRoles))
          (AuthorizationError "Insufficient permissions").

(** [isOwnerOrAdmin(paramName)]: [resourceOwnerId] is the parsed request
    parameter. *)
Definition isOwnerOrAdmin (resourceOwnerId : Z) (currentUser : User.t) : M unit :=
  if User.rolId currentUser =? ROLES.ADMIN_ID then ret tt
  else if User.id currentUser =? resourceOwnerId then ret tt
  else throw (AuthorizationError "You can only access your own resources").

End RoleMiddleware.

(** ** routes/userRoutes.js, for an authenticated caller *)

Module UserRoutes.

(** [router.delete('/:id', verifyAuth, validateId, isAdmin, deleteUser)] *)
Definition deleteUserRoute (id : Z) (currentUser : User.t) : M string :=
  ValidationMiddleware.handleValidationErrors (ValidationMiddleware.validateId id) ;;;
  RoleMiddleware.isAdmin currentUser ;;;
  UserController.deleteUser id currentUser.

(** [router.get('/:id', verifyAuth, validateId, isOwnerOrAdmin('id'), getUserById)] *)
Definition getUserRoute (id : Z) (currentUser : User.t) : M User.t :=
  ValidationMiddleware.handleValidationErrors (ValidationMiddleware.validateId id) ;;;
  RoleMiddleware.isOwnerOrAdmin id currentUser ;;;
  UserController.getUserById id.

End UserRoutes.

(** ** Grouped and limited queries on the sales *)

Module SaleQueries.
Import SaleModel.

(** [Sale.findAll({ where, include, limit, order: [['createdAt', 'DESC']] })] *)
Definition findAllRecent (order : Ordering) (w : WhereClause)
           (include : list Schema.Include) (limit : Z) : M (list Sale.t) :=
  joining include ;;;
  selected <- gets (fun db => filter (selects w) (ventas db)) ;;
  if limit <? 0 then throw SequelizeDatabaseError
  else ret (firstn (Z.to_nat limit) (order selected)).

(** One row of a GROUP BY query with COUNT(id) and SUM(cupoSolicitado). *)
Record Group (K : Type) : Type := {
  g_key : K;
  g_count : Z;
  g_totalAmount : decimal
}.
Arguments g_key {K} g.
Arguments g_count {K} g.
Arguments g_totalAmount {K} g.

(** A scanned row joins the group of its key, or starts one. *)
Fixpoint addToGroups {K} (eqb : K -> K -> bool) (k : K) (amount : decimal)
         (groups : list (Group K)) : list (Group K) :=
  match groups with
  | [] => [ {| g_key := k; g_count := 1; g_totalAmount := amount |} ]
  | g :: r =>
      if eqb (g_key g) k then
        {| g_key := g_key g;
           g_count := g_count g + 1;
           g_totalAmount := g_totalAmount g + amount |} :: r
      else g :: addToGroups eqb k amount r
  end.

Definition groupRows {K} (eqb : K -> K -> bool) (keyOf : Sale.t -> K)
           (rows : list Sale.t) : list (Group K) :=
  fold_left (fun groups s => addToGroups eqb (keyOf s) (Sale.cupoSolicitado s) groups)
            rows [].

(** [Sale.findAll({ attributes: [key, COUNT, SUM], where, group: [key] })] *)
Definition findAllGrouped {K} (eqb : K -> K -> bool) (keyOf : Sale.t -> K)
           (w : WhereClause) : M (list (Group K)) :=
  gets (fun db => groupRows eqb keyOf (filter (selects w) (ventas db))).

(** [results.sort((a, b) => b.count - a.count)], and ORDER BY COUNT DESC:
    groups with equal counts keep their order. *)
Fixpoint insertByCountDesc {K} (g : Group K) (l : list (Group K)) : list (Group K) :=
  match l with
  | [] => [g]
  | x :: r =>
      if g_count x <=? g_count g then g :: x :: r
      else x :: insertByCountDesc g r
  end.

Definition sortByCountDesc {K} (l : list (Group K)) : list (Group K) :=
  fold_right insertByCountDesc [] l.

End SaleQueries.

(** ** services/statsService.js

    The averages of the metrics and of the groups, roundings of floating-point
    quotients, are not part of the records below; neither are the names
    joined in from the catalogs and the users. *)

Module StatsService.
Import Constants SaleModel SaleQueries.

(** [const { ROLES, SALE_STATUSES } = require('../utils/constants')] *)
Definition SALE_STATUSES : option StatusTable := Constants.require "SALE_STATUSES".

Definition readStatus (field : StatusTable -> string) (name : string) : M string :=
  match SALE_STATUSES with
  | Some table => ret (field table)
  | None =>
      throw (TypeError
               ("Cannot read properties of undefined (reading '" ++ name ++ "')"))
  end.

(** The value of a where key: [null] compares equal to no stored id. *)
Definition idValue (x : js Z) : num :=
  match x with val z => Num z | _ => NaN end.

Definition buildWhereClause (userRolId : Z) (userId : js Z)
           (additionalFilters : Filters.t) : WhereClause :=
  let whereClause := emptyWhere in
  (* Role-based filtering *)
  let whereClause :=
    if userRolId =? ROLES.ADVISOR_ID then
      {| w_usuarioCreadorId := Some (idValue userId);
         w_productoId := w_productoId whereClause;
         w_estado := w_estado whereClause;
         w_createdAt := w_createdAt whereClause |}
    else whereClause in
  (* Apply additional filters *)
  let '(Filters.mk productoId estado startDate endDate _) := additionalFilters in
  let whereClause :=
    if truthyDate startDate || truthyDate endDate then
      {| w_usuarioCreadorId := w_usuarioCreadorId whereClause;
         w_productoId := w_productoId whereClause;
         w_estado := w_estado whereClause;
         w_createdAt :=
           Some {| gte := if truthyDate startDate
                          then Some (SaleService.newDate startDate) else None;
                   lte := if truthyDate endDate
                          then Some (SaleService.newDate endDate) else None |} |}
    else whereClause in
  let whereClause :=
    if truthyNum productoId then
      {| w_usuarioCreadorId := w_usuarioCreadorId whereClause;
         w_productoId := Some (parseInt productoId);
         w_estado := w_estado whereClause;
         w_createdAt := w_createdAt whereClause |}
    else whereClause in
  let whereClause :=
    if truthyStr estado then
      {| w_usuarioCreadorId := w_usuarioCreadorId whereClause;
         w_productoId := w_productoId whereClause;
         w_estado := Some (SaleService.strOf estado);
         w_createdAt := w_createdAt whereClause |}
    else whereClause in
  whereClause.

Record DashboardMetrics : Type := {
  totalSales : Z;
  totalAmount : num;
  openSales : Z;
  inProcessSales : Z;
  finishedSales : Z
}.

Definition getDashboardMetrics (userRolId : Z) (userId : js Z) (filters : Filters.t)
  : M DashboardMetrics :=
  let whereClause := buildWhereClause userRolId userId filters in
  (* Total sales count *)
  totalSales <- count whereClause ;;
  (* Total sales amount: Sale.sum(...) || 0 *)
  result <- SaleModel.sum whereClause ;;
  let totalAmount := if truthyNum result then result else val 0 in
  (* Sales by status *)
  e <- readStatus OPEN "OPEN" ;;
  openCount <- count (SaleService.withEstado whereClause e) ;;
  e <- readStatus IN_PROCESS "IN_PROCESS" ;;
  inProcessCount <- count (SaleService.withEstado whereClause e) ;;
  e <- readStatus FINISHED "FINISHED" ;;
  finishedCount <- count (SaleService.withEstado whereClause e) ;;
  ret {| totalSales := totalSales;
         totalAmount := parseFloat totalAmount;
         openSales := openCount;
         inProcessSales := inProcessCount;
         finishedSales := finishedCount |}.

Definition getSalesGroupedByProduct (userRolId : Z) (userId : js Z)
           (filters : Filters.t) : M (list (Group Z)) :=
  let whereClause := buildWhereClause userRolId userId filters in
  salesByProduct <- findAllGrouped Z.eqb Sale.productoId whereClause ;;
  (* Sort by count descending *)
  ret (sortByCountDesc salesByProduct).

Definition getSalesGroupedByAdvisor (userRolId : Z) (filters : Filters.t)
  : M (list (Group Z)) :=
  (* Only admins can access this data *)
  if negb (userRolId =? ROLES.ADMIN_ID) then ret []
  else
    let whereClause := buildWhereClause ROLES.ADMIN_ID null filters in
    salesByAdvisor <- findAllGrouped Z.eqb Sale.usuarioCreadorId whereClause ;;
    (* Sort by count descending *)
    ret (sortByCountDesc salesByAdvisor).

Definition getSalesGroupedByStatus (userRolId : Z) (userId : js Z)
           (filters : Filters.t) : M (list (Group string)) :=
  let whereClause := buildWhereClause userRolId userId filters in
  findAllGrouped String.eqb Sale.estado whereClause.

(** [getRecentSales(userRolId, userId, limit)]; the controller passes 5
    when the query has no limit. *)
Definition getRecentSales (order : Ordering) (userRolId : Z) (userId : js Z)
           (limit : Z) : M (list Sale.t) :=
  let whereClause := buildWhereClause userRolId userId Filters.empty in
  findAllRecent order whereClause
    [ SaleService.including Schema.TProduct "producto" ["id"; "nombre"];
      SaleService.including Schema.TUser "usuarioCreador" ["id"; "nombre"] ]
    limit.

Definition getTopProducts (userRolId : Z) (userId : js Z) (limit : Z)
           (filters : Filters.t) : M (list (Group Z)) :=
  let whereClause := buildWhereClause userRolId userId filters in
  groups <- findAllGrouped Z.eqb Sale.productoId whereClause ;;
  if limit <? 0 then throw SequelizeDatabaseError
  else ret (firstn (Z.to_nat limit) (sortByCountDesc groups)).

End StatsService.

(** ** A small database for examples

    The seeded catalogs, one admin and two advisors, and the two sales of
    the scenario: a consumer credit by advisor 2 and a credit card by
    advisor 3. *)

Definition admin : User.t := User.mk 1 "Admin" "admin@bank.co" 1.
Definition advisorA : User.t := User.mk 2 "Advisor A" "a@bank.co" 2.
Definition advisorB : User.t := User.mk 3 "Advisor B" "b@bank.co" 2.

Definition saleS1 : Sale.t :=
  Sale.mk 1 1 500000000 None (Some 1550) "Abierto" 2 2 1000 1000.
Definition saleS2 : Sale.t :=
  Sale.mk 2 3 200000000 (Some 2) None "Abierto" 3 3 2000 2000.

Definition db0 : DB :=
  {| productos_tipos := [1; 2; 3];
     franquicias := [1; 2; 3];
     usuarios := [admin; advisorA; advisorB];
     ventas := [saleS1; saleS2];
     ventas_autoIncrement := 3 |}.

(** Two sales created in the same millisecond, listed by the table in the
    order of their keys. *)
Definition saleT1 : Sale.t :=
  Sale.mk 1 1 500000000 None (Some 1550) "Abierto" 2 2 1000 1000.
Definition saleT2 : Sale.t :=
  Sale.mk 2 1 300000000 None (Some 1200) "Abierto" 2 2 1000 1000.

Definition dbTies : DB :=
  {| productos_tipos := [1; 2; 3];
     franquicias := [1; 2; 3];
     usuarios := [admin; advisorA; advisorB];
     ventas := [saleT1; saleT2];
     ventas_autoIncrement := 3 |}.

(** ** Properties of records and lists that the claims speak about *)

(** The conditional fields of section 4.1 on a stored row. *)
Definition conditionalFieldsOk (s : Sale.t) : bool :=
  if Sale.productoId s =? Constants.PRODUCTS.CREDIT_CARD_ID then
    match Sale.franquiciaId s, Sale.tasa s with
    | Some _, None => true
    | _, _ => false
    end
  else if (Sale.productoId s =? Constants.PRODUCTS.CONSUMER_CREDIT_ID)
          || (Sale.productoId s =? Constants.PRODUCTS.FREE_INVESTMENT_PAYROLL_ID) then
    match Sale.franquiciaId s, Sale.tasa s with
    | None, Some _ => true
    | _, _ => false
    end
  else true.

(** Creation time descending. *)
Definition createdAtDesc (a b : Sale.t) : Prop :=
  Sale.createdAt b <= Sale.createdAt a.

(** Creation time descending, ties broken by id descending. *)
Definition createdAtThenIdDesc (a b : Sale.t) : Prop :=
  Sale.createdAt b < Sale.createdAt a
  \/ (Sale.createdAt b = Sale.createdAt a /\ Sale.id b <= Sale.id a).

(** What ORDER BY createdAt DESC guarantees of any engine: the rows come
    back, each once, by creation time descending. *)
Definition ordersByCreatedAtDesc (order : SaleModel.Ordering) : Prop :=
  forall l, Permutation l (order l) /\ StronglySorted createdAtDesc (order l).

(** Two engines.  One sorts the scanned rows and leaves rows that tie in
    the order of the table; the other leaves them in the reverse of it, as
    a backward scan of an index on [createdAt] does. *)
Fixpoint insertByCreatedAtDesc (s : Sale.t) (l : list Sale.t) : list Sale.t :=
  match l with
  | [] => [s]
  | x :: r =>
      if Sale.createdAt x <=? Sale.createdAt s then s :: x :: r
      else x :: insertByCreatedAtDesc s r
  end.

Definition tiesInTableOrder : SaleModel.Ordering :=
  fun l => fold_right insertByCreatedAtDesc [] l.

Definition tiesInReverseOrder : SaleModel.Ordering :=
  fun l => fold_right insertByCreatedAtDesc [] (rev l).

(** ** Well-formed stores *)

(** The bounds the columns of a sale are validated against. *)
Definition rowInBounds (s : Sale.t) : bool :=
  (1 <=? Sale.cupoSolicitado s)
  && match Sale.tasa s with
     | None => true
     | Some t => (0 <=? t) && (t <=? 10000)
     end
  && SaleModel.estadoInEnum (Sale.estado s).

(** Primary keys are unique and below the auto-increment counter, and every
    row is within bounds. *)
Definition storeOk (db : DB) : Prop :=
  NoDup (map Sale.id (ventas db))
  /\ Forall (fun r => Sale.id r < ventas_autoIncrement db) (ventas db)
  /\ Forall (fun r => rowInBounds r = true) (ventas db).

(** The value a falsy-or-number request field is stored as. *)
Definition storedNumber (x : js Z) : option Z :=
  match x with
  | val z => if z =? 0 then None else Some z
  | _ => None
  end.

(** The store after [row] has been inserted into [ventas]. *)
Definition withInserted (db : DB) (row : Sale.t) : DB :=
  {| productos_tipos := productos_tipos db;
     franquicias := franquicias db;
     usuarios := usuarios db;
     ventas := ventas db ++ [row];
     ventas_autoIncrement := ventas_autoIncrement db + 1 |}.

(** The store after [sale.update(u)] on the sale with key [id]. *)
Definition withUpdated (db : DB) (id : Z) (u : SaleModel.UpdateValues) (now : Z) : DB :=
  withVentas db
    (map (fun r => if Sale.id r =? id then SaleModel.applyUpdate u now r else r)
         (ventas db)).

(** Every sale refers to users that exist. *)
Definition usersReferencedExist (db : DB) : Prop :=
  Forall (fun s => In (Sale.usuarioCreadorId s) (map User.id (usuarios db))
                   /\ In (Sale.usuarioActualizadorId s) (map User.id (usuarios db)))
         (ventas db).

(** ** Reading a grouped result *)

(** The rows of one key. *)
Definition rowsOf {K} (eqb : K -> K -> bool) (keyOf : Sale.t -> K) (k : K)
           (rows : list Sale.t) : list Sale.t :=
  filter (fun s => eqb (keyOf s) k) rows.

(** The group of a key in a grouped result. *)
Fixpoint lookupGroup {K} (eqb : K -> K -> bool) (k : K)
         (gs : list (SaleQueries.Group K)) : option (SaleQueries.Group K) :=
  match gs with
  | [] => None
  | g :: r => if eqb (SaleQueries.g_key g) k then Some g else lookupGroup eqb k r
  end.

(** The group a key should have: the count and the sum of its rows, when
    there are any. *)
Definition groupFor {K} (eqb : K -> K -> bool) (keyOf : Sale.t -> K) (k : K)
           (rows : list Sale.t) : option (SaleQueries.Group K) :=
  match rowsOf eqb keyOf k rows with
  | [] => None
  | l => Some {| SaleQueries.g_key := k;
                 SaleQueries.g_count := Z.of_nat (List.length l);
                 SaleQueries.g_totalAmount := SaleModel.sumOf l |}
  end.

Definition sumCounts {K} (gs : list (SaleQueries.Group K)) : Z :=
  fold_right (fun g acc => SaleQueries.g_count g + acc) 0 gs.

Definition sumTotals {K} (gs : list (SaleQueries.Group K)) : decimal :=
  fold_right (fun g acc => SaleQueries.g_totalAmount g + acc) 0 gs.

(** Count descending. *)
Definition countDesc {K} (a b : SaleQueries.Group K) : Prop :=
  SaleQueries.g_count b <= SaleQueries.g_count a.

(** * Verification *)

Import Constants SaleModel SaleService.

(** ** The scenario on [db0] *)

(** Advisor 2 asks for the list: the statement names [producto.tipo],
    which is no column of [productos_tipos]. *)
Example advisorA_asks_for_the_list :
  findAllSales tiesInTableOrder Filters.empty ROLES.ADVISOR_ID 2
               (Pagination.mk None None) db0
  = (inl SequelizeDatabaseError, db0).
Proof. reflexivity. Qed.

Example advisorA_total_amount :
  fst (calculateTotalAmount ROLES.ADVISOR_ID 2 Filters.empty db0) = inr (Num 500000000).
Proof. reflexivity. Qed.

Example admin_total_amount_of_advisorB :
  fst (calculateTotalAmount ROLES.ADMIN_ID 1
         (Filters.mk undefined undefined undefined undefined (val 3)) db0)
  = inr (Num 200000000).
Proof. reflexivity. Qed.

(** The counts by status read [SALE_STATUS] before any query. *)
Example count_by_status_throws :
  getSalesCountByStatus ROLES.ADMIN_ID 1 db0
  = (inl (TypeError "Cannot read properties of undefined (reading 'OPEN')"), db0).
Proof. reflexivity. Qed.

(** The admin deletes advisor 3, who still has a sale: the store refuses. *)
Example delete_user_with_sales :
  UserController.deleteUser 3 admin db0 = (inl SequelizeForeignKeyConstraintError, db0).
Proof. reflexivity. Qed.

(** ** Running computations *)

Lemma bind_run {A B} (c : M A) (k : A -> M B) db :
  bind c k db =
  match c db with
  | (inr a, db') => k a db'
  | (inl e, db') => (inl e, db')
  end.
Proof. reflexivity. Qed.

Lemma throwIf_true e db : throwIf true e db = (inl e, db).
Proof. reflexivity. Qed.

Lemma throwIf_false e db : throwIf false e db = (inr tt, db).
Proof. reflexivity. Qed.

(** A guard either throws and leaves the store alone, or passes and leaves
    the store alone. *)
Lemma throwIf_cases c e db :
  (c = true /\ throwIf c e db = (inl e, db))
  \/ (c = false /\ throwIf c e db = (inr tt, db)).
Proof. destruct c; [left | right]; split; reflexivity. Qed.

Ltac unfold_m :=
  unfold bind, throwIf, gets, modify, ret, throw in *.

(** ** Lists of rows: window, order, sum *)

Section Rows.

Variable P : Sale.t -> Prop.

Lemma Forall_insertByCreatedAtDesc s l :
  P s -> Forall P l -> Forall P (insertByCreatedAtDesc s l).
Proof.
  intros Hs Hl. induction Hl as [|x r Hx Hr IH]; simpl.
  - constructor; [assumption | constructor].
  - destruct (Sale.createdAt x <=? Sale.createdAt s).
    + constructor; [assumption | constructor; assumption].
    + constructor; assumption.
Qed.

Lemma Forall_skipn_rows n (l : list Sale.t) :
  Forall P l -> Forall P (skipn n l).
Proof.
  revert l. induction n as [|n IH]; intros l Hl; simpl.
  - assumption.
  - destruct Hl; [constructor | apply IH; assumption].
Qed.

Lemma Forall_firstn_rows n (l : list Sale.t) :
  Forall P l -> Forall P (firstn n l).
Proof.
  revert l. induction n as [|n IH]; intros l Hl; simpl.
  - constructor.
  - destruct Hl; constructor; [assumption | apply IH; assumption].
Qed.

End Rows.

Lemma Forall_filter_selects w l :
  Forall (fun s => selects w s = true) (filter (selects w) l).
Proof.
  apply Forall_forall. intros s Hs. apply filter_In in Hs. tauto.
Qed.

Lemma StronglySorted_skipn {A} (R : A -> A -> Prop) n l :
  StronglySorted R l -> StronglySorted R (skipn n l).
Proof.
  revert l. induction n as [|n IH]; intros l Hl; simpl.
  - assumption.
  - destruct Hl; [constructor | apply IH; assumption].
Qed.

Lemma StronglySorted_firstn {A} (R : A -> A -> Prop) n l :
  StronglySorted R l -> StronglySorted R (firstn n l).
Proof.
  revert l. induction n as [|n IH]; intros l Hl; simpl.
  - constructor.
  - destruct Hl as [|x r Hr Hx]; [constructor |].
    constructor; [apply IH; assumption |].
    apply Forall_forall. intros y Hy.
    rewrite Forall_forall in Hx. apply Hx.
    revert Hy. clear. revert r. induction n as [|n IH]; intros r; simpl.
    + tauto.
    + destruct r as [|z r]; simpl; [tauto |].
      intros [H | H]; [left; exact H | right; apply IH; exact H].
Qed.

Lemma StronglySorted_app_cross {A} (R : A -> A -> Prop) l1 l2 :
  StronglySorted R (l1 ++ l2) ->
  forall a b, In a l1 -> In b l2 -> R a b.
Proof.
  induction l1 as [|x r IH]; simpl; [tauto |].
  intros H a b Ha Hb. inversion H as [|y ys Hs Hall]; subst.
  destruct Ha as [-> | Ha].
  - rewrite Forall_forall in Hall. apply Hall. apply in_or_app. right. exact Hb.
  - apply IH; assumption.
Qed.

Lemma length_filter_le {A} (f : A -> bool) l :
  (List.length (filter f l) <= List.length l)%nat.
Proof.
  induction l as [|x r IH]; simpl; [lia |].
  destruct (f x); simpl; lia.
Qed.

Lemma incl_firstn {A} n (l : list A) : incl (firstn n l) l.
Proof.
  revert l. induction n as [|n IH]; intros l x; simpl; [tauto |].
  destruct l as [|y r]; simpl; [tauto |].
  intros [H | H]; [left; exact H | right; apply IH; exact H].
Qed.

Lemma NoDup_firstn {A} n (l : list A) : NoDup l -> NoDup (firstn n l).
Proof.
  revert l. induction n as [|n IH]; intros l H; simpl; [constructor |].
  destruct H as [|x r Hni Hr]; [constructor |].
  constructor; [| apply IH; exact Hr].
  intros Hin. apply Hni. eapply incl_firstn. exact Hin.
Qed.

(** *** The two engines order by creation time *)

Lemma insertByCreatedAtDesc_sorted s l :
  StronglySorted createdAtDesc l ->
  StronglySorted createdAtDesc (insertByCreatedAtDesc s l).
Proof.
  induction 1 as [|x r Hr IH Hx]; simpl.
  - constructor; constructor.
  - destruct (Sale.createdAt x <=? Sale.createdAt s) eqn:E.
    + apply Z.leb_le in E. constructor.
      * constructor; assumption.
      * constructor; [exact E |].
        eapply Forall_impl; [| exact Hx].
        intros a Ha. unfold createdAtDesc in *. lia.
    + apply Z.leb_gt in E. constructor; [exact IH |].
      apply Forall_insertByCreatedAtDesc; [| exact Hx].
      unfold createdAtDesc. lia.
Qed.

Lemma insertByCreatedAtDesc_perm s l :
  Permutation (s :: l) (insertByCreatedAtDesc s l).
Proof.
  induction l as [|x r IH]; simpl; [apply Permutation_refl |].
  destruct (Sale.createdAt x <=? Sale.createdAt s); [apply Permutation_refl |].
  eapply Permutation_trans; [apply perm_swap |].
  apply perm_skip. exact IH.
Qed.

Lemma tiesInTableOrder_orders : ordersByCreatedAtDesc tiesInTableOrder.
Proof.
  intros l. unfold tiesInTableOrder. induction l as [|x r [IHp IHs]]; simpl.
  - split; constructor.
  - split.
    + eapply Permutation_trans; [| apply insertByCreatedAtDesc_perm].
      apply perm_skip. exact IHp.
    + apply insertByCreatedAtDesc_sorted. exact IHs.
Qed.

Lemma tiesInReverseOrder_orders : ordersByCreatedAtDesc tiesInReverseOrder.
Proof.
  intros l. unfold tiesInReverseOrder.
  destruct (tiesInTableOrder_orders (rev l)) as [Hp Hs]. split; [| exact Hs].
  eapply Permutation_trans; [apply Permutation_rev | exact Hp].
Qed.

(** The engines differ on rows that tie: the two sales of [dbTies] were
    created in the same millisecond. *)
Example engines_differ_on_ties :
  tiesInTableOrder (ventas dbTies) = [saleT1; saleT2]
  /\ tiesInReverseOrder (ventas dbTies) = [saleT2; saleT1].
Proof. split; reflexivity. Qed.

(** ** The queries that name a column the schema does not have

    [Product] has the attributes [id] and [nombre]; the list, the read by
    id and the reloads after a write select [producto.tipo]. *)

Lemma tipo_is_no_column :
  Schema.selectable (including Schema.TProduct "producto" ["id"; "nombre"; "tipo"])
  = false.
Proof. reflexivity. Qed.

Lemma findAllSales_unknown_column order filters userRolId userId pagination db :
  findAllSales order filters userRolId userId pagination db
  = (inl SequelizeDatabaseError, db).
Proof. reflexivity. Qed.

Lemma findSaleById_unknown_column id userRolId userId db :
  findSaleById id userRolId userId db = (inl SequelizeDatabaseError, db).
Proof. reflexivity. Qed.

(** ** The scoped predicate *)

Lemma buildWhereClause_advisor U filters :
  w_usuarioCreadorId (buildWhereClause ROLES.ADVISOR_ID U filters) = Some (Num U).
Proof.
  unfold buildWhereClause. destruct filters as [p e sd ed u].
  change (ROLES.ADVISOR_ID =? ROLES.ADVISOR_ID) with true.
  change (ROLES.ADVISOR_ID =? ROLES.ADMIN_ID) with false.
  rewrite andb_false_r.
  destruct (truthyNum p), (truthyStr e), (truthyDate sd || truthyDate ed);
    reflexivity.
Qed.

Lemma selects_creator w U s :
  w_usuarioCreadorId w = Some (Num U) ->
  selects w s = true ->
  Sale.usuarioCreadorId s = U.
Proof.
  unfold selects. intros -> H. simpl in H.
  repeat (apply andb_true_iff in H; destruct H as [H _]).
  apply Z.eqb_eq in H. symmetry. exact H.
Qed.

Lemma filter_selects_own w U l :
  w_usuarioCreadorId w = Some (Num U) ->
  filter (selects w) (filter (fun s => Sale.usuarioCreadorId s =? U) l)
  = filter (selects w) l.
Proof.
  intros Hw. induction l as [|x r IH]; simpl.
  - reflexivity.
  - destruct (Sale.usuarioCreadorId x =? U) eqn:E; simpl.
    + rewrite IH. reflexivity.
    + destruct (selects w x) eqn:S.
      * apply (selects_creator w U x Hw) in S. apply Z.eqb_neq in E. contradiction.
      * exact IH.
Qed.

(** What [calculateTotalAmount] returns: the sum over the selected rows. *)
Lemma calculateTotalAmount_sum userRolId userId filters db :
  calculateTotalAmount userRolId userId filters db
  = (inr (Num (sumOf (filter (selects (buildWhereClause userRolId userId filters))
                             (ventas db)))), db).
Proof.
  unfold calculateTotalAmount, SaleModel.sum. unfold_m.
  destruct (filter (selects (buildWhereClause userRolId userId filters)) (ventas db))
    as [|x l]; [reflexivity |].
  cbn [truthyNum]. destruct (sumOf (x :: l) =? 0) eqn:Z0; cbn [negb parseFloat].
  - apply Z.eqb_eq in Z0. rewrite Z0. reflexivity.
  - reflexivity.
Qed.

(** ** What the writes do to the store *)

Lemma buildUpdateData_store saleData db x db' :
  buildUpdateData saleData db = (x, db') -> db' = db.
Proof.
  unfold buildUpdateData, Product.findByPk, Franchise.findByPk, readStatus.
  change SALE_STATUS with (@None StatusTable).
  destruct saleData as [p c f t e]. unfold_m. simpl.
  intros H.
  repeat match type of H with
  | context [if ?c then _ else _] => destruct c; simpl in H
  end; inversion H; reflexivity.
Qed.

Lemma findRow_id pk l s : findRow pk l = Some s -> Sale.id s = pk.
Proof.
  unfold findRow. intros H. apply find_some in H. destruct H as [_ H].
  apply Z.eqb_eq in H. exact H.
Qed.

Lemma franchise_guard_store f db :
  exists x,
    (if truthyNum f
     then franchise <- Franchise.findByPk f ;;
          throwIf (negb franchise) (ValidationError "Invalid franchise ID")
     else ret tt) db = (x, db).
Proof.
  destruct (truthyNum f); [| eexists; reflexivity].
  unfold Franchise.findByPk. unfold_m.
  match goal with |- context [if ?c then _ else _] => destruct c end;
    eexists; reflexivity.
Qed.

Lemma truthyNum_val (x : js Z) :
  truthyNum x = true -> exists z, x = val z /\ z <> 0 /\ storedNumber x = Some z.
Proof.
  destruct x as [| |z]; cbn; try discriminate.
  intros H. exists z. apply negb_true_iff in H. rewrite H.
  apply Z.eqb_neq in H. auto.
Qed.

Lemma truthyNum_false_stored (x : js Z) : truthyNum x = false -> storedNumber x = None.
Proof.
  destruct x as [| |z]; cbn; try reflexivity.
  intros H. apply negb_false_iff in H. rewrite H. reflexivity.
Qed.

(** A guard of the run [HR : R = ...] passes, or the call is refused with
    the store as it was. *)
Ltac guard_or_refused HR Hc :=
  rewrite bind_run in HR;
  match type of HR with context [throwIf ?c ?e ?d] =>
    let Hq := fresh "Hq" in
    destruct (throwIf_cases c e d) as [[_ Hq] | [Hc Hq]];
    rewrite Hq in HR; clear Hq;
    [left; eexists; exact HR |]
  end.

Ltac refused HR := left; eexists; exact HR.

(** Every run of a creation: it is refused with the store as it was, or
    the row is inserted and the reload of the created sale fails. *)
Lemma createNewSale_run saleData userId now db :
  (exists e, createNewSale saleData userId now db = (inl e, db))
  \/ (exists p c,
         SaleData.productoId saleData = val p
         /\ SaleData.cupoSolicitado saleData = val c
         /\ truthyStr (SaleData.estado saleData) = true
         /\ let row :=
              {| Sale.id := ventas_autoIncrement db;
                 Sale.productoId := p;
                 Sale.cupoSolicitado := c;
                 Sale.franquiciaId := storedNumber (SaleData.franquiciaId saleData);
                 Sale.tasa := storedNumber (SaleData.tasa saleData);
                 Sale.estado := strOf (SaleData.estado saleData);
                 Sale.usuarioCreadorId := userId;
                 Sale.usuarioActualizadorId := userId;
                 Sale.createdAt := now;
                 Sale.updatedAt := now |} in
            createNewSale saleData userId now db
            = (inl SequelizeDatabaseError, withInserted db row)
            /\ conditionalFieldsOk row = true
            /\ rowInBounds row = true
            /\ fitsDecimal 15 c = true
            /\ productExists db p = true
            /\ franchiseExists db (Sale.franquiciaId row) = true
            /\ userExists db userId = true).
Proof.
  remember (createNewSale saleData userId now db) as R eqn:HR.
  unfold createNewSale in HR. destruct saleData as [p c f t e].
  cbn [SaleData.productoId SaleData.cupoSolicitado SaleData.franquiciaId
       SaleData.tasa SaleData.estado].
  guard_or_refused HR H1.
  rewrite bind_run in HR. unfold Product.findByPk in HR at 1. unfold gets in HR at 1.
  guard_or_refused HR H2. guard_or_refused HR H3. guard_or_refused HR H4.
  rewrite bind_run in HR.
  destruct (franchise_guard_store f db) as [x Hx]. rewrite Hx in HR. clear Hx.
  destruct x as [err|[]]; [refused HR |].
  guard_or_refused HR H5. guard_or_refused HR H6.
  rewrite bind_run in HR. unfold estadoOrOpen, readStatus in HR.
  change SALE_STATUS with (@None StatusTable) in HR.
  destruct (truthyStr e) eqn:He; [| refused HR]. unfold ret in HR at 1.
  rewrite bind_run in HR. unfold create in HR.
  guard_or_refused HR H7.
  cbn [c_productoId c_cupoSolicitado c_franquiciaId c_tasa c_estado
       c_usuarioCreadorId c_usuarioActualizadorId] in *.
  apply orb_false_iff in H1. destruct H1 as [H1p H1c].
  apply negb_false_iff in H1p, H1c.
  destruct (truthyNum_val p H1p) as [pz [-> [Hpz _]]].
  destruct (truthyNum_val c H1c) as [cz [-> [Hcz _]]].
  cbn [parseInt parseFloat num_is] in *.
  apply negb_false_iff in H7. apply andb_true_iff in H7. destruct H7 as [H7c H7t].
  cbn [validCupoSolicitado] in H7c.
  (* the conditional fields of the row *)
  assert (Hcond : conditionalFieldsOk
      {| Sale.id := ventas_autoIncrement db; Sale.productoId := pz;
         Sale.cupoSolicitado := cz; Sale.franquiciaId := storedNumber f;
         Sale.tasa := storedNumber t;
         Sale.estado := strOf e; Sale.usuarioCreadorId := userId;
         Sale.usuarioActualizadorId := userId; Sale.createdAt := now;
         Sale.updatedAt := now |} = true).
  { unfold conditionalFieldsOk. cbn [Sale.productoId Sale.franquiciaId Sale.tasa].
    destruct (pz =? PRODUCTS.CREDIT_CARD_ID) eqn:E3.
    - cbn [andb negb] in H3, H4. apply negb_false_iff in H3.
      destruct (truthyNum_val f H3) as [fz [_ [_ ->]]].
      apply Z.eqb_eq in E3. subst pz. cbn in H6.
      destruct t as [| |tz]; cbn in H6; try discriminate H6; reflexivity.
    - cbn [andb negb] in H4. rewrite (truthyNum_false_stored f H4).
      destruct ((pz =? PRODUCTS.CONSUMER_CREDIT_ID)
                || (pz =? PRODUCTS.FREE_INVESTMENT_PAYROLL_ID)) eqn:E12;
        [| reflexivity].
      cbn [andb] in H5. apply negb_false_iff in H5.
      destruct (truthyNum_val t H5) as [tz [_ [_ ->]]]. reflexivity. }
  clear H3 H4 H5 H6.
  destruct (truthyNum f) eqn:Ef; destruct (truthyNum t) eqn:Et;
    try (destruct (truthyNum_val f Ef) as [fz [-> [Hfz Hsf]]]);
    try (destruct (truthyNum_val t Et) as [tz [-> [Htz Hst]]]);
    try (pose proof (truthyNum_false_stored f Ef) as Hsf);
    try (pose proof (truthyNum_false_stored t Et) as Hst);
    cbn [parseInt parseFloat validTasa] in *;
    rewrite Hsf, Hst in *;
    (match type of HR with context [if ?c then _ else _] =>
       destruct c eqn:Hstore; [| refused HR] end);
    rewrite bind_run in HR; unfold gets in HR at 1;
    (match type of HR with context [if ?c then _ else _] =>
       destruct c eqn:Href; [| refused HR] end);
    right; exists pz, cz;
    (split; [reflexivity |]); (split; [reflexivity |]); (split; [reflexivity |]);
    cbv zeta; rewrite ?Hsf, ?Hst;
    apply andb_true_iff in Hstore; destruct Hstore as [Hstore Hfit5];
    apply andb_true_iff in Hstore; destruct Hstore as [Henum Hfit15];
    apply andb_true_iff in Href; destruct Href as [Href Hupd];
    apply andb_true_iff in Href; destruct Href as [Href Hcre];
    apply andb_true_iff in Href; destruct Href as [Hprod Hfra];
    (split; [exact HR |]);
    (split; [exact Hcond |]);
    (split; [unfold rowInBounds; cbn [Sale.cupoSolicitado Sale.tasa Sale.estado];
             rewrite H7c, Henum, ?H7t; reflexivity |]);
    (split; [exact Hfit15 |]);
    (split; [exact Hprod |]);
    (split; [exact Hfra | exact Hcre]).
Qed.

(** Every run of an update: it is refused with the store as it was, or
    the UPDATE is executed and the reload of the updated sale fails. *)
Lemma updateSaleById_run id saleData userRolId userId now db :
  (exists e, updateSaleById id saleData userRolId userId now db = (inl e, db))
  \/ (exists old u0,
         findRow id (ventas db) = Some old
         /\ ((userRolId =? ROLES.ADVISOR_ID)
             && negb (Sale.usuarioCreadorId old =? userId) = false)
         /\ buildUpdateData saleData db = (inr u0, db)
         /\ let u := setUsuarioActualizadorId u0 userId in
            updateSaleById id saleData userRolId userId now db
            = (inl SequelizeDatabaseError, withUpdated db id u now)
            /\ match u_cupoSolicitado u with
               | Some c => validCupoSolicitado c = true
               | None => True
               end
            /\ match u_tasa u with Some t => validTasa t = true | None => True end
            /\ storable u = true
            /\ referencesExist db u = true).
Proof.
  remember (updateSaleById id saleData userRolId userId now db) as R eqn:HR.
  unfold updateSaleById, findByPk in HR. rewrite bind_run in HR. unfold gets in HR at 1.
  destruct (findRow id (ventas db)) as [old|] eqn:Hold; [| refused HR].
  guard_or_refused HR Hg.
  rewrite bind_run in HR.
  destruct (buildUpdateData saleData db) as [[e|u0] db1] eqn:Hb;
    pose proof (buildUpdateData_store _ _ _ _ Hb) as Hdb; subst db1; [refused HR |].
  guard_or_refused HR Hk.
  unfold update in HR. rewrite (findRow_id _ _ _ Hold) in HR.
  rewrite bind_run in HR. guard_or_refused HR Hv. guard_or_refused HR Hst.
  rewrite bind_run in HR. unfold gets in HR at 1. guard_or_refused HR Href.
  right. exists old, u0.
  split; [reflexivity |]. split; [exact Hg |]. split; [reflexivity |].
  cbv zeta.
  apply negb_false_iff in Hv. apply andb_true_iff in Hv. destruct Hv as [Hvc Hvt].
  apply negb_false_iff in Hst, Href.
  split; [exact HR |].
  split; [destruct (u_cupoSolicitado (setUsuarioActualizadorId u0 userId));
          [exact Hvc | exact I] |].
  split; [destruct (u_tasa (setUsuarioActualizadorId u0 userId));
          [exact Hvt | exact I] |].
  split; [exact Hst | exact Href].
Qed.

(** A delete: refused with the store as it was, or the row is gone. *)
Lemma deleteSaleById_run id userRolId userId db :
  (exists e, deleteSaleById id userRolId userId db = (inl e, db))
  \/ (exists old,
         findRow id (ventas db) = Some old
         /\ deleteSaleById id userRolId userId db
            = (inr true,
               withVentas db (filter (fun r => negb (Sale.id r =? id)) (ventas db)))).
Proof.
  remember (deleteSaleById id userRolId userId db) as R eqn:HR.
  unfold deleteSaleById, findByPk in HR. rewrite bind_run in HR. unfold gets in HR at 1.
  destruct (findRow id (ventas db)) as [old|] eqn:Hold; [| refused HR].
  guard_or_refused HR Hg.
  right. exists old. split; [reflexivity |].
  unfold destroy in HR. rewrite (findRow_id _ _ _ Hold) in HR. exact HR.
Qed.

(** ** Properties of the specification *)

Lemma Forall_ordering (P : Sale.t -> Prop) (order : Ordering) l :
  ordersByCreatedAtDesc order -> Forall P l -> Forall P (order l).
Proof.
  intros Ho Hl. destruct (Ho l) as [Hp _].
  eapply Permutation_Forall; eassumption.
Qed.

(** C1. An advisor with user id [U] reads only their own sales, whatever
    filters are supplied, a [usuarioCreadorId] filter included.  The
    predicate [buildWhereClause] builds for the advisor selects only sales
    created by [U]; the total [calculateTotalAmount] returns is the sum over
    the sales of [U] that pass the filters, the same as on a store that
    holds the sales of [U] alone; the per-status predicates of
    [getSalesCountByStatus] select only sales created by [U]; and a list
    query issued with the predicate returns, under every engine and for
    every include, only sales created by [U]. *)
Theorem advisor_reads_scoped_to_own_sales :
  forall (db : DB) (U : Z) (filters : Filters.t),
    let own := fun s => Sale.usuarioCreadorId s =? U in
    (forall s : Sale.t,
        selects (buildWhereClause ROLES.ADVISOR_ID U filters) s = true ->
        Sale.usuarioCreadorId s = U)
    /\ calculateTotalAmount ROLES.ADVISOR_ID U filters db
       = (inr (Num (sumOf (filter (selects (buildWhereClause ROLES.ADVISOR_ID U filters))
                                  (filter own (ventas db))))), db)
    /\ fst (calculateTotalAmount ROLES.ADVISOR_ID U filters db)
       = fst (calculateTotalAmount ROLES.ADVISOR_ID U filters
                (withVentas db (filter own (ventas db))))
    /\ (forall (e : string) (s : Sale.t),
           selects (withEstado (buildWhereClause ROLES.ADVISOR_ID U Filters.empty) e) s
           = true ->
           Sale.usuarioCreadorId s = U)
    /\ (forall (order : Ordering) (include : list Schema.Include) (limit offset n : Z)
               (rows : list Sale.t) (db' : DB),
           ordersByCreatedAtDesc order ->
           findAndCountAll order (buildWhereClause ROLES.ADVISOR_ID U filters)
                           include limit offset db = (inr (n, rows), db') ->
           Forall (fun s => Sale.usuarioCreadorId s = U) rows).
Proof.
  intros db U filters own.
  pose proof (buildWhereClause_advisor U filters) as Hw.
  split; [| split; [| split; [| split]]].
  - intros s Hs. eapply selects_creator; eassumption.
  - rewrite calculateTotalAmount_sum. unfold own.
    rewrite (filter_selects_own _ U _ Hw). reflexivity.
  - rewrite !calculateTotalAmount_sum. cbn [fst ventas withVentas]. unfold own.
    rewrite (filter_selects_own _ U _ Hw). reflexivity.
  - intros e s Hs. eapply selects_creator; [| exact Hs].
    unfold withEstado. cbn [w_usuarioCreadorId].
    apply buildWhereClause_advisor.
  - intros order include limit offset n rows db' Ho H.
    unfold findAndCountAll, joining in H. rewrite bind_run in H.
    destruct (forallb Schema.selectable include); [| discriminate H].
    cbn [negb] in H. rewrite throwIf_false in H. unfold_m.
    destruct ((limit <? 0) || (offset <? 0)); [discriminate H |].
    injection H as _ <- _.
    apply Forall_firstn_rows, Forall_skipn_rows, Forall_ordering; [exact Ho |].
    eapply Forall_impl; [| apply Forall_filter_selects].
    intros s Hs. eapply selects_creator; eassumption.
Qed.

(** Advisor 2 asks for the sales of advisor 3: the predicate selects sale 1,
    their own, and a list query with it returns that sale alone. *)
Lemma advisor_reads_scoped_to_own_sales_witness :
  Sale.usuarioCreadorId saleS1 = 2
  /\ Forall (fun s => Sale.usuarioCreadorId s = 2) [saleS1].
Proof.
  pose proof (advisor_reads_scoped_to_own_sales db0 2
                (Filters.mk undefined undefined undefined undefined (val 3)))
    as [Hsel [_ [_ [_ Hlist]]]].
  split.
  - apply Hsel. reflexivity.
  - apply (Hlist tiesInTableOrder [] 10 0 1 [saleS1] db0).
    + exact tiesInTableOrder_orders.
    + reflexivity.
Defined.

Lemma findRow_map_update id u now l old :
  findRow id l = Some old ->
  findRow id (map (fun r => if Sale.id r =? id then applyUpdate u now r else r) l)
  = Some (applyUpdate u now old).
Proof.
  unfold findRow. induction l as [|x r IH]; simpl; [discriminate |].
  destruct (Sale.id x =? id) eqn:E; simpl; rewrite E.
  - intros H. inversion H. reflexivity.
  - exact IH.
Qed.




(** C6. An advisor who updates or deletes an existing sale created by
    someone else gets an authorization error and the store is left as it
    was; when no sale has the id, any caller gets a not-found error. *)
Theorem advisor_cannot_modify_foreign_sale :
  forall (db : DB) (id userId now : Z) (patch : SaleData.t),
    (forall s : Sale.t,
        findRow id (ventas db) = Some s ->
        Sale.usuarioCreadorId s <> userId ->
        updateSaleById id patch ROLES.ADVISOR_ID userId now db
        = (inl (AuthorizationError "You can only update your own sales"), db)
        /\ deleteSaleById id ROLES.ADVISOR_ID userId db
           = (inl (AuthorizationError "You can only delete your own sales"), db))
    /\ (findRow id (ventas db) = None ->
        forall userRolId : Z,
          updateSaleById id patch userRolId userId now db
          = (inl (NotFoundError "Sale not found"), db)
          /\ deleteSaleById id userRolId userId db
             = (inl (NotFoundError "Sale not found"), db)).
Proof.
  intros db id userId now patch. split.
  - intros s Hs Hne.
    apply Z.eqb_neq in Hne.
    unfold updateSaleById, deleteSaleById, findByPk.
    rewrite !bind_run. unfold gets. rewrite Hs. rewrite !bind_run.
    change (ROLES.ADVISOR_ID =? ROLES.ADVISOR_ID) with true.
    rewrite Hne. split; reflexivity.
  - intros Hnone role.
    unfold updateSaleById, deleteSaleById, findByPk.
    rewrite !bind_run. unfold gets. rewrite Hnone. split; reflexivity.
Qed.

(** Advisor 2 goes for sale 2, which advisor 3 created, and for sale 9,
    which does not exist. *)
Lemma advisor_cannot_modify_foreign_sale_witness :
  (updateSaleById 2 (SaleData.mk undefined (val 100) undefined undefined undefined)
                  2 2 7000 db0
   = (inl (AuthorizationError "You can only update your own sales"), db0)
   /\ deleteSaleById 2 2 2 db0
      = (inl (AuthorizationError "You can only delete your own sales"), db0))
  /\ (updateSaleById 9 (SaleData.mk undefined (val 100) undefined undefined undefined)
                     2 2 7000 db0
      = (inl (NotFoundError "Sale not found"), db0)
      /\ deleteSaleById 9 2 2 db0 = (inl (NotFoundError "Sale not found"), db0)).
Proof.
  split.
  - apply (proj1 (advisor_cannot_modify_foreign_sale db0 2 2 7000
                    (SaleData.mk undefined (val 100) undefined undefined undefined))
                 saleS2).
    + reflexivity.
    + simpl. lia.
  - apply (proj2 (advisor_cannot_modify_foreign_sale db0 9 2 7000
                    (SaleData.mk undefined (val 100) undefined undefined undefined))).
    reflexivity.
Defined.

(** C7. A delete-user request whose target is the caller's own id is
    answered with a validation error before any lookup or deletion: the
    store, and so the account, is as it was. *)
Theorem admin_cannot_delete_own_account :
  forall (db : DB) (currentUser : User.t),
    UserController.deleteUser (User.id currentUser) currentUser db
    = (inl (ValidationError "You cannot delete your own account"), db)
    /\ errorHandler (ValidationError "You cannot delete your own account")
       = (VALIDATION_ERROR, 400).
Proof.
  intros db currentUser. split; [| reflexivity].
  unfold UserController.deleteUser. rewrite bind_run.
  rewrite Z.eqb_refl. reflexivity.
Qed.

(** C10. An update of an existing sale by an authorized caller whose patch
    sets none of the five fields is rejected with the validation error
    'No fields to update', and the store is left as it was. *)
Theorem update_without_fields_is_rejected :
  forall (db : DB) (id userRolId userId now : Z) (s : Sale.t),
    findRow id (ventas db) = Some s ->
    (userRolId <> ROLES.ADVISOR_ID \/ Sale.usuarioCreadorId s = userId) ->
    updateSaleById id (SaleData.mk undefined undefined undefined undefined undefined)
                   userRolId userId now db
    = (inl (ValidationError "No fields to update"), db).
Proof.
  intros db id role user now s Hs Hauth.
  unfold updateSaleById, findByPk. rewrite bind_run. unfold gets. rewrite Hs.
  rewrite bind_run.
  assert (Hg : (role =? ROLES.ADVISOR_ID) && negb (Sale.usuarioCreadorId s =? user)
               = false).
  { destruct Hauth as [Hr | Ho].
    - apply Z.eqb_neq in Hr. rewrite Hr. reflexivity.
    - apply Z.eqb_eq in Ho. rewrite Ho. apply andb_false_r. }
  rewrite Hg. reflexivity.
Qed.

(** Advisor 2 sends an empty patch for sale 1, which is theirs. *)
Lemma update_without_fields_is_rejected_witness :
  updateSaleById 1 (SaleData.mk undefined undefined undefined undefined undefined)
                 2 2 7000 db0
  = (inl (ValidationError "No fields to update"), db0).
Proof.
  apply (update_without_fields_is_rejected db0 1 2 2 7000 saleS1).
  - reflexivity.
  - right. reflexivity.
Defined.

(** ** Where the code departs from the specification *)

(** C2. [updateSaleById] does not apply the conditional field validation to
    the merged record.  Advisor 2 changes the product of their consumer
    credit (sale 1 of [db0], rate 15.5, no franchise) to Credit Card: no
    validation failure is raised, the UPDATE is executed, and the stored
    sale is a credit card without a franchise and with a rate.  The call
    then fails on the reload of the sale, which names [producto.tipo]; the
    row stays as written. *)
Lemma update_skips_conditional_validation :
  let stored := Sale.mk 1 3 500000000 None (Some 1550) "Abierto" 2 2 1000 7000 in
  updateSaleById 1 (SaleData.mk (val 3) undefined undefined undefined undefined)
                 ROLES.ADVISOR_ID 2 7000 db0
  = (inl SequelizeDatabaseError, withVentas db0 [stored; saleS2])
  /\ isValidationFailure SequelizeDatabaseError = false
  /\ Sale.productoId stored = PRODUCTS.CREDIT_CARD_ID
  /\ Sale.franquiciaId stored = None
  /\ Sale.tasa stored = Some 1550
  /\ conditionalFieldsOk stored = false.
Proof. repeat split. Qed.

(** The same in the other direction: the admin turns the credit card of
    advisor 3 into a payroll loan, which is stored with a franchise and
    without a rate. *)
Lemma update_to_payroll_keeps_franchise :
  let stored := Sale.mk 2 2 200000000 (Some 2) None "Abierto" 3 1 2000 7000 in
  updateSaleById 2 (SaleData.mk (val 2) undefined undefined undefined undefined)
                 ROLES.ADMIN_ID 1 7000 db0
  = (inl SequelizeDatabaseError, withVentas db0 [saleS1; stored])
  /\ conditionalFieldsOk stored = false.
Proof. repeat split. Qed.

(** The name the sale service imports is not among the exports. *)
Lemma SALE_STATUS_is_undefined : SALE_STATUS = None.
Proof. reflexivity. Qed.

(** C3. A creation that leaves [estado] out ends in a TypeError, which is
    neither a stored record nor a validation failure: advisor 3 creates a
    credit card with franchise VISA and no status. *)
Lemma create_without_estado_is_a_server_error :
  createNewSale (SaleData.mk (val 3) (val 200000000) (val 2) undefined undefined)
                3 5000 db0
  = (inl (TypeError "Cannot read properties of undefined (reading 'OPEN')"), db0)
  /\ isValidationFailure
       (TypeError "Cannot read properties of undefined (reading 'OPEN')") = false
  /\ errorHandler (TypeError "Cannot read properties of undefined (reading 'OPEN')")
     = (SERVER_ERROR, 500).
Proof. repeat split. Qed.

(** No creation without a status inserts a row, whatever the other fields. *)
Lemma createNewSale_needs_estado saleData userId now db :
  truthyStr (SaleData.estado saleData) = false ->
  exists e, createNewSale saleData userId now db = (inl e, db).
Proof.
  intros He.
  destruct (createNewSale_run saleData userId now db)
    as [H | [p [c [_ [_ [Ht _]]]]]]; [exact H |].
  rewrite He in Ht. discriminate Ht.
Qed.

(** What holds of C3: whatever a creation answers, it leaves the store as
    it was or has inserted one row, and that row meets the conditional
    fields of its product. *)
Lemma createNewSale_conditional_fields saleData userId now db r db' :
  createNewSale saleData userId now db = (r, db') ->
  db' = db
  \/ exists row, ventas db' = (ventas db ++ [row])%list
                 /\ SaleData.productoId saleData = val (Sale.productoId row)
                 /\ conditionalFieldsOk row = true.
Proof.
  intros H.
  destruct (createNewSale_run saleData userId now db)
    as [[e He] | [p [c [Hp [_ [_ Hrow]]]]]].
  - rewrite He in H. injection H as _ <-. left. reflexivity.
  - cbv zeta in Hrow. destruct Hrow as [Hrun [Hcond _]].
    rewrite Hrun in H. injection H as _ <-. right.
    eexists. split; [reflexivity |]. split; [exact Hp | exact Hcond].
Qed.

(** C4. The boundary rate 0 is not accepted: for both rate-bearing
    products, a creation with rate 0 and every other field valid passes the
    request validation and is then rejected by the service as if the rate
    were missing. *)
Lemma create_rejects_rate_zero :
  ValidationMiddleware.validateSaleCreate
    (SaleData.mk (val 1) (val 500000000) undefined (val 0) (val "Abierto")) = []
  /\ SaleController.postSale
       (SaleData.mk (val 1) (val 500000000) undefined (val 0) (val "Abierto"))
       advisorA 5000 db0
     = (inl (ValidationError "Rate is required for credits and payrolls"), db0)
  /\ SaleController.postSale
       (SaleData.mk (val 2) (val 500000000) undefined (val 0) (val "Abierto"))
       advisorA 5000 db0
     = (inl (ValidationError "Rate is required for credits and payrolls"), db0)
  /\ createNewSale
       (SaleData.mk (val 1) (val 500000000) undefined (val 0) (val "Abierto"))
       2 5000 db0
     = (inl (ValidationError "Rate is required for credits and payrolls"), db0).
Proof. repeat split. Qed.

(** The service inserts no row with rate 0 for a rate-bearing product, in
    any store and with any other fields. *)
Lemma createNewSale_rate_zero saleData userId now db :
  SaleData.tasa saleData = val 0 ->
  SaleData.productoId saleData = val PRODUCTS.CONSUMER_CREDIT_ID
  \/ SaleData.productoId saleData = val PRODUCTS.FREE_INVESTMENT_PAYROLL_ID ->
  exists e, createNewSale saleData userId now db = (inl e, db).
Proof.
  intros Ht Hp.
  destruct (createNewSale_run saleData userId now db)
    as [H | [p [c [Hp' [_ [_ Hrow]]]]]]; [exact H |].
  exfalso. cbv zeta in Hrow. destruct Hrow as [_ [Hcond _]].
  rewrite Ht in Hcond. unfold conditionalFieldsOk in Hcond.
  cbn [Sale.productoId Sale.franquiciaId Sale.tasa storedNumber] in Hcond.
  destruct Hp as [Hp | Hp]; rewrite Hp in Hp'; injection Hp' as <-;
    cbn in Hcond; destruct (storedNumber (SaleData.franquiciaId saleData));
    discriminate Hcond.
Qed.

(** The rest of the boundary.  Rate 100 passes the request validation and
    the checks of the service and the row is inserted, with the rate as
    sent; the call then fails on the reload of the created sale.  Rates
    100.01 and -0.01 are rejected by the request validation, and by the
    validators of the model when the service is called directly. *)
Lemma create_rate_boundary_rest :
  SaleController.postSale
    (SaleData.mk (val 1) (val 500000000) undefined (val 10000) (val "Abierto"))
    advisorA 5000 db0
  = (inl SequelizeDatabaseError,
     withInserted db0 (Sale.mk 3 1 500000000 None (Some 10000) "Abierto" 2 2 5000 5000))
  /\ SaleController.postSale
       (SaleData.mk (val 1) (val 500000000) undefined (val 10001) (val "Abierto"))
       advisorA 5000 db0
     = (inl (ValidationError "Validation failed"), db0)
  /\ SaleController.postSale
       (SaleData.mk (val 1) (val 500000000) undefined (val (-1)) (val "Abierto"))
       advisorA 5000 db0
     = (inl (ValidationError "Validation failed"), db0)
  /\ createNewSale
       (SaleData.mk (val 1) (val 500000000) undefined (val 10001) (val "Abierto"))
       2 5000 db0
     = (inl SequelizeValidationError, db0)
  /\ createNewSale
       (SaleData.mk (val 1) (val 500000000) undefined (val (-1)) (val "Abierto"))
       2 5000 db0
     = (inl SequelizeValidationError, db0).
Proof. repeat split. Qed.

(** C8. The total has no list to agree with.  For every caller and filters
    [calculateTotalAmount] returns the sum of [cupoSolicitado] over the
    sales the scoped predicate of [buildWhereClause] selects, which for an
    advisor are sales of their own; [findAllSales] with the same caller and
    filters, under any engine and with any page and limit, returns no item:
    it fails with a SequelizeDatabaseError. *)
Theorem total_amount_has_no_list_to_agree_with :
  forall (order : Ordering) (db : DB) (userRolId userId : Z) (filters : Filters.t)
         (pagination : Pagination.t),
    let selected :=
      filter (selects (buildWhereClause userRolId userId filters)) (ventas db) in
    calculateTotalAmount userRolId userId filters db = (inr (Num (sumOf selected)), db)
    /\ (userRolId = ROLES.ADVISOR_ID ->
        Forall (fun s => Sale.usuarioCreadorId s = userId) selected)
    /\ findAllSales order filters userRolId userId pagination db
       = (inl SequelizeDatabaseError, db).
Proof.
  intros order db role user filters pagination selected.
  split; [apply calculateTotalAmount_sum |].
  split; [| apply findAllSales_unknown_column].
  intros ->. unfold selected.
  eapply Forall_impl; [| apply Forall_filter_selects].
  intros s Hs. eapply selects_creator; [apply buildWhereClause_advisor | exact Hs].
Qed.

(** The admin totals the two sales of [db0] and asks for them with limit
    100; advisor 2 totals their own. *)
Lemma total_amount_has_no_list_to_agree_with_witness :
  (calculateTotalAmount 1 1 Filters.empty db0 = (inr (Num 700000000), db0)
   /\ findAllSales tiesInTableOrder Filters.empty 1 1
                   (Pagination.mk (Some 1) (Some 100)) db0
      = (inl SequelizeDatabaseError, db0))
  /\ Forall (fun s => Sale.usuarioCreadorId s = 2) [saleS1].
Proof.
  split.
  - pose proof (total_amount_has_no_list_to_agree_with tiesInTableOrder db0 1 1
                  Filters.empty (Pagination.mk (Some 1) (Some 100)))
      as [Htotal [_ Hlist]].
    split; [exact Htotal | exact Hlist].
  - exact (proj1 (proj2 (total_amount_has_no_list_to_agree_with tiesInTableOrder db0
                           2 2 Filters.empty (Pagination.mk None None)))
             eq_refl).
Defined.

(** C9. The sales list returns no items to be in order: every call of
    [findAllSales], for every caller, filter and page and under any engine,
    fails on the statement of the list, which selects [producto.tipo], and
    is answered DATABASE_ERROR / 500.  So it is for the admin who lists the
    seeded store and the store with two sales of the same instant. *)
Theorem sales_list_fails_on_every_call :
  (forall (order : Ordering) (db : DB) (filters : Filters.t)
          (userRolId userId : Z) (pagination : Pagination.t),
      findAllSales order filters userRolId userId pagination db
      = (inl SequelizeDatabaseError, db))
  /\ findAllSales tiesInReverseOrder Filters.empty ROLES.ADMIN_ID 1
                  (Pagination.mk None None) db0
     = (inl SequelizeDatabaseError, db0)
  /\ findAllSales tiesInReverseOrder Filters.empty ROLES.ADMIN_ID 1
                  (Pagination.mk (Some 1) (Some 100)) dbTies
     = (inl SequelizeDatabaseError, dbTies)
  /\ errorHandler SequelizeDatabaseError = (DATABASE_ERROR, 500).
Proof.
  split; [intros; apply findAllSales_unknown_column |].
  repeat split.
Qed.

(** * Further properties of the services *)

(** ** Reading and deleting a sale by id *)

Lemma findRow_In pk l s : findRow pk l = Some s -> In s l /\ Sale.id s = pk.
Proof.
  unfold findRow. intros H. apply find_some in H. destruct H as [Hin H].
  apply Z.eqb_eq in H. auto.
Qed.

Lemma owner_guard_false userRolId userId s :
  userRolId <> ROLES.ADVISOR_ID \/ Sale.usuarioCreadorId s = userId ->
  (userRolId =? ROLES.ADVISOR_ID) && negb (Sale.usuarioCreadorId s =? userId) = false.
Proof.
  intros [Hr | Ho].
  - apply Z.eqb_neq in Hr. rewrite Hr. reflexivity.
  - apply Z.eqb_eq in Ho. rewrite Ho. apply andb_false_r.
Qed.

(** X1. The read by id answers every request alike: whether the id is
    stored or not, and whether the sale is the caller's or not, the call
    fails on its first statement, which selects [producto.tipo] and
    [producto.descripcion]; the answer is DATABASE_ERROR / 500, not
    NOT_FOUND or AUTHORIZATION_ERROR, and nothing is written. *)
Theorem read_by_id_fails_on_every_call :
  forall (db : DB) (id userRolId userId : Z),
    findSaleById id userRolId userId db = (inl SequelizeDatabaseError, db)
    /\ errorHandler SequelizeDatabaseError = (DATABASE_ERROR, 500).
Proof.
  intros db id role user.
  split; [apply findSaleById_unknown_column | reflexivity].
Qed.

Lemma findRow_filter_other id l :
  findRow id (filter (fun r => negb (Sale.id r =? id)) l) = None.
Proof.
  unfold findRow. induction l as [|x r IH]; simpl; [reflexivity |].
  destruct (Sale.id x =? id) eqn:E; simpl; [exact IH |].
  rewrite E. exact IH.
Qed.

Lemma findRow_filter_same id j l :
  j <> id ->
  findRow j (filter (fun r => negb (Sale.id r =? id)) l) = findRow j l.
Proof.
  intros Hne. unfold findRow. induction l as [|x r IH]; simpl; [reflexivity |].
  destruct (Sale.id x =? id) eqn:E; simpl.
  - apply Z.eqb_eq in E.
    destruct (Sale.id x =? j) eqn:Ej; [apply Z.eqb_eq in Ej; congruence | exact IH].
  - destruct (Sale.id x =? j); [reflexivity | exact IH].
Qed.

(** X2. A delete by the owner or by a caller who is not an advisor succeeds
    on an existing sale; afterwards no row has the id, so that deleting or
    updating it again gives not-found for every caller; every other sale is
    stored as before, and nothing but the sales table has changed. *)
Theorem deleteSaleById_removes_the_sale :
  forall (db : DB) (id userRolId userId : Z) (s : Sale.t),
    findRow id (ventas db) = Some s ->
    (userRolId <> ROLES.ADVISOR_ID \/ Sale.usuarioCreadorId s = userId) ->
    exists db' : DB,
      deleteSaleById id userRolId userId db = (inr true, db')
      /\ db' = withVentas db (filter (fun r => negb (Sale.id r =? id)) (ventas db))
      /\ findRow id (ventas db') = None
      /\ (forall r u, deleteSaleById id r u db' = (inl (NotFoundError "Sale not found"), db'))
      /\ (forall r u patch now,
             updateSaleById id patch r u now db'
             = (inl (NotFoundError "Sale not found"), db'))
      /\ (forall j, j <> id -> findRow j (ventas db') = findRow j (ventas db)).
Proof.
  intros db id role user s Hs Hauth.
  pose proof (owner_guard_false role user s Hauth) as Hg.
  eexists. split; [| split; [reflexivity |]].
  - unfold deleteSaleById, findByPk. rewrite bind_run. unfold gets. rewrite Hs.
    rewrite bind_run, Hg. cbn. unfold destroy. unfold_m.
    destruct (findRow_In _ _ _ Hs) as [_ ->]. reflexivity.
  - cbn [ventas withVentas]. split; [apply findRow_filter_other |].
    split; [| split].
    + intros r u. unfold deleteSaleById, findByPk. rewrite bind_run. unfold gets.
      cbn [ventas withVentas]. rewrite findRow_filter_other. reflexivity.
    + intros r u patch now. unfold updateSaleById, findByPk. rewrite bind_run.
      unfold gets. cbn [ventas withVentas]. rewrite findRow_filter_other. reflexivity.
    + intros j Hj. apply findRow_filter_same. exact Hj.
Qed.

(** The admin deletes sale 2 of [db0]. *)
Lemma deleteSaleById_removes_the_sale_witness :
  exists db' : DB,
    deleteSaleById 2 1 1 db0 = (inr true, db')
    /\ db' = withVentas db0 (filter (fun r => negb (Sale.id r =? 2)) (ventas db0))
    /\ findRow 2 (ventas db') = None
    /\ (forall r u, deleteSaleById 2 r u db' = (inl (NotFoundError "Sale not found"), db'))
    /\ (forall r u patch now,
           updateSaleById 2 patch r u now db'
           = (inl (NotFoundError "Sale not found"), db'))
    /\ (forall j, j <> 2 -> findRow j (ventas db') = findRow j (ventas db0)).
Proof.
  apply (deleteSaleById_removes_the_sale db0 2 1 1 saleS2).
  - reflexivity.
  - left. unfold ROLES.ADVISOR_ID. lia.
Defined.

(** ** Updating a sale *)

Lemma findRow_map_other id j u now l :
  j <> id ->
  findRow j (map (fun r => if Sale.id r =? id then applyUpdate u now r else r) l)
  = findRow j l.
Proof.
  intros Hne. unfold findRow. induction l as [|x r IH]; simpl; [reflexivity |].
  destruct (Sale.id x =? id) eqn:E; simpl.
  - apply Z.eqb_eq in E.
    destruct (Sale.id x =? j) eqn:Ej; [apply Z.eqb_eq in Ej; congruence | exact IH].
  - destruct (Sale.id x =? j); [reflexivity | exact IH].
Qed.

(** X3. An update touches one sale only, whatever it answers: the ids and
    creation times of all rows, every row stored under another id, the
    other tables and the id counter are after the call as they were
    before. *)
Theorem updateSaleById_frame :
  forall (db db' : DB) (id userRolId userId now : Z) (patch : SaleData.t)
         (r : error + Sale.t),
    updateSaleById id patch userRolId userId now db = (r, db') ->
    map Sale.id (ventas db') = map Sale.id (ventas db)
    /\ map Sale.createdAt (ventas db') = map Sale.createdAt (ventas db)
    /\ (forall j, j <> id -> findRow j (ventas db') = findRow j (ventas db))
    /\ usuarios db' = usuarios db
    /\ productos_tipos db' = productos_tipos db
    /\ franquicias db' = franquicias db
    /\ ventas_autoIncrement db' = ventas_autoIncrement db.
Proof.
  intros db db' id role user now patch r H.
  destruct (updateSaleById_run id patch role user now db)
    as [[e He] | [old [u0 [_ [_ [_ Hrun]]]]]].
  - rewrite He in H. injection H as _ <-. repeat split; reflexivity.
  - cbv zeta in Hrun. destruct Hrun as [Hrun _].
    rewrite Hrun in H. injection H as _ <-. unfold withUpdated.
    cbn [ventas withVentas usuarios productos_tipos franquicias ventas_autoIncrement].
    repeat split.
    + rewrite map_map. apply map_ext. intros x. destruct (Sale.id x =? id); reflexivity.
    + rewrite map_map. apply map_ext. intros x. destruct (Sale.id x =? id); reflexivity.
    + intros j Hj. apply findRow_map_other. exact Hj.
Qed.

(** The admin raises the amount of sale 1 of [db0]; sale 2 is stored as
    before. *)
Lemma updateSaleById_frame_witness :
  findRow 2 (ventas (snd (updateSaleById 1
                            (SaleData.mk undefined (val 600000000) undefined undefined
                                         undefined) 1 1 7000 db0)))
  = findRow 2 (ventas db0).
Proof.
  refine (proj1 (proj2 (proj2
            (updateSaleById_frame db0 _ 1 1 1 7000
               (SaleData.mk undefined (val 600000000) undefined undefined undefined)
               _ (surjective_pairing _)))) 2 _).
  lia.
Defined.

(** X4. A patch that carries only an amount, of at least 0.01 and within
    the fifteen digits of the column, sent by the owner or by a caller who
    is not an advisor: the UPDATE is executed and changes the amount, the
    updater and the update time of the sale and nothing else of it, and no
    other sale; the call is then answered with the database error of the
    reload. *)
Theorem updateSaleById_amount_only :
  forall (db : DB) (id userRolId userId now : Z) (c : decimal) (old : Sale.t),
    findRow id (ventas db) = Some old ->
    (userRolId <> ROLES.ADVISOR_ID \/ Sale.usuarioCreadorId old = userId) ->
    userExists db userId = true ->
    1 <= c < 10 ^ 15 ->
    let stored :=
      {| Sale.id := Sale.id old;
         Sale.productoId := Sale.productoId old;
         Sale.cupoSolicitado := c;
         Sale.franquiciaId := Sale.franquiciaId old;
         Sale.tasa := Sale.tasa old;
         Sale.estado := Sale.estado old;
         Sale.usuarioCreadorId := Sale.usuarioCreadorId old;
         Sale.usuarioActualizadorId := userId;
         Sale.createdAt := Sale.createdAt old;
         Sale.updatedAt := now |} in
    exists db' : DB,
      updateSaleById id (SaleData.mk undefined (val c) undefined undefined undefined)
                     userRolId userId now db
      = (inl SequelizeDatabaseError, db')
      /\ findRow id (ventas db') = Some stored
      /\ (forall j, j <> id -> findRow j (ventas db') = findRow j (ventas db)).
Proof.
  intros db id role user now c old Hold Hauth Huser Hc stored.
  pose proof (owner_guard_false role user old Hauth) as Hg.
  assert (Hv : (1 <=? c) = true) by (apply Z.leb_le; lia).
  assert (Hfit : fitsDecimal 15 c = true).
  { unfold fitsDecimal. apply Z.ltb_lt. rewrite Z.abs_eq; lia. }
  set (u := setUsuarioActualizadorId
              (setCupoSolicitado emptyUpdate (parseFloat (val c))) user).
  assert (Hnew : findRow id (ventas (withUpdated db id u now)) = Some stored).
  { unfold withUpdated. cbn [ventas withVentas].
    rewrite (findRow_map_update id u now _ old Hold). reflexivity. }
  assert (Hu : update old u now db = (inr tt, withUpdated db id u now)).
  { unfold update, u, storable, referencesExist. unfold_m.
    cbn -[Z.leb Z.eqb map applyUpdate fitsDecimal userExists withUpdated].
    rewrite Hv, Hfit. cbn -[Z.leb Z.eqb map applyUpdate userExists withUpdated].
    rewrite Huser. cbn -[Z.leb Z.eqb map applyUpdate withUpdated].
    unfold withUpdated. destruct (findRow_In _ _ _ Hold) as [_ ->]. reflexivity. }
  exists (withUpdated db id u now). split; [| split].
  - unfold updateSaleById, findByPk. rewrite bind_run. unfold gets at 1. rewrite Hold.
    rewrite bind_run, Hg. cbn [throwIf].
    change (buildUpdateData
              (SaleData.mk undefined (val c) undefined undefined undefined))
      with (@ret UpdateValues (setCupoSolicitado emptyUpdate (Num c))).
    unfold ret at 1 2. rewrite !bind_run. cbn [noKeys setCupoSolicitado emptyUpdate
      u_productoId u_cupoSolicitado throwIf].
    unfold ret at 1. change (setUsuarioActualizadorId
                               (setCupoSolicitado emptyUpdate (Num c)) user) with u.
    rewrite bind_run, Hu. reflexivity.
  - exact Hnew.
  - intros j Hj. unfold withUpdated. cbn [ventas withVentas].
    apply findRow_map_other. exact Hj.
Qed.

(** Advisor 2 raises the amount of their sale 1 in [db0]. *)
Lemma updateSaleById_amount_only_witness :
  exists db' : DB,
    updateSaleById 1 (SaleData.mk undefined (val 600000000) undefined undefined undefined)
                   2 2 7000 db0
    = (inl SequelizeDatabaseError, db')
    /\ findRow 1 (ventas db')
       = Some (Sale.mk 1 1 600000000 None (Some 1550) "Abierto" 2 2 1000 7000)
    /\ (forall j, j <> 1 -> findRow j (ventas db') = findRow j (ventas db0)).
Proof.
  apply (updateSaleById_amount_only db0 1 2 2 7000 600000000 saleS1).
  - reflexivity.
  - right. reflexivity.
  - reflexivity.
  - lia.
Defined.

Lemma buildUpdateData_with_estado saleData db :
  isUndefined (SaleData.estado saleData) = false ->
  exists e, buildUpdateData saleData db = (inl e, db).
Proof.
  unfold buildUpdateData, Product.findByPk, Franchise.findByPk, readStatus.
  change SALE_STATUS with (@None StatusTable).
  destruct saleData as [p c f t e]. cbn [SaleData.estado]. intros He.
  unfold_m. cbn [SaleData.productoId SaleData.cupoSolicitado SaleData.franquiciaId
                 SaleData.tasa SaleData.estado].
  rewrite He. cbn [negb].
  repeat match goal with
  | |- context [if ?c then _ else _] => destruct c
  end; eexists; reflexivity.
Qed.

(** X5. An update whose patch carries [estado] never succeeds, whatever the
    value, the sale and the caller, and it changes nothing: the service reads
    the valid statuses from [SALE_STATUS]. *)
Theorem updateSaleById_with_estado_fails :
  forall (db : DB) (id userRolId userId now : Z) (patch : SaleData.t),
    isUndefined (SaleData.estado patch) = false ->
    exists e : error, updateSaleById id patch userRolId userId now db = (inl e, db).
Proof.
  intros db id role user now patch He.
  destruct (buildUpdateData_with_estado patch db He) as [e1 Hb].
  unfold updateSaleById, findByPk. rewrite bind_run. unfold gets.
  destruct (findRow id (ventas db)) as [old|]; [| eexists; reflexivity].
  rewrite bind_run.
  match goal with |- context [throwIf ?c ?e ?d] =>
    destruct (throwIf_cases c e d) as [[_ ->] | [_ ->]]; [eexists; reflexivity |] end.
  rewrite bind_run, Hb. eexists. reflexivity.
Qed.

(** The admin tries to finish sale 1 of [db0]. *)
Lemma updateSaleById_with_estado_fails_witness :
  exists e : error,
    updateSaleById 1 (SaleData.mk undefined undefined undefined undefined
                                  (val "Finalizado")) 1 1 7000 db0
    = (inl e, db0).
Proof.
  apply (updateSaleById_with_estado_fails db0 1 1 1 7000). reflexivity.
Defined.

(** ** Creating a sale *)

Lemma estadoInEnum_not_empty st : estadoInEnum st = true -> String.eqb st "" = false.
Proof.
  unfold estadoInEnum. intros H.
  destruct (String.eqb st "") eqn:E; [| reflexivity].
  apply String.eqb_eq in E. subst st. discriminate H.
Qed.

Lemma existsb_Zeqb_false z l : ~ In z l -> existsb (Z.eqb z) l = false.
Proof.
  intros H. destruct (existsb (Z.eqb z) l) eqn:E; [| reflexivity].
  apply existsb_exists in E. destruct E as [x [Hx Hz]].
  apply Z.eqb_eq in Hz. subst x. contradiction.
Qed.

Lemma existsb_Zeqb_true z l : In z l -> existsb (Z.eqb z) l = true.
Proof.
  intros H. apply existsb_exists. exists z. split; [exact H | apply Z.eqb_refl].
Qed.

Lemma fitsDecimal_15 c : 1 <= c < 10 ^ 15 -> fitsDecimal 15 c = true.
Proof.
  intros H. unfold fitsDecimal. apply Z.ltb_lt. rewrite Z.abs_eq; lia.
Qed.

Lemma fitsDecimal_5 t : 0 <= t <= 10000 -> fitsDecimal 5 t = true.
Proof.
  intros H. unfold fitsDecimal. apply Z.ltb_lt. rewrite Z.abs_eq; lia.
Qed.

Ltac guard_false tac :=
  rewrite bind_run;
  match goal with |- context [throwIf ?c ?e ?d] =>
    let H := fresh in
    assert (H : c = false) by tac;
    rewrite H; rewrite throwIf_false; clear H
  end.

(** X7. A credit card request whose checks pass is stored as sent and then
    answered with an error.  The product and the franchise are in their
    catalogs, the amount is at least 0.01 and within the fifteen digits of
    the column, no rate is sent, the status is one of the three and the
    caller is a user: the row is inserted under the next id, with the
    franchise and a null rate, and the reload of the created sale fails. *)
Theorem createNewSale_stores_credit_card :
  forall (db : DB) (userId now : Z) (c : decimal) (f : Z) (t : js decimal)
         (st : string),
    In PRODUCTS.CREDIT_CARD_ID (productos_tipos db) ->
    In f (franquicias db) -> f <> 0 ->
    1 <= c < 10 ^ 15 ->
    t = undefined \/ t = null ->
    estadoInEnum st = true ->
    userExists db userId = true ->
    let row := {| Sale.id := ventas_autoIncrement db;
                  Sale.productoId := PRODUCTS.CREDIT_CARD_ID;
                  Sale.cupoSolicitado := c;
                  Sale.franquiciaId := Some f;
                  Sale.tasa := None;
                  Sale.estado := st;
                  Sale.usuarioCreadorId := userId;
                  Sale.usuarioActualizadorId := userId;
                  Sale.createdAt := now;
                  Sale.updatedAt := now |} in
    createNewSale (SaleData.mk (val PRODUCTS.CREDIT_CARD_ID) (val c) (val f) t (val st))
                  userId now db
    = (inl SequelizeDatabaseError, withInserted db row).
Proof.
  intros db userId now c f t st Hp Hf Hf0 Hc Ht Hst Huser row.
  pose proof (existsb_Zeqb_true _ _ Hp) as Ep.
  pose proof (existsb_Zeqb_true _ _ Hf) as Ef.
  assert (Ef0 : (f =? 0) = false) by (apply Z.eqb_neq; exact Hf0).
  assert (Ec0 : (c =? 0) = false) by (apply Z.eqb_neq; lia).
  assert (Ec1 : (1 <=? c) = true) by (apply Z.leb_le; lia).
  pose proof (fitsDecimal_15 c Hc) as Efit.
  pose proof (estadoInEnum_not_empty st Hst) as Est.
  unfold createNewSale.
  guard_false ltac:(cbn [truthyNum]; rewrite Ec0; reflexivity).
  rewrite bind_run. unfold Product.findByPk at 1. unfold gets at 1.
  guard_false ltac:(rewrite Ep; reflexivity).
  guard_false ltac:(cbn [truthyNum]; rewrite Ef0; reflexivity).
  guard_false ltac:(reflexivity).
  rewrite bind_run. cbn [truthyNum]. rewrite Ef0. cbn [negb].
  unfold Franchise.findByPk. rewrite bind_run. unfold gets at 1. rewrite Ef.
  cbn [negb]. rewrite throwIf_false.
  guard_false ltac:(reflexivity).
  guard_false ltac:(destruct Ht as [-> | ->]; reflexivity).
  rewrite bind_run. unfold estadoOrOpen. cbn [truthyStr]. rewrite Est.
  cbn [negb strOf]. unfold ret at 1.
  rewrite bind_run. unfold create.
  cbn [c_productoId c_cupoSolicitado c_franquiciaId c_tasa c_estado
       c_usuarioCreadorId c_usuarioActualizadorId parseInt parseFloat truthyNum].
  rewrite ?Ef0. cbn [negb].
  guard_false ltac:(destruct Ht as [-> | ->]; cbn [validCupoSolicitado validTasa];
                    rewrite Ec1; reflexivity).
  assert (Et : (if truthyNum t then Some (parseFloat t) else None) = None)
    by (destruct Ht as [-> | ->]; reflexivity).
  rewrite Et, Hst, Efit. cbn [andb].
  rewrite bind_run. unfold gets at 1. unfold productExists, franchiseExists.
  rewrite Ep, Ef, Huser. reflexivity.
Qed.

(** Advisor 2 sells a VISA credit card in [db0]. *)
Lemma createNewSale_stores_credit_card_witness :
  createNewSale (SaleData.mk (val 3) (val 200000000) (val 2) undefined (val "Abierto"))
                2 5000 db0
  = (inl SequelizeDatabaseError,
     withInserted db0 (Sale.mk 3 3 200000000 (Some 2) None "Abierto" 2 2 5000 5000)).
Proof.
  apply (createNewSale_stores_credit_card db0 2 5000 200000000 2 undefined "Abierto").
  - simpl. tauto.
  - simpl. tauto.
  - lia.
  - lia.
  - left. reflexivity.
  - reflexivity.
  - reflexivity.
Defined.

(** X8. A consumer credit or payroll request whose checks pass is stored as
    sent and then answered with an error.  The product is in the catalog,
    the amount is at least 0.01 and within the fifteen digits of the column,
    the rate is above 0 and at most 100, no franchise is sent (or a falsy
    one), the status is one of the three and the caller is a user: the row
    is inserted under the next id, with the rate and a null franchise, and
    the reload of the created sale fails. *)
Theorem createNewSale_stores_rate_product :
  forall (db : DB) (userId now p : Z) (c rate : decimal) (f : js Z) (st : string),
    p = PRODUCTS.CONSUMER_CREDIT_ID \/ p = PRODUCTS.FREE_INVESTMENT_PAYROLL_ID ->
    In p (productos_tipos db) ->
    1 <= c < 10 ^ 15 ->
    0 < rate <= 10000 ->
    truthyNum f = false ->
    estadoInEnum st = true ->
    userExists db userId = true ->
    let row := {| Sale.id := ventas_autoIncrement db;
                  Sale.productoId := p;
                  Sale.cupoSolicitado := c;
                  Sale.franquiciaId := None;
                  Sale.tasa := Some rate;
                  Sale.estado := st;
                  Sale.usuarioCreadorId := userId;
                  Sale.usuarioActualizadorId := userId;
                  Sale.createdAt := now;
                  Sale.updatedAt := now |} in
    createNewSale (SaleData.mk (val p) (val c) f (val rate) (val st)) userId now db
    = (inl SequelizeDatabaseError, withInserted db row).
Proof.
  intros db userId now p c rate f st Hp12 Hp Hc Hr Hf Hst Huser row.
  pose proof (existsb_Zeqb_true _ _ Hp) as Ep.
  assert (Ec0 : (c =? 0) = false) by (apply Z.eqb_neq; lia).
  assert (Ec1 : (1 <=? c) = true) by (apply Z.leb_le; lia).
  assert (Er0 : (rate =? 0) = false) by (apply Z.eqb_neq; lia).
  assert (Er1 : (0 <=? rate) && (rate <=? 10000) = true).
  { apply andb_true_iff. split; apply Z.leb_le; lia. }
  assert (Ep0 : (p =? 0) = false).
  { apply Z.eqb_neq. destruct Hp12 as [-> | ->]; discriminate. }
  assert (Ep3 : (p =? PRODUCTS.CREDIT_CARD_ID) = false).
  { apply Z.eqb_neq. destruct Hp12 as [-> | ->]; discriminate. }
  pose proof (fitsDecimal_15 c Hc) as Efit.
  assert (Efit5 : fitsDecimal 5 rate = true) by (apply fitsDecimal_5; lia).
  pose proof (estadoInEnum_not_empty st Hst) as Est.
  unfold createNewSale.
  guard_false ltac:(cbn [truthyNum]; rewrite Ec0, Ep0; reflexivity).
  rewrite bind_run. unfold Product.findByPk at 1. unfold gets at 1.
  guard_false ltac:(rewrite Ep; reflexivity).
  guard_false ltac:(cbn [parseInt num_is]; rewrite Ep3; reflexivity).
  guard_false ltac:(rewrite Hf; apply andb_false_r).
  rewrite bind_run. rewrite Hf. unfold ret at 1.
  guard_false ltac:(cbn [truthyNum]; rewrite Er0; apply andb_false_r).
  guard_false ltac:(cbn [parseInt num_is];
                    destruct Hp12 as [-> | ->]; reflexivity).
  rewrite bind_run. unfold estadoOrOpen. cbn [truthyStr]. rewrite Est.
  cbn [negb strOf]. unfold ret at 1.
  rewrite bind_run. unfold create.
  cbn [c_productoId c_cupoSolicitado c_franquiciaId c_tasa c_estado
       c_usuarioCreadorId c_usuarioActualizadorId parseInt parseFloat truthyNum].
  rewrite ?Er0. cbn [negb].
  guard_false ltac:(cbn [validCupoSolicitado validTasa]; rewrite Ec1, Er1; reflexivity).
  rewrite Hst, Efit, Efit5. cbn [andb].
  rewrite bind_run. unfold gets at 1. unfold productExists, franchiseExists.
  rewrite Ep, Huser. reflexivity.
Qed.

(** Advisor 3 sells a payroll loan at 100 percent in [db0]. *)
Lemma createNewSale_stores_rate_product_witness :
  createNewSale (SaleData.mk (val 2) (val 100) null (val 10000) (val "En Proceso"))
                3 5000 db0
  = (inl SequelizeDatabaseError,
     withInserted db0 (Sale.mk 3 2 100 None (Some 10000) "En Proceso" 3 3 5000 5000)).
Proof.
  apply (createNewSale_stores_rate_product db0 3 5000 2 100 10000 null "En Proceso").
  - right. reflexivity.
  - simpl. tauto.
  - lia.
  - lia.
  - reflexivity.
  - reflexivity.
  - reflexivity.
Defined.

(** X6. No creation and no update returns a sale: every call is answered
    with an error.  When the call has changed the store, the error is the
    database error of the reload, so that the caller is told of a failure
    after the write has been executed.  What a creation has then stored is
    one row under the next id, with the product, the amount and the status
    of the request, its franchise and rate (null when they are absent or
    zero), the caller as creator and updater and the time of the call. *)
Theorem writes_are_answered_with_errors :
  forall (db : DB) (userId now : Z),
    (forall (saleData : SaleData.t) (r : error + Sale.t) (db' : DB),
        createNewSale saleData userId now db = (r, db') ->
        exists e : error,
          r = inl e
          /\ (db' <> db -> e = SequelizeDatabaseError)
          /\ (db' = db
              \/ exists row : Sale.t,
                   db' = withInserted db row
                   /\ Sale.id row = ventas_autoIncrement db
                   /\ SaleData.productoId saleData = val (Sale.productoId row)
                   /\ SaleData.cupoSolicitado saleData = val (Sale.cupoSolicitado row)
                   /\ SaleData.estado saleData = val (Sale.estado row)
                   /\ Sale.franquiciaId row = storedNumber (SaleData.franquiciaId saleData)
                   /\ Sale.tasa row = storedNumber (SaleData.tasa saleData)
                   /\ Sale.usuarioCreadorId row = userId
                   /\ Sale.usuarioActualizadorId row = userId
                   /\ Sale.createdAt row = now
                   /\ Sale.updatedAt row = now))
    /\ (forall (id : Z) (patch : SaleData.t) (userRolId : Z)
               (r : error + Sale.t) (db' : DB),
           updateSaleById id patch userRolId userId now db = (r, db') ->
           exists e : error, r = inl e /\ (db' <> db -> e = SequelizeDatabaseError)).
Proof.
  intros db userId now. split.
  - intros saleData r db' H.
    destruct (createNewSale_run saleData userId now db)
      as [[e He] | [p [c [Hp [Hc [Hst Hrow]]]]]].
    + rewrite He in H. injection H as <- <-. exists e.
      split; [reflexivity |]. split; [intros Hne; contradiction | left; reflexivity].
    + cbv zeta in Hrow. destruct Hrow as [Hrun _].
      rewrite Hrun in H. injection H as <- <-. exists SequelizeDatabaseError.
      split; [reflexivity |]. split; [reflexivity |]. right.
      eexists. split; [reflexivity |].
      cbn [Sale.id Sale.productoId Sale.cupoSolicitado Sale.estado Sale.franquiciaId
           Sale.tasa Sale.usuarioCreadorId Sale.usuarioActualizadorId Sale.createdAt
           Sale.updatedAt].
      split; [reflexivity |]. split; [exact Hp |]. split; [exact Hc |].
      split; [| repeat split].
      destruct (SaleData.estado saleData) as [| |st]; try discriminate Hst.
      reflexivity.
  - intros id patch role r db' H.
    destruct (updateSaleById_run id patch role userId now db)
      as [[e He] | [old [u0 [_ [_ [_ Hrun]]]]]].
    + rewrite He in H. injection H as <- <-. exists e.
      split; [reflexivity | intros Hne; contradiction].
    + cbv zeta in Hrun. destruct Hrun as [Hrun _].
      rewrite Hrun in H. injection H as <- <-. exists SequelizeDatabaseError.
      split; [reflexivity | reflexivity].
Qed.

(** Advisor 2 sells a VISA credit card in [db0], and the admin raises the
    amount of sale 1. *)
Lemma writes_are_answered_with_errors_witness :
  (exists e : error,
      fst (createNewSale
             (SaleData.mk (val 3) (val 200000000) (val 2) undefined (val "Abierto"))
             2 5000 db0) = inl e)
  /\ (exists e : error,
         fst (updateSaleById 1
                (SaleData.mk undefined (val 600000000) undefined undefined undefined)
                1 1 7000 db0) = inl e).
Proof.
  split.
  - destruct (proj1 (writes_are_answered_with_errors db0 2 5000)
                (SaleData.mk (val 3) (val 200000000) (val 2) undefined (val "Abierto"))
                _ _ (surjective_pairing _)) as [e [He _]].
    exists e. cbn [fst]. exact He.
  - destruct (proj2 (writes_are_answered_with_errors db0 1 7000)
                1 (SaleData.mk undefined (val 600000000) undefined undefined undefined)
                1 _ _ (surjective_pairing _)) as [e [He _]].
    exists e. cbn [fst]. exact He.
Defined.

(** ** The store stays well-formed *)

Lemma applyUpdate_inBounds u now r :
  rowInBounds r = true ->
  match u_cupoSolicitado u with
  | Some c => validCupoSolicitado c = true
  | None => True
  end ->
  match u_tasa u with Some t => validTasa t = true | None => True end ->
  storable u = true ->
  rowInBounds (applyUpdate u now r) = true.
Proof.
  unfold rowInBounds, storable, applyUpdate.
  cbn [Sale.cupoSolicitado Sale.tasa Sale.estado].
  intros Hr Hc Ht Hs.
  apply andb_true_iff in Hr. destruct Hr as [Hr He].
  apply andb_true_iff in Hr. destruct Hr as [Hrc Hrt].
  apply andb_true_iff in Hs. destruct Hs as [Hs _].
  apply andb_true_iff in Hs. destruct Hs as [Hs _].
  apply andb_true_iff in Hs. destruct Hs as [_ Hse].
  apply andb_true_iff. split; [apply andb_true_iff; split |].
  - destruct (u_cupoSolicitado u) as [[|c]|]; cbn in Hc; try discriminate; assumption.
  - destruct (u_tasa u) as [[[|t]|]|]; cbn in Ht; try discriminate;
      try assumption; reflexivity.
  - destruct (u_estado u); assumption.
Qed.

Lemma NoDup_map_filter {A B} (f : A -> B) (p : A -> bool) l :
  NoDup (map f l) -> NoDup (map f (filter p l)).
Proof.
  induction l as [|x r IH]; simpl; [auto |].
  intros H. inversion H as [|y ys Hni Hr]; subst.
  destruct (p x); simpl; [| auto].
  constructor; [| auto].
  intros Hin. apply Hni. apply in_map_iff in Hin. destruct Hin as [z [Hz Hin]].
  apply filter_In in Hin. rewrite <- Hz. apply in_map. tauto.
Qed.

(** X9. Every write of the sale service keeps the store well-formed: if
    the ids are unique and below the id counter and every row has an amount
    of at least 0.01, a rate that is null or within 0..100 and a status of
    the ENUM, the same holds after [createNewSale], [updateSaleById] and
    [deleteSaleById], whatever their arguments and whether they succeed. *)
Theorem sale_writes_keep_store_well_formed :
  forall db : DB,
    storeOk db ->
    (forall saleData userId now r db',
        createNewSale saleData userId now db = (r, db') -> storeOk db')
    /\ (forall id patch userRolId userId now r db',
           updateSaleById id patch userRolId userId now db = (r, db') -> storeOk db')
    /\ (forall id userRolId userId r db',
           deleteSaleById id userRolId userId db = (r, db') -> storeOk db').
Proof.
  intros db [Hnd [Hfresh Hb]]. split; [| split].
  - intros saleData userId now r db' H.
    destruct (createNewSale_run saleData userId now db)
      as [[e He] | [p [c [_ [_ [_ Hrow]]]]]].
    + rewrite He in H. injection H as _ <-. repeat split; assumption.
    + cbv zeta in Hrow. destruct Hrow as [Hrun [_ [Hrb _]]].
      rewrite Hrun in H. injection H as _ <-.
      unfold storeOk, withInserted. cbn [ventas ventas_autoIncrement]. split; [| split].
      * rewrite map_app. cbn [map Sale.id].
        apply Permutation_NoDup
          with (l := ventas_autoIncrement db :: map Sale.id (ventas db)).
        { apply Permutation_cons_append. }
        constructor; [| exact Hnd].
        intros Hin. apply in_map_iff in Hin. destruct Hin as [x [Hx Hin]].
        rewrite Forall_forall in Hfresh. specialize (Hfresh x Hin). lia.
      * apply Forall_app. split.
        { eapply Forall_impl; [| exact Hfresh]. cbn. intros; lia. }
        { constructor; [cbn [Sale.id]; lia | constructor]. }
      * apply Forall_app. split; [exact Hb |]. constructor; [exact Hrb | constructor].
  - intros id patch role user now r db' H.
    destruct (updateSaleById_run id patch role user now db)
      as [[e He] | [old [u0 [_ [_ [_ Hrun]]]]]].
    + rewrite He in H. injection H as _ <-. repeat split; assumption.
    + cbv zeta in Hrun. destruct Hrun as [Hrun [Hc [Ht [Hs _]]]].
      rewrite Hrun in H. injection H as _ <-.
      set (u := setUsuarioActualizadorId u0 user) in *.
      unfold storeOk, withUpdated. cbn [ventas withVentas ventas_autoIncrement].
      assert (Hids : map Sale.id
                (map (fun r => if Sale.id r =? id then applyUpdate u now r else r)
                     (ventas db)) = map Sale.id (ventas db)).
      { rewrite map_map. apply map_ext. intros x.
        destruct (Sale.id x =? id); reflexivity. }
      split; [rewrite Hids; exact Hnd |]. split.
      * apply Forall_map. eapply Forall_impl; [| exact Hfresh].
        intros x Hx. cbn. destruct (Sale.id x =? id); exact Hx.
      * apply Forall_map. eapply Forall_impl; [| exact Hb].
        intros x Hx. cbn. destruct (Sale.id x =? id); [| exact Hx].
        apply applyUpdate_inBounds; assumption.
  - intros id role user r db' H.
    destruct (deleteSaleById_run id role user db) as [[e He] | [old [_ Hrun]]].
    + rewrite He in H. injection H as _ <-. repeat split; assumption.
    + rewrite Hrun in H. injection H as _ <-.
      unfold storeOk. cbn [ventas withVentas ventas_autoIncrement].
      split; [apply NoDup_map_filter; exact Hnd |].
      split; apply Forall_forall; intros x Hx; apply filter_In in Hx;
        destruct Hx as [Hx _];
        [rewrite Forall_forall in Hfresh; exact (Hfresh x Hx)
        | rewrite Forall_forall in Hb; exact (Hb x Hx)].
Qed.

(** [db0] is well-formed, and so is what any creation leaves. *)
Lemma sale_writes_keep_store_well_formed_witness :
  storeOk (snd (createNewSale
                  (SaleData.mk (val 3) (val 200000000) (val 2) undefined (val "Abierto"))
                  2 5000 db0)).
Proof.
  assert (H0 : storeOk db0).
  { unfold storeOk. cbn. split; [| split].
    - repeat constructor; cbn; intuition discriminate.
    - repeat constructor.
    - repeat constructor. }
  exact (proj1 (sale_writes_keep_store_well_formed db0 H0)
           (SaleData.mk (val 3) (val 200000000) (val 2) undefined (val "Abierto"))
           2 5000 _ _ (surjective_pairing _)).
Defined.

(** ** Totals: scope of the admin, filters *)

Lemma filter_all {A} (l : list A) : filter (fun _ => true) l = l.
Proof. induction l as [|x r IH]; simpl; [| rewrite IH]; reflexivity. Qed.

(** X10. The admin's total has no ownership constraint, and an explicit
    [usuarioCreadorId] filter is honoured exactly: the total is the sum over
    all stored sales, or over those created by the requested user when the
    filter is a non-zero id (an absent, null or zero filter is ignored). *)
Theorem admin_total_scope :
  forall (db : DB) (userId : Z) (creatorFilter : js Z),
    calculateTotalAmount ROLES.ADMIN_ID userId
      (Filters.mk undefined undefined undefined undefined creatorFilter) db
    = (inr (Num (sumOf
                   (match storedNumber creatorFilter with
                    | Some u => filter (fun s => Sale.usuarioCreadorId s =? u) (ventas db)
                    | None => ventas db
                    end))), db).
Proof.
  intros db userId cf. rewrite calculateTotalAmount_sum.
  match goal with |- (inr (Num (sumOf (filter ?f ?l))), _) = (inr (Num (sumOf ?rhs)), _) =>
    assert (Hf : filter f l = rhs); [| rewrite Hf; reflexivity] end.
  unfold buildWhereClause. cbn.
  destruct cf as [| |u]; cbn [truthyNum storedNumber andb];
    try (rewrite <- (filter_all (ventas db)) at 2; apply filter_ext; reflexivity).
  destruct (u =? 0) eqn:E; cbn [negb andb].
  - rewrite <- (filter_all (ventas db)) at 2. apply filter_ext. reflexivity.
  - apply filter_ext. intros s. unfold selects. cbn.
    rewrite !andb_true_r. apply Z.eqb_sym.
Qed.

Ltac split_andb :=
  repeat match goal with
  | X : _ && _ = true |- _ => apply andb_true_iff in X; destruct X
  end.

Lemma selects_filters userRolId userId filters s :
  selects (buildWhereClause userRolId userId filters) s = true ->
  (forall p, storedNumber (Filters.productoId filters) = Some p -> Sale.productoId s = p)
  /\ (forall e, Filters.estado filters = val e -> e <> "" -> Sale.estado s = e)
  /\ (forall a, Filters.startDate filters = val a -> a <= Sale.createdAt s)
  /\ (forall b, Filters.endDate filters = val b -> Sale.createdAt s <= b).
Proof.
  unfold buildWhereClause. destruct filters as [p e sd ed u].
  cbn [Filters.productoId Filters.estado Filters.startDate Filters.endDate].
  intros H. repeat split.
  - intros p0 Hp. destruct p as [| |p]; try discriminate Hp.
    cbn [storedNumber] in Hp. destruct (p =? 0) eqn:E; [discriminate |].
    inversion Hp; subst p0. cbn [truthyNum] in H. rewrite E in H. cbn [negb] in H.
    destruct (userRolId =? ROLES.ADVISOR_ID), (truthyStr e),
      (truthyDate sd || truthyDate ed),
      (truthyNum u && (userRolId =? ROLES.ADMIN_ID));
      unfold selects in H; cbn in H;
      split_andb;
      repeat match goal with
      | X : (_ =? _) = true |- _ => apply Z.eqb_eq in X
      end; congruence.
  - intros e0 -> Hne.
    assert (Ht : truthyStr (val e0) = true).
    { cbn. destruct (String.eqb e0 "") eqn:E; [| reflexivity].
      apply String.eqb_eq in E. contradiction. }
    rewrite Ht in H.
    destruct (userRolId =? ROLES.ADVISOR_ID), (truthyNum p),
      (truthyDate sd || truthyDate ed),
      (truthyNum u && (userRolId =? ROLES.ADMIN_ID));
      unfold selects in H; cbn -[String.eqb] in H;
      split_andb;
      repeat match goal with
      | X : String.eqb _ _ = true |- _ => apply String.eqb_eq in X
      end; congruence.
  - intros a ->. cbn [truthyDate orb] in H.
    destruct (userRolId =? ROLES.ADVISOR_ID), (truthyNum p), (truthyStr e),
      (truthyNum u && (userRolId =? ROLES.ADMIN_ID));
      unfold selects in H; cbn -[String.eqb Z.leb] in H;
      split_andb;
      repeat match goal with
      | X : (_ <=? _) = true |- _ => apply Z.leb_le in X
      end; assumption.
  - intros b ->.
    assert (Ht : truthyDate sd || truthyDate (val b) = true) by apply orb_true_r.
    rewrite Ht in H. cbn [truthyDate] in H.
    destruct (userRolId =? ROLES.ADVISOR_ID), (truthyNum p), (truthyStr e),
      (truthyNum u && (userRolId =? ROLES.ADMIN_ID)), sd;
      unfold selects in H; cbn -[String.eqb Z.leb] in H;
      split_andb;
      repeat match goal with
      | X : (_ <=? _) = true |- _ => apply Z.leb_le in X
      end; assumption.
Qed.

(** X11. The explicit filters apply to the total of every caller: each
    sale that is summed has the requested product (a non-zero id), the
    requested status (a non-empty string), and a creation time within the
    inclusive bounds [startDate] and [endDate], as far as they are given. *)
Theorem total_honours_filters :
  forall (db : DB) (filters : Filters.t) (userRolId userId : Z),
    exists summed : list Sale.t,
      calculateTotalAmount userRolId userId filters db = (inr (Num (sumOf summed)), db)
      /\ incl summed (ventas db)
      /\ Forall (fun s =>
                   (forall p, storedNumber (Filters.productoId filters) = Some p ->
                              Sale.productoId s = p)
                   /\ (forall e, Filters.estado filters = val e -> e <> "" ->
                                 Sale.estado s = e)
                   /\ (forall a, Filters.startDate filters = val a ->
                                 a <= Sale.createdAt s)
                   /\ (forall b, Filters.endDate filters = val b ->
                                 Sale.createdAt s <= b))
                summed.
Proof.
  intros db filters role user.
  exists (filter (selects (buildWhereClause role user filters)) (ventas db)).
  split; [apply calculateTotalAmount_sum |]. split.
  - intros s Hs. apply filter_In in Hs. tauto.
  - eapply Forall_impl; [| apply Forall_filter_selects].
    intros s Hs. eapply selects_filters. exact Hs.
Qed.

Lemma filter_none {A} (f : A -> bool) l :
  (forall x, In x l -> f x = false) -> filter f l = [].
Proof.
  induction l as [|x r IH]; simpl; [reflexivity |].
  intros H. rewrite (H x (or_introl eq_refl)). apply IH.
  intros y Hy. apply H. right. exact Hy.
Qed.

Lemma stats_where_is_list_where (userRolId userId : Z) (filters : Filters.t) :
  userRolId <> ROLES.ADMIN_ID \/ truthyNum (Filters.usuarioCreadorId filters) = false ->
  StatsService.buildWhereClause userRolId (val userId) filters
  = SaleService.buildWhereClause userRolId userId filters.
Proof.
  intros H.
  unfold StatsService.buildWhereClause, SaleService.buildWhereClause.
  destruct filters as [p e sd ed cf]. cbn [Filters.usuarioCreadorId] in H.
  assert (Hc : truthyNum cf && (userRolId =? ROLES.ADMIN_ID) = false).
  { destruct H as [H | H].
    - apply Z.eqb_neq in H. rewrite H. apply andb_false_r.
    - rewrite H. reflexivity. }
  rewrite Hc.
  destruct (userRolId =? ROLES.ADVISOR_ID), (truthyNum p), (truthyStr e),
    (truthyDate sd || truthyDate ed); reflexivity.
Qed.

Lemma stats_where_ignores_creator_filter userRolId userId p e sd ed cf :
  StatsService.buildWhereClause userRolId userId (Filters.mk p e sd ed cf)
  = StatsService.buildWhereClause userRolId userId (Filters.mk p e sd ed undefined).
Proof. reflexivity. Qed.

(** What [getDashboardMetrics] returns first: the count and the sum of the
    selected sales. *)
Lemma getDashboardMetrics_totals db userRolId userId filters :
  let selected :=
    filter (selects (StatsService.buildWhereClause userRolId userId filters))
           (ventas db) in
  exists m : StatsService.DashboardMetrics,
    StatsService.getDashboardMetrics userRolId userId filters db = (inr m, db)
    /\ StatsService.totalSales m = Z.of_nat (List.length selected)
    /\ StatsService.totalAmount m = Num (sumOf selected).
Proof.
  intros selected.
  unfold StatsService.getDashboardMetrics, StatsService.readStatus, count, SaleModel.sum.
  change StatsService.SALE_STATUSES
    with (Some {| OPEN := "Abierto"; IN_PROCESS := "En Proceso";
                  FINISHED := "Finalizado" |}).
  unfold_m. cbn [OPEN IN_PROCESS FINISHED]. fold selected.
  eexists. split; [reflexivity |].
  cbn [StatsService.totalSales StatsService.totalAmount].
  split; [reflexivity |].
  destruct selected as [|x l]; [reflexivity |].
  cbn [truthyNum]. destruct (sumOf (x :: l) =? 0) eqn:Z0; cbn [negb parseFloat].
  - apply Z.eqb_eq in Z0. rewrite Z0. reflexivity.
  - reflexivity.
Qed.

(** X12. A date range whose end lies before its start selects nothing, for
    every caller and whatever the other filters: the total amount is 0, and
    the dashboard counts no sale and totals 0. *)
Theorem reversed_date_range_selects_nothing :
  forall (db : DB) (filters : Filters.t) (userRolId userId a b : Z),
    Filters.startDate filters = val a ->
    Filters.endDate filters = val b ->
    b < a ->
    calculateTotalAmount userRolId userId filters db = (inr (Num 0), db)
    /\ exists m : StatsService.DashboardMetrics,
         StatsService.getDashboardMetrics userRolId (val userId) filters db = (inr m, db)
         /\ StatsService.totalSales m = 0
         /\ StatsService.totalAmount m = Num 0.
Proof.
  intros db filters role user a b Ha Hb Hlt.
  assert (Hnone : forall fs,
             Filters.startDate fs = val a -> Filters.endDate fs = val b ->
             filter (selects (buildWhereClause role user fs)) (ventas db) = []).
  { intros fs Hfa Hfb. apply filter_none. intros s _.
    destruct (selects (buildWhereClause role user fs) s) eqn:E; [| reflexivity].
    apply selects_filters in E. destruct E as [_ [_ [E1 E2]]].
    specialize (E1 a Hfa). specialize (E2 b Hfb). lia. }
  split.
  - rewrite calculateTotalAmount_sum, (Hnone filters Ha Hb). reflexivity.
  - destruct (getDashboardMetrics_totals db role (val user) filters)
      as [m [Hm [Hc Ht]]].
    exists m. split; [exact Hm |].
    destruct filters as [p e sd ed cf].
    cbn [Filters.startDate Filters.endDate] in Ha, Hb.
    rewrite stats_where_ignores_creator_filter in Hc, Ht.
    rewrite (stats_where_is_list_where role user (Filters.mk p e sd ed undefined)
               (or_intror eq_refl)) in Hc, Ht.
    rewrite (Hnone (Filters.mk p e sd ed undefined) Ha Hb) in Hc, Ht.
    split; [exact Hc | exact Ht].
Qed.

(** The admin totals [db0] from time 2000 to time 1000. *)
Lemma reversed_date_range_selects_nothing_witness :
  calculateTotalAmount 1 1 (Filters.mk undefined undefined (val 2000) (val 1000)
                                       undefined) db0
  = (inr (Num 0), db0).
Proof.
  apply (proj1 (reversed_date_range_selects_nothing db0
                  (Filters.mk undefined undefined (val 2000) (val 1000) undefined)
                  1 1 2000 1000 eq_refl eq_refl ltac:(lia))).
Defined.

(** ** The statistics service *)

Import SaleQueries.

Section Groups.

Context {K : Type}.
Variable eqb : K -> K -> bool.
Hypothesis eqb_spec : forall a b, eqb a b = true <-> a = b.
Variable keyOf : Sale.t -> K.

Lemma eqb_refl_key k : eqb k k = true.
Proof. apply eqb_spec. reflexivity. Qed.

Lemma eqb_false_key a b : a <> b -> eqb a b = false.
Proof.
  intros H. destruct (eqb a b) eqn:E; [| reflexivity].
  apply eqb_spec in E. contradiction.
Qed.

Lemma lookupGroup_key k gs g : (lookupGroup eqb) k gs = Some g -> g_key g = k /\ In g gs.
Proof.
  induction gs as [|x r IH]; simpl; [discriminate |].
  destruct (eqb (g_key x) k) eqn:E.
  - intros H. inversion H; subst. apply eqb_spec in E. auto.
  - intros H. apply IH in H. tauto.
Qed.

Lemma lookupGroup_In gs g :
  NoDup (map g_key gs) -> In g gs -> (lookupGroup eqb) (g_key g) gs = Some g.
Proof.
  induction gs as [|x r IH]; simpl; [tauto |].
  intros Hnd Hin. inversion Hnd as [|y ys Hni Hr]; subst.
  destruct Hin as [-> | Hin].
  - rewrite eqb_refl_key. reflexivity.
  - destruct (eqb (g_key x) (g_key g)) eqn:E.
    + apply eqb_spec in E. exfalso. apply Hni. rewrite E. apply in_map. exact Hin.
    + apply IH; assumption.
Qed.

Lemma addToGroups_keys k a gs :
  map g_key (addToGroups eqb k a gs)
  = if existsb (fun g => eqb (g_key g) k) gs then map g_key gs
    else (map g_key gs ++ [k])%list.
Proof.
  induction gs as [|g r IH]; simpl; [reflexivity |].
  destruct (eqb (g_key g) k) eqn:E; simpl; [reflexivity |].
  rewrite IH. destruct (existsb (fun g0 => eqb (g_key g0) k) r); reflexivity.
Qed.

Lemma addToGroups_NoDup k a gs :
  NoDup (map g_key gs) -> NoDup (map g_key (addToGroups eqb k a gs)).
Proof.
  intros H. rewrite addToGroups_keys.
  destruct (existsb (fun g => eqb (g_key g) k) gs) eqn:E; [exact H |].
  apply Permutation_NoDup with (l := k :: map g_key gs).
  - apply Permutation_cons_append.
  - constructor; [| exact H].
    intros Hin. apply in_map_iff in Hin. destruct Hin as [g [Hg Hin]].
    assert (X : existsb (fun g0 => eqb (g_key g0) k) gs = true).
    { apply existsb_exists. exists g. split; [exact Hin |]. apply eqb_spec. exact Hg. }
    congruence.
Qed.

Lemma addToGroups_lookup k a gs k' :
  (lookupGroup eqb) k' (addToGroups eqb k a gs)
  = if eqb k k' then
      Some match (lookupGroup eqb) k gs with
           | Some g => {| g_key := g_key g; g_count := g_count g + 1;
                          g_totalAmount := g_totalAmount g + a |}
           | None => {| g_key := k; g_count := 1; g_totalAmount := a |}
           end
    else (lookupGroup eqb) k' gs.
Proof.
  induction gs as [|g r IH]; simpl.
  - destruct (eqb k k'); reflexivity.
  - destruct (eqb (g_key g) k) eqn:E; simpl.
    + apply eqb_spec in E. rewrite E. destruct (eqb k k'); reflexivity.
    + destruct (eqb (g_key g) k') eqn:E'.
      * destruct (eqb k k') eqn:E2; [| reflexivity].
        apply eqb_spec in E2. subst k'. congruence.
      * exact IH.
Qed.

Lemma sumOf_app l1 l2 : sumOf (l1 ++ l2) = sumOf l1 + sumOf l2.
Proof. induction l1 as [|x r IH]; simpl; [reflexivity | rewrite IH; lia]. Qed.

Lemma groupFor_snoc k done s :
  (groupFor eqb keyOf) k (done ++ [s])
  = if eqb (keyOf s) k then
      Some match (groupFor eqb keyOf) k done with
           | Some g => {| g_key := g_key g; g_count := g_count g + 1;
                          g_totalAmount := g_totalAmount g + Sale.cupoSolicitado s |}
           | None => {| g_key := k; g_count := 1;
                        g_totalAmount := Sale.cupoSolicitado s |}
           end
    else (groupFor eqb keyOf) k done.
Proof.
  unfold groupFor, rowsOf. rewrite filter_app. simpl.
  destruct (eqb (keyOf s) k) eqn:E; [| rewrite app_nil_r; reflexivity].
  destruct (filter (fun s0 => eqb (keyOf s0) k) done) as [|x r] eqn:F.
  - simpl. f_equal. f_equal. lia.
  - assert (Hlen : Z.of_nat (List.length ((x :: r) ++ [s]))
                   = Z.of_nat (List.length (x :: r)) + 1)
      by (rewrite length_app; cbn [List.length]; lia).
    assert (Hsum : sumOf ((x :: r) ++ [s]) = sumOf (x :: r) + Sale.cupoSolicitado s)
      by (rewrite sumOf_app; cbn; lia).
    destruct ((x :: r) ++ [s])%list as [|y t] eqn:Happ; [discriminate |].
    f_equal. f_equal; [exact Hlen | exact Hsum].
Qed.

Lemma groupRows_invariant rows :
  forall done gs,
    NoDup (map g_key gs) ->
    (forall k, (lookupGroup eqb) k gs = (groupFor eqb keyOf) k done) ->
    let res := fold_left
                 (fun groups s => addToGroups eqb (keyOf s) (Sale.cupoSolicitado s) groups)
                 rows gs in
    NoDup (map g_key res)
    /\ (forall k, (lookupGroup eqb) k res = (groupFor eqb keyOf) k (done ++ rows)).
Proof.
  induction rows as [|s r IH]; intros done gs Hnd Hl; simpl.
  - rewrite app_nil_r. auto.
  - replace (done ++ s :: r)%list with ((done ++ [s]) ++ r)%list
      by (rewrite <- app_assoc; reflexivity).
    apply IH.
    + apply addToGroups_NoDup. exact Hnd.
    + intros k. rewrite addToGroups_lookup, groupFor_snoc.
      destruct (eqb (keyOf s) k) eqn:E; [| apply Hl].
      apply eqb_spec in E. subst k. rewrite Hl. reflexivity.
Qed.

Lemma groupRows_spec rows :
  NoDup (map g_key (groupRows eqb keyOf rows))
  /\ (forall k, (lookupGroup eqb) k (groupRows eqb keyOf rows) = (groupFor eqb keyOf) k rows).
Proof.
  unfold groupRows.
  apply (groupRows_invariant rows [] []); [constructor | reflexivity].
Qed.

(** Each group is the count and the sum of the rows of its key, which are
    not none; and every row has its group. *)
Lemma groupRows_groups rows g :
  In g (groupRows eqb keyOf rows) ->
  g_count g = Z.of_nat (List.length ((rowsOf eqb keyOf) (g_key g) rows))
  /\ g_totalAmount g = sumOf ((rowsOf eqb keyOf) (g_key g) rows)
  /\ 0 < g_count g.
Proof.
  intros Hin. destruct (groupRows_spec rows) as [Hnd Hl].
  pose proof (lookupGroup_In _ _ Hnd Hin) as Hg. rewrite Hl in Hg.
  unfold groupFor in Hg.
  destruct ((rowsOf eqb keyOf) (g_key g) rows) as [|x r] eqn:E; [discriminate |].
  inversion Hg as [Hg']. rewrite <- Hg' at 1 2 3. cbn [g_count g_totalAmount].
  repeat split; try (cbn [List.length]; lia).
Qed.

Lemma groupRows_complete rows s :
  In s rows -> exists g, In g (groupRows eqb keyOf rows) /\ g_key g = keyOf s.
Proof.
  intros Hin. destruct (groupRows_spec rows) as [_ Hl].
  specialize (Hl (keyOf s)). unfold groupFor in Hl.
  destruct ((rowsOf eqb keyOf) (keyOf s) rows) as [|x r] eqn:E.
  - exfalso. assert (X : In s ((rowsOf eqb keyOf) (keyOf s) rows)).
    { unfold rowsOf. apply filter_In. split; [exact Hin | apply eqb_refl_key]. }
    rewrite E in X. exact X.
  - apply lookupGroup_key in Hl. destruct Hl as [Hk Hg]. eauto.
Qed.

End Groups.


Lemma sums_addToGroups {K} (eqb : K -> K -> bool) k a (gs : list (Group K)) :
  sumCounts (addToGroups eqb k a gs) = sumCounts gs + 1
  /\ sumTotals (addToGroups eqb k a gs) = sumTotals gs + a.
Proof.
  induction gs as [|g r [IHc IHt]]; simpl.
  - split; lia.
  - destruct (eqb (g_key g) k); simpl; [split; lia |].
    rewrite IHc, IHt. split; lia.
Qed.

Lemma sums_groupRows {K} (eqb : K -> K -> bool) (keyOf : Sale.t -> K) rows :
  sumCounts (groupRows eqb keyOf rows) = Z.of_nat (List.length rows)
  /\ sumTotals (groupRows eqb keyOf rows) = sumOf rows.
Proof.
  unfold groupRows.
  assert (G : forall gs,
    sumCounts (fold_left
                 (fun groups s => addToGroups eqb (keyOf s) (Sale.cupoSolicitado s) groups)
                 rows gs) = sumCounts gs + Z.of_nat (List.length rows)
    /\ sumTotals (fold_left
                 (fun groups s => addToGroups eqb (keyOf s) (Sale.cupoSolicitado s) groups)
                 rows gs) = sumTotals gs + sumOf rows).
  { induction rows as [|s r IH]; intros gs; simpl.
    - split; lia.
    - destruct (IH (addToGroups eqb (keyOf s) (Sale.cupoSolicitado s) gs)) as [Hc Ht].
      destruct (sums_addToGroups eqb (keyOf s) (Sale.cupoSolicitado s) gs) as [Ac At].
      rewrite Hc, Ht, Ac, At. change (fold_right _ 0 r) with (sumOf r). split; lia. }
  destruct (G []) as [Hc Ht]. rewrite Hc, Ht. cbn. split; lia.
Qed.

Lemma insertByCountDesc_perm {K} (g : Group K) l :
  Permutation (insertByCountDesc g l) (g :: l).
Proof.
  induction l as [|x r IH]; simpl.
  - apply Permutation_refl.
  - destruct (g_count x <=? g_count g).
    + apply Permutation_refl.
    + eapply Permutation_trans; [apply perm_skip; exact IH | apply perm_swap].
Qed.

Lemma sortByCountDesc_perm {K} (l : list (Group K)) :
  Permutation (sortByCountDesc l) l.
Proof.
  induction l as [|x r IH]; simpl.
  - apply Permutation_refl.
  - eapply Permutation_trans; [apply insertByCountDesc_perm |].
    apply perm_skip. exact IH.
Qed.

Lemma insertByCountDesc_sorted {K} (g : Group K) l :
  StronglySorted countDesc l -> StronglySorted countDesc (insertByCountDesc g l).
Proof.
  induction 1 as [|x r Hr IH Hx]; simpl.
  - constructor; constructor.
  - destruct (g_count x <=? g_count g) eqn:E.
    + apply Z.leb_le in E. constructor.
      * constructor; assumption.
      * constructor; [exact E |].
        eapply Forall_impl; [| exact Hx].
        intros a Ha. unfold countDesc in *. lia.
    + apply Z.leb_gt in E. constructor; [exact IH |].
      eapply Permutation_Forall; [apply Permutation_sym, insertByCountDesc_perm |].
      constructor; [unfold countDesc; lia | exact Hx].
Qed.

Lemma sortByCountDesc_sorted {K} (l : list (Group K)) :
  StronglySorted countDesc (sortByCountDesc l).
Proof.
  induction l as [|x r IH]; simpl.
  - constructor.
  - apply insertByCountDesc_sorted. exact IH.
Qed.

Lemma sums_perm {K} (l l' : list (Group K)) :
  Permutation l l' -> sumCounts l = sumCounts l' /\ sumTotals l = sumTotals l'.
Proof.
  induction 1 as [| x l l' _ [IHc IHt] | x y l | l l' l'' _ [IH1c IH1t] _ [IH2c IH2t]];
    simpl; split; try lia; try reflexivity.
Qed.

(** The predicate of an advisor is that of the statistics for the admin,
    narrowed to the advisor. *)
Lemma selects_advisor_narrows u filters s :
  selects (SaleService.buildWhereClause ROLES.ADVISOR_ID u filters) s
  = (Sale.usuarioCreadorId s =? u)
    && selects (StatsService.buildWhereClause ROLES.ADMIN_ID null filters) s.
Proof.
  unfold SaleService.buildWhereClause, StatsService.buildWhereClause.
  destruct filters as [p e sd ed cf].
  change (ROLES.ADVISOR_ID =? ROLES.ADVISOR_ID) with true.
  change (ROLES.ADMIN_ID =? ROLES.ADVISOR_ID) with false.
  change (ROLES.ADVISOR_ID =? ROLES.ADMIN_ID) with false.
  rewrite andb_false_r.
  destruct (truthyNum p), (truthyStr e), (truthyDate sd || truthyDate ed);
    unfold selects; cbn -[String.eqb Z.leb Z.eqb num_is];
    cbn [num_is]; rewrite (Z.eqb_sym u); rewrite ?andb_true_r, ?andb_assoc; reflexivity.
Qed.

Lemma by_advisor_admin_line db filters groups g :
  StatsService.getSalesGroupedByAdvisor ROLES.ADMIN_ID filters db = (inr groups, db) ->
  In g groups ->
  let selected :=
    filter (selects (StatsService.buildWhereClause ROLES.ADMIN_ID null filters))
           (ventas db) in
  0 < g_count g
  /\ g_count g
     = Z.of_nat (List.length (rowsOf Z.eqb Sale.usuarioCreadorId (g_key g) selected))
  /\ g_totalAmount g = sumOf (rowsOf Z.eqb Sale.usuarioCreadorId (g_key g) selected).
Proof.
  unfold StatsService.getSalesGroupedByAdvisor.
  change (ROLES.ADMIN_ID =? ROLES.ADMIN_ID) with true. cbn [negb].
  intros H Hin. injection H as <-. cbv zeta.
  assert (Hg : In g (groupRows Z.eqb Sale.usuarioCreadorId
                       (filter (selects (StatsService.buildWhereClause
                                           ROLES.ADMIN_ID null filters)) (ventas db))))
    by (eapply Permutation_in; [apply sortByCountDesc_perm | exact Hin]).
  destruct (groupRows_groups Z.eqb Z.eqb_eq Sale.usuarioCreadorId _ g Hg)
    as [Hc [Ht Hpos]].
  split; [exact Hpos |]. split; [exact Hc | exact Ht].
Qed.

(** X16. The by-advisor statistics.  A caller who is not an admin gets an
    empty list.  For the admin there is one line per advisor who created a
    selected sale and none for the others; a line carries the number and the
    total amount of that advisor's selected sales; the lines come by count
    descending; their counts and totals add up to the number and the total
    amount of all selected sales.  Nothing is written. *)
Theorem by_advisor_statistics :
  forall (db : DB) (userRolId : Z) (filters : Filters.t),
    let selected :=
      filter (selects (StatsService.buildWhereClause ROLES.ADMIN_ID null filters))
             (ventas db) in
    exists groups : list (Group Z),
      StatsService.getSalesGroupedByAdvisor userRolId filters db = (inr groups, db)
      /\ (userRolId <> ROLES.ADMIN_ID -> groups = [])
      /\ (userRolId = ROLES.ADMIN_ID ->
          NoDup (map g_key groups)
          /\ (forall g, In g groups ->
                0 < g_count g
                /\ g_count g
                   = Z.of_nat (List.length
                                 (rowsOf Z.eqb Sale.usuarioCreadorId (g_key g) selected))
                /\ g_totalAmount g
                   = sumOf (rowsOf Z.eqb Sale.usuarioCreadorId (g_key g) selected))
          /\ (forall s, In s selected ->
                exists g, In g groups /\ g_key g = Sale.usuarioCreadorId s)
          /\ StronglySorted countDesc groups
          /\ sumCounts groups = Z.of_nat (List.length selected)
          /\ sumTotals groups = sumOf selected).
Proof.
  intros db role filters selected.
  unfold StatsService.getSalesGroupedByAdvisor.
  destruct (role =? ROLES.ADMIN_ID) eqn:E; cbn [negb].
  - apply Z.eqb_eq in E. eexists. split; [reflexivity |].
    split; [intros H; contradiction |]. intros _.
    fold selected.
    set (gs := groupRows Z.eqb Sale.usuarioCreadorId selected).
    pose proof (sortByCountDesc_perm gs) as Hperm.
    destruct (groupRows_spec Z.eqb Z.eqb_eq Sale.usuarioCreadorId selected) as [Hnd _].
    repeat split.
    + eapply Permutation_NoDup; [| exact Hnd].
      apply Permutation_map, Permutation_sym, Hperm.
    + apply (groupRows_groups Z.eqb Z.eqb_eq Sale.usuarioCreadorId selected g).
      eapply Permutation_in; [exact Hperm | assumption].
    + apply (groupRows_groups Z.eqb Z.eqb_eq Sale.usuarioCreadorId selected g).
      eapply Permutation_in; [exact Hperm | assumption].
    + apply (groupRows_groups Z.eqb Z.eqb_eq Sale.usuarioCreadorId selected g).
      eapply Permutation_in; [exact Hperm | assumption].
    + intros s Hs.
      destruct (groupRows_complete Z.eqb Z.eqb_eq Sale.usuarioCreadorId selected s Hs)
        as [g [Hg Hk]].
      exists g. split; [| exact Hk].
      eapply Permutation_in; [apply Permutation_sym, Hperm | exact Hg].
    + apply sortByCountDesc_sorted.
    + rewrite (proj1 (sums_perm _ _ Hperm)).
      apply (sums_groupRows Z.eqb Sale.usuarioCreadorId selected).
    + rewrite (proj2 (sums_perm _ _ Hperm)).
      apply (sums_groupRows Z.eqb Sale.usuarioCreadorId selected).
  - apply Z.eqb_neq in E. exists []. split; [reflexivity |].
    split; [reflexivity | intros H; contradiction].
Qed.

(** The scenario on [db0]: one sale of 5,000,000 by advisor 2 and one of
    2,000,000 by advisor 3. *)
Lemma by_advisor_statistics_witness :
  StatsService.getSalesGroupedByAdvisor 1 Filters.empty db0
  = (inr [ {| g_key := 2; g_count := 1; g_totalAmount := 500000000 |};
           {| g_key := 3; g_count := 1; g_totalAmount := 200000000 |} ], db0)
  /\ StatsService.getSalesGroupedByAdvisor 2 Filters.empty db0 = (inr [], db0)
  /\ sumTotals [ {| g_key := 2; g_count := 1; g_totalAmount := 500000000 |};
                 {| g_key := 3; g_count := 1; g_totalAmount := 200000000 |} ]
     = sumOf (ventas db0).
Proof.
  split; [reflexivity |]. split; [reflexivity |].
  destruct (by_advisor_statistics db0 1 Filters.empty) as [groups [Hrun [_ Hadmin]]].
  injection Hrun as <-.
  exact (proj2 (proj2 (proj2 (proj2 (proj2 (Hadmin eq_refl)))))).
Defined.

(** X17. A line of the by-advisor statistics is what that advisor gets for
    themself with the same filters: the line's total is the advisor's
    [calculateTotalAmount], and its count and total are the [totalSales] and
    [totalAmount] of the advisor's dashboard. *)
Theorem by_advisor_line_is_advisors_own_view :
  forall (db : DB) (filters : Filters.t) (groups : list (Group Z)) (g : Group Z),
    StatsService.getSalesGroupedByAdvisor ROLES.ADMIN_ID filters db = (inr groups, db) ->
    In g groups ->
    calculateTotalAmount ROLES.ADVISOR_ID (g_key g) filters db
    = (inr (Num (g_totalAmount g)), db)
    /\ exists m : StatsService.DashboardMetrics,
         StatsService.getDashboardMetrics ROLES.ADVISOR_ID (val (g_key g)) filters db
         = (inr m, db)
         /\ StatsService.totalSales m = g_count g
         /\ StatsService.totalAmount m = Num (g_totalAmount g).
Proof.
  intros db filters groups g Hrun Hin.
  destruct (by_advisor_admin_line db filters groups g Hrun Hin) as [Hpos [Hc Ht]].
  assert (Hsel : rowsOf Z.eqb Sale.usuarioCreadorId (g_key g)
                   (filter (selects (StatsService.buildWhereClause ROLES.ADMIN_ID null
                                       filters)) (ventas db))
                 = filter (selects (SaleService.buildWhereClause ROLES.ADVISOR_ID
                                      (g_key g) filters)) (ventas db)).
  { unfold rowsOf. generalize (ventas db) as l.
    induction l as [|x l IH]; simpl; [reflexivity |].
    rewrite (selects_advisor_narrows (g_key g) filters x).
    destruct (selects (StatsService.buildWhereClause ROLES.ADMIN_ID null filters) x);
      simpl.
    - destruct (Sale.usuarioCreadorId x =? g_key g); simpl; rewrite IH; reflexivity.
    - rewrite andb_false_r. exact IH. }
  rewrite Hsel in Hc, Ht. split.
  - rewrite calculateTotalAmount_sum, Ht. reflexivity.
  - destruct (getDashboardMetrics_totals db ROLES.ADVISOR_ID (val (g_key g)) filters)
      as [m [Hm [Hmc Hmt]]].
    exists m. split; [exact Hm |].
    assert (Hne : ROLES.ADVISOR_ID <> ROLES.ADMIN_ID) by discriminate.
    rewrite (stats_where_is_list_where ROLES.ADVISOR_ID (g_key g) filters
               (or_introl Hne)) in Hmc, Hmt.
    rewrite Hmc, Hmt, Hc, Ht. split; reflexivity.
Qed.

(** The line of advisor 2 in [db0]. *)
Lemma by_advisor_line_is_advisors_own_view_witness :
  calculateTotalAmount 2 2 Filters.empty db0 = (inr (Num 500000000), db0).
Proof.
  exact (proj1 (by_advisor_line_is_advisors_own_view db0 Filters.empty
                  [ {| g_key := 2; g_count := 1; g_totalAmount := 500000000 |};
                    {| g_key := 3; g_count := 1; g_totalAmount := 200000000 |} ]
                  {| g_key := 2; g_count := 1; g_totalAmount := 500000000 |}
                  eq_refl (or_introl eq_refl))).
Defined.

(** X18. The statistics service and the sale service build the same
    predicate for a caller, except for the admin's [usuarioCreadorId]
    filter, which only the sale service knows: with it the list of the
    admin is narrowed to one advisor and the statistics are not. *)
Theorem statistics_reuse_the_list_predicate :
  forall (userRolId userId : Z) (filters : Filters.t),
    (userRolId <> ROLES.ADMIN_ID
     \/ truthyNum (Filters.usuarioCreadorId filters) = false ->
     StatsService.buildWhereClause userRolId (val userId) filters
     = SaleService.buildWhereClause userRolId userId filters)
    /\ (userRolId = ROLES.ADMIN_ID ->
        forall (c : Z) (s : Sale.t),
          Filters.usuarioCreadorId filters = val c -> c <> 0 ->
          selects (SaleService.buildWhereClause userRolId userId filters) s
          = (Sale.usuarioCreadorId s =? c)
            && selects (StatsService.buildWhereClause userRolId (val userId) filters) s).
Proof.
  intros role user filters. split; [apply stats_where_is_list_where |].
  intros -> c s Hcf Hc.
  unfold StatsService.buildWhereClause, SaleService.buildWhereClause.
  destruct filters as [p e sd ed cf]. cbn [Filters.usuarioCreadorId] in Hcf. subst cf.
  change (ROLES.ADMIN_ID =? ROLES.ADVISOR_ID) with false.
  change (ROLES.ADMIN_ID =? ROLES.ADMIN_ID) with true.
  assert (Ht : truthyNum (val c) = true)
    by (cbn; apply negb_true_iff, Z.eqb_neq; exact Hc).
  rewrite Ht. cbn [andb parseInt].
  destruct (truthyNum p), (truthyStr e), (truthyDate sd || truthyDate ed);
    unfold selects; cbn -[String.eqb Z.leb Z.eqb num_is];
    cbn [num_is]; rewrite (Z.eqb_sym c); rewrite ?andb_true_r, ?andb_assoc; reflexivity.
Qed.

(** Advisor 2 with a product and a date filter. *)
Lemma statistics_reuse_the_list_predicate_witness :
  StatsService.buildWhereClause 2 (val 2)
    (Filters.mk (val 1) undefined (val 500) undefined (val 3))
  = SaleService.buildWhereClause 2 2
      (Filters.mk (val 1) undefined (val 500) undefined (val 3)).
Proof.
  apply (proj1 (statistics_reuse_the_list_predicate 2 2
                  (Filters.mk (val 1) undefined (val 500) undefined (val 3)))).
  left. unfold ROLES.ADMIN_ID. lia.
Defined.

Lemma selects_withEstado w e s :
  w_estado w = None ->
  selects (withEstado w e) s = selects w s && String.eqb (Sale.estado s) e.
Proof.
  intros Hw. unfold selects, withEstado.
  cbn [w_usuarioCreadorId w_productoId w_estado w_createdAt]. rewrite Hw.
  cbn [optTest].
  destruct (optTest (w_usuarioCreadorId w) _), (optTest (w_productoId w) _),
    (optTest (w_createdAt w) _), (String.eqb (Sale.estado s) e); reflexivity.
Qed.

Lemma stats_where_no_estado userRolId userId filters :
  truthyStr (Filters.estado filters) = false ->
  w_estado (StatsService.buildWhereClause userRolId userId filters) = None.
Proof.
  unfold StatsService.buildWhereClause. destruct filters as [p e sd ed cf].
  cbn [Filters.estado]. intros ->.
  destruct (userRolId =? ROLES.ADVISOR_ID), (truthyNum p),
    (truthyDate sd || truthyDate ed); reflexivity.
Qed.

Lemma status_counts_add_up (f : Sale.t -> bool) l :
  Forall (fun s => estadoInEnum (Sale.estado s) = true) l ->
  Z.of_nat (List.length (filter (fun s => f s && String.eqb (Sale.estado s) "Abierto") l))
  + Z.of_nat (List.length
                (filter (fun s => f s && String.eqb (Sale.estado s) "En Proceso") l))
  + Z.of_nat (List.length
                (filter (fun s => f s && String.eqb (Sale.estado s) "Finalizado") l))
  = Z.of_nat (List.length (filter f l)).
Proof.
  induction 1 as [|x r Hx Hr IH]; [reflexivity |].
  cbn [filter]. destruct (f x); cbn [andb]; [| exact IH].
  unfold estadoInEnum in Hx.
  destruct (String.eqb (Sale.estado x) "Abierto") eqn:E1.
  - apply String.eqb_eq in E1. rewrite E1. cbn [String.eqb Ascii.eqb Bool.eqb].
    cbn [List.length]. lia.
  - destruct (String.eqb (Sale.estado x) "En Proceso") eqn:E2.
    + apply String.eqb_eq in E2. rewrite E2 in *. cbn. cbn [List.length] in *. lia.
    + destruct (String.eqb (Sale.estado x) "Finalizado") eqn:E3; [| discriminate].
      cbn [List.length]. lia.
Qed.

(** X19. The dashboard metrics always come, without a write: [totalSales]
    and [totalAmount] are the number and the total amount of the selected
    sales, and when the filters carry no status and every stored status is
    of the ENUM, the three counts by status add up to [totalSales]. *)
Theorem dashboard_metrics :
  forall (db : DB) (userRolId : Z) (userId : js Z) (filters : Filters.t),
    let selected :=
      filter (selects (StatsService.buildWhereClause userRolId userId filters))
             (ventas db) in
    exists m : StatsService.DashboardMetrics,
      StatsService.getDashboardMetrics userRolId userId filters db = (inr m, db)
      /\ StatsService.totalSales m = Z.of_nat (List.length selected)
      /\ StatsService.totalAmount m = Num (sumOf selected)
      /\ (truthyStr (Filters.estado filters) = false ->
          Forall (fun s => estadoInEnum (Sale.estado s) = true) (ventas db) ->
          StatsService.openSales m + StatsService.inProcessSales m
          + StatsService.finishedSales m = StatsService.totalSales m).
Proof.
  intros db role user filters selected.
  unfold StatsService.getDashboardMetrics, StatsService.readStatus, count, SaleModel.sum.
  change StatsService.SALE_STATUSES
    with (Some {| OPEN := "Abierto"; IN_PROCESS := "En Proceso";
                  FINISHED := "Finalizado" |}).
  unfold_m. cbn [OPEN IN_PROCESS FINISHED]. fold selected.
  eexists. split; [reflexivity |].
  cbn [StatsService.totalSales StatsService.totalAmount StatsService.openSales
       StatsService.inProcessSales StatsService.finishedSales].
  split; [reflexivity |]. split.
  - destruct selected as [|x l]; [reflexivity |].
    cbn [truthyNum]. destruct (sumOf (x :: l) =? 0) eqn:Z0; cbn [negb parseFloat].
    + apply Z.eqb_eq in Z0. rewrite Z0. reflexivity.
    + reflexivity.
  - intros He Henum.
    pose proof (stats_where_no_estado role user filters He) as Hw.
    rewrite !(filter_ext _ _ (fun s => selects_withEstado _ _ s Hw)).
    apply status_counts_add_up. exact Henum.
Qed.

(** X20. The dashboard agrees with the total of the sale service: its
    [totalAmount] is what [calculateTotalAmount] returns for the same caller
    and the same filters without [usuarioCreadorId], and so for the same
    filters when the caller is not an admin or sends no such filter. *)
Theorem dashboard_agrees_with_sale_service :
  forall (db : DB) (userRolId userId : Z) (p : js Z) (e : js string)
         (sd ed cf : js Z) (m : StatsService.DashboardMetrics),
    StatsService.getDashboardMetrics userRolId (val userId) (Filters.mk p e sd ed cf) db
    = (inr m, db) ->
    calculateTotalAmount userRolId userId (Filters.mk p e sd ed undefined) db
    = (inr (StatsService.totalAmount m), db)
    /\ (userRolId <> ROLES.ADMIN_ID \/ truthyNum cf = false ->
        calculateTotalAmount userRolId userId (Filters.mk p e sd ed cf) db
        = (inr (StatsService.totalAmount m), db)).
Proof.
  intros db role user p e sd ed cf m Hm.
  destruct (getDashboardMetrics_totals db role (val user) (Filters.mk p e sd ed cf))
    as [m' [Hm' [_ Ht]]].
  rewrite Hm in Hm'. injection Hm' as <-.
  split.
  - rewrite stats_where_ignores_creator_filter in Ht.
    rewrite (stats_where_is_list_where role user (Filters.mk p e sd ed undefined)
               (or_intror eq_refl)) in Ht.
    rewrite Ht. apply calculateTotalAmount_sum.
  - intros Hf.
    rewrite (stats_where_is_list_where role user (Filters.mk p e sd ed cf) Hf) in Ht.
    rewrite Ht. apply calculateTotalAmount_sum.
Qed.

(** Advisor 2 on [db0], asking for the sales of advisor 3. *)
Lemma dashboard_agrees_with_sale_service_witness :
  calculateTotalAmount 2 2 (Filters.mk undefined undefined undefined undefined (val 3)) db0
  = (inr (Num 500000000), db0).
Proof.
  refine (proj2 (dashboard_agrees_with_sale_service db0 2 2
                   undefined undefined undefined undefined (val 3)
                   {| StatsService.totalSales := 1;
                      StatsService.totalAmount := Num 500000000;
                      StatsService.openSales := 1; StatsService.inProcessSales := 0;
                      StatsService.finishedSales := 0 |}
                   eq_refl) _).
  left. unfold ROLES.ADMIN_ID. lia.
Defined.

(** X21. The recent sales are the newest of the caller's sales.  Under
    every engine that orders by creation time, a call with a limit of at
    least 0 returns [limit] of the sales the caller's predicate selects, or
    all of them when there are fewer; they come by creation time
    descending, and no selected sale that is left out is newer than one that
    is returned.  Which of several sales of the same instant is returned,
    and in which order, is the engine's choice.  Nothing is written. *)
Theorem recent_sales_are_the_newest :
  forall (order : Ordering) (db : DB) (userRolId userId limit : Z),
    ordersByCreatedAtDesc order ->
    0 <= limit ->
    let selected :=
      filter (selects (StatsService.buildWhereClause userRolId (val userId)
                         Filters.empty)) (ventas db) in
    exists rows : list Sale.t,
      StatsService.getRecentSales order userRolId (val userId) limit db = (inr rows, db)
      /\ Z.of_nat (List.length rows) = Z.min limit (Z.of_nat (List.length selected))
      /\ incl rows selected
      /\ StronglySorted createdAtDesc rows
      /\ (forall s r, In s selected -> ~ In s rows -> In r rows ->
                      Sale.createdAt s <= Sale.createdAt r)
      /\ (userRolId = ROLES.ADVISOR_ID ->
          Forall (fun s => Sale.usuarioCreadorId s = userId) rows).
Proof.
  intros order db role user limit Ho Hl selected.
  assert (E : (limit <? 0) = false) by (apply Z.ltb_ge; exact Hl).
  destruct (Ho selected) as [Hperm Hsorted].
  exists (firstn (Z.to_nat limit) (order selected)).
  split.
  { unfold StatsService.getRecentSales, findAllRecent, joining.
    cbn [forallb Schema.selectable]. unfold_m. cbn. fold selected. rewrite E.
    reflexivity. }
  split.
  { rewrite length_firstn, <- (Permutation_length Hperm). lia. }
  assert (Hincl : incl (firstn (Z.to_nat limit) (order selected)) selected).
  { intros x Hx. apply incl_firstn in Hx.
    eapply Permutation_in; [apply Permutation_sym; exact Hperm | exact Hx]. }
  split; [exact Hincl |].
  split; [apply StronglySorted_firstn; exact Hsorted |].
  split.
  - intros s r Hs Hnot Hr.
    assert (Hin : In s (order selected))
      by (eapply Permutation_in; [exact Hperm | exact Hs]).
    rewrite <- (firstn_skipn (Z.to_nat limit) (order selected)) in Hin, Hsorted.
    apply in_app_or in Hin. destruct Hin as [Hin | Hin]; [contradiction |].
    exact (StronglySorted_app_cross createdAtDesc _ _ Hsorted r s Hr Hin).
  - intros ->. apply Forall_forall. intros x Hx. apply Hincl in Hx.
    unfold selected in Hx. apply filter_In in Hx. destruct Hx as [_ Hx].
    assert (Hne : ROLES.ADVISOR_ID <> ROLES.ADMIN_ID) by discriminate.
    rewrite (stats_where_is_list_where ROLES.ADVISOR_ID user Filters.empty
               (or_introl Hne)) in Hx.
    eapply selects_creator; [apply buildWhereClause_advisor | exact Hx].
Qed.

(** The admin asks for the most recent sale of [dbTies], whose two sales
    were created in the same instant: one engine answers with sale 1, the
    other with sale 2. *)
Lemma recent_sales_are_the_newest_witness :
  (exists rows : list Sale.t,
      StatsService.getRecentSales tiesInTableOrder 1 (val 1) 1 dbTies = (inr rows, dbTies)
      /\ Z.of_nat (List.length rows) = 1)
  /\ StatsService.getRecentSales tiesInTableOrder 1 (val 1) 1 dbTies
     = (inr [saleT1], dbTies)
  /\ StatsService.getRecentSales tiesInReverseOrder 1 (val 1) 1 dbTies
     = (inr [saleT2], dbTies).
Proof.
  split; [| split; reflexivity].
  destruct (recent_sales_are_the_newest tiesInTableOrder dbTies 1 1 1
              tiesInTableOrder_orders ltac:(lia)) as [rows [Hrun [Hlen _]]].
  exists rows. split; [exact Hrun | exact Hlen].
Defined.

(** The dashboard of advisor 2 on [db0]. *)
Lemma dashboard_metrics_witness :
  StatsService.getDashboardMetrics 2 (val 2) Filters.empty db0
  = (inr {| StatsService.totalSales := 1; StatsService.totalAmount := Num 500000000;
            StatsService.openSales := 1; StatsService.inProcessSales := 0;
            StatsService.finishedSales := 0 |}, db0)
  /\ 1 + 0 + 0 = 1.
Proof.
  split; [reflexivity |].
  destruct (dashboard_metrics db0 2 (val 2) Filters.empty) as [m [Hm [_ [_ Hs]]]].
  injection Hm as <-.
  apply Hs; [reflexivity | repeat constructor].
Defined.

(** ** Users: routes, ownership, deletion *)

(** X22. Only an admin gets through the delete-user route: for any other
    role the request is refused with an authorization error, and for an id
    below 1 with a validation error, in both cases before the controller
    runs and without a write. *)
Theorem delete_user_route_requires_admin :
  forall (db : DB) (id : Z) (currentUser : User.t),
    (id < 1 ->
     UserRoutes.deleteUserRoute id currentUser db
     = (inl (ValidationError "Validation failed"), db))
    /\ (1 <= id -> User.rolId currentUser <> ROLES.ADMIN_ID ->
        UserRoutes.deleteUserRoute id currentUser db
        = (inl (AuthorizationError "Admin access required"), db)).
Proof.
  intros db id u. unfold UserRoutes.deleteUserRoute, ValidationMiddleware.validateId,
    ValidationMiddleware.check, RoleMiddleware.isAdmin.
  split.
  - intros H. apply Z.leb_gt in H. rewrite bind_run, H. reflexivity.
  - intros H Hr. apply Z.leb_le in H. apply Z.eqb_neq in Hr.
    rewrite bind_run, H. cbn [ValidationMiddleware.handleValidationErrors].
    unfold ret at 1. rewrite bind_run, Hr. reflexivity.
Qed.

(** Advisor 2 tries to delete advisor 3, and the admin asks for user 0. *)
Lemma delete_user_route_requires_admin_witness :
  UserRoutes.deleteUserRoute 0 admin db0
  = (inl (ValidationError "Validation failed"), db0)
  /\ UserRoutes.deleteUserRoute 3 advisorA db0
     = (inl (AuthorizationError "Admin access required"), db0).
Proof.
  split.
  - apply (proj1 (delete_user_route_requires_admin db0 0 admin)). lia.
  - apply (proj2 (delete_user_route_requires_admin db0 3 advisorA)).
    + lia.
    + simpl. unfold ROLES.ADMIN_ID. lia.
Defined.

Lemma find_user_filter_other id l :
  find (fun u => User.id u =? id) (filter (fun u => negb (User.id u =? id)) l) = None.
Proof.
  induction l as [|x r IH]; simpl; [reflexivity |].
  destruct (User.id x =? id) eqn:E; simpl; [exact IH |].
  rewrite E. exact IH.
Qed.

Lemma find_user_filter_same id j l :
  j <> id ->
  find (fun u => User.id u =? j) (filter (fun u => negb (User.id u =? id)) l)
  = find (fun u => User.id u =? j) l.
Proof.
  intros Hne. induction l as [|x r IH]; simpl; [reflexivity |].
  destruct (User.id x =? id) eqn:E; simpl.
  - apply Z.eqb_eq in E.
    destruct (User.id x =? j) eqn:Ej; [apply Z.eqb_eq in Ej; congruence | exact IH].
  - destruct (User.id x =? j); [reflexivity | exact IH].
Qed.

(** X23. Deleting a user keeps the sales and their references: the sales
    table is never touched; a user who created or last updated a sale is not
    deleted; so if every sale refers to existing users before the call, it
    does after it.  When the deletion succeeds the user is gone (a lookup
    of the id gives not-found) and every other user is found as before. *)
Theorem deleteUserById_keeps_references :
  forall (db db' : DB) (id : Z) (r : error + bool),
    UserService.deleteUserById id db = (r, db') ->
    ventas db' = ventas db
    /\ (usersReferencedExist db -> usersReferencedExist db')
    /\ (forall b, r = inr b ->
          b = true
          /\ Forall (fun s => Sale.usuarioCreadorId s <> id
                              /\ Sale.usuarioActualizadorId s <> id) (ventas db)
          /\ UserService.findUserById id db' = (inl (NotFoundError "User not found"), db')
          /\ (forall j, j <> id ->
                UserService.findUserById j db' = (fst (UserService.findUserById j db), db')))
    /\ (forall e, r = inl e -> db' = db).
Proof.
  intros db db' id r.
  unfold UserService.deleteUserById, UserModel.findByPk. rewrite bind_run. unfold gets at 1.
  destruct (find (fun u => User.id u =? id) (usuarios db)) as [user|] eqn:Hu.
  - apply find_some in Hu. destruct Hu as [_ Hid]. apply Z.eqb_eq in Hid.
    unfold UserModel.destroy. rewrite !bind_run. unfold gets at 1. rewrite Hid.
    destruct (existsb (fun s => (Sale.usuarioCreadorId s =? id)
                                || (Sale.usuarioActualizadorId s =? id)) (ventas db))
      eqn:Href.
    + intros H. injection H as <- <-. repeat split; auto; intros; discriminate.
    + unfold_m. intros H. injection H as <- <-.
      cbn [ventas usuarios withUsuarios].
      assert (Hno : Forall (fun s => Sale.usuarioCreadorId s <> id
                                     /\ Sale.usuarioActualizadorId s <> id) (ventas db)).
      { apply Forall_forall. intros s Hs.
        destruct ((Sale.usuarioCreadorId s =? id) || (Sale.usuarioActualizadorId s =? id))
          eqn:E.
        - assert (X : existsb (fun s0 => (Sale.usuarioCreadorId s0 =? id)
                                         || (Sale.usuarioActualizadorId s0 =? id))
                              (ventas db) = true)
            by (apply existsb_exists; exists s; auto).
          congruence.
        - apply orb_false_iff in E. destruct E as [E1 E2].
          apply Z.eqb_neq in E1. apply Z.eqb_neq in E2. auto. }
      split; [reflexivity |]. split; [| split].
      * unfold usersReferencedExist. cbn [ventas usuarios withUsuarios].
        intros Href'. rewrite Forall_forall in *. intros s Hs.
        destruct (Href' s Hs) as [Hc Hup]. destruct (Hno s Hs) as [Nc Nu].
        assert (Keep : forall c, c <> id -> In c (map User.id (usuarios db)) ->
                  In c (map User.id (filter (fun u => negb (User.id u =? id))
                                            (usuarios db)))).
        { intros c Hc0 Hin. apply in_map_iff in Hin. destruct Hin as [u [Hu' Hin]].
          apply in_map_iff. exists u. split; [exact Hu' |].
          apply filter_In. split; [exact Hin |].
          apply negb_true_iff. apply Z.eqb_neq. congruence. }
        split; apply Keep; assumption.
      * intros b Hb. injection Hb as <-.
        split; [reflexivity |]. split; [exact Hno |]. split.
        { unfold UserService.findUserById, UserModel.findByPk.
          rewrite bind_run. unfold gets. cbn [usuarios withUsuarios].
          rewrite find_user_filter_other. reflexivity. }
        { intros j Hj. unfold UserService.findUserById, UserModel.findByPk.
          rewrite !bind_run. unfold gets. cbn [usuarios withUsuarios].
          rewrite (find_user_filter_same id j _ Hj).
          destruct (find (fun u => User.id u =? j) (usuarios db)); reflexivity. }
      * intros e He. discriminate.
  - intros H. injection H as <- <-. repeat split; auto; intros; discriminate.
Qed.

(** In [db0] advisor 3 has a sale, so the deletion is refused. *)
Lemma deleteUserById_keeps_references_witness :
  usersReferencedExist db0.
Proof.
  refine (proj1 (proj2 (deleteUserById_keeps_references db0 db0 3
                          (inl SequelizeForeignKeyConstraintError) eq_refl)) _).
  unfold usersReferencedExist. cbn. repeat constructor; cbn; tauto.
Defined.

(** X24. Reading a user through the route: an answer is the stored user
    with the requested id, and it is given only to an admin or to the user
    themself; any other caller is refused with an authorization error.
    Nothing is written. *)
Theorem get_user_route_is_owner_or_admin :
  forall (db db' : DB) (id : Z) (currentUser : User.t) (r : error + User.t),
    UserRoutes.getUserRoute id currentUser db = (r, db') ->
    db' = db
    /\ (forall u, r = inr u ->
          In u (usuarios db) /\ User.id u = id
          /\ (User.rolId currentUser = ROLES.ADMIN_ID \/ User.id currentUser = id))
    /\ (1 <= id -> User.rolId currentUser <> ROLES.ADMIN_ID ->
        User.id currentUser <> id ->
        r = inl (AuthorizationError "You can only access your own resources")).
Proof.
  intros db db' id cu r.
  unfold UserRoutes.getUserRoute, ValidationMiddleware.validateId,
    ValidationMiddleware.check, RoleMiddleware.isOwnerOrAdmin,
    UserController.getUserById, UserService.findUserById, UserModel.findByPk.
  unfold_m.
  destruct (1 <=? id) eqn:Ev; cbn [ValidationMiddleware.handleValidationErrors].
  - destruct (User.rolId cu =? ROLES.ADMIN_ID) eqn:Er;
      [| destruct (User.id cu =? id) eqn:Eo].
    + apply Z.eqb_eq in Er.
      destruct (find (fun u => User.id u =? id) (usuarios db)) as [u|] eqn:Hf;
        intros H; unfold ret, throw in H; cbn beta iota in H; rewrite ?Hf in H;
        injection H as <- <-;
        (split; [reflexivity |]); split.
      * intros u0 Hu0. injection Hu0 as <-.
        apply find_some in Hf. destruct Hf as [Hin Hid]. apply Z.eqb_eq in Hid. auto.
      * intros _ Hr. contradiction.
      * intros u0 Hu0. discriminate.
      * intros _ Hr. contradiction.
    + apply Z.eqb_eq in Eo.
      destruct (find (fun u => User.id u =? id) (usuarios db)) as [u|] eqn:Hf;
        intros H; unfold ret, throw in H; cbn beta iota in H; rewrite ?Hf in H;
        injection H as <- <-;
        (split; [reflexivity |]); split.
      * intros u0 Hu0. injection Hu0 as <-.
        apply find_some in Hf. destruct Hf as [Hin Hid]. apply Z.eqb_eq in Hid. auto.
      * intros _ _ Ho. contradiction.
      * intros u0 Hu0. discriminate.
      * intros _ _ Ho. contradiction.
    + intros H. unfold ret, throw in H. cbn beta iota in H. injection H as <- <-.
      split; [reflexivity |]. split; [intros u Hu; discriminate | reflexivity].
  - intros H. unfold ret, throw in H. cbn beta iota in H. injection H as <- <-.
    split; [reflexivity |]. split; [intros u Hu; discriminate |].
    intros Hid. apply Z.leb_gt in Ev. lia.
Qed.

(** Advisor 2 asks for the record of advisor 3. *)
Lemma get_user_route_is_owner_or_admin_witness :
  @inl error User.t (AuthorizationError "You can only access your own resources")
  = inl (AuthorizationError "You can only access your own resources").
Proof.
  refine (proj2 (proj2 (get_user_route_is_owner_or_admin db0 db0 3 advisorA
                          (inl (AuthorizationError
                                  "You can only access your own resources"))
                          eq_refl)) _ _ _).
  - lia.
  - simpl. unfold ROLES.ADMIN_ID. lia.
  - simpl. lia.
Defined.

(** ** The my-sales and update routes *)

(** X25. The my-sales route answers no request with a page.  A request
    whose [page] or [limit] fails the validation is refused with a
    validation error; every other request, of any caller and under any
    engine, fails on the statement of the list with a database error.
    Nothing is written. *)
Theorem my_sales_route_returns_no_page :
  forall (order : Ordering) (db : DB) (pageQ limitQ : js Z) (currentUser : User.t),
    SaleController.getMySalesRoute order pageQ limitQ currentUser db
    = (inl (match ValidationMiddleware.validatePagination pageQ limitQ with
            | [] => SequelizeDatabaseError
            | _ :: _ => ValidationError "Validation failed"
            end), db)
    /\ (ValidationMiddleware.validatePagination pageQ limitQ = [] <->
        (pageQ = undefined \/ exists p, pageQ = val p /\ 1 <= p)
        /\ (limitQ = undefined \/ exists l, limitQ = val l /\ 1 <= l <= 100)).
Proof.
  intros order db pageQ limitQ cu. split.
  - unfold SaleController.getMySalesRoute, SaleController.getMySales,
      ValidationMiddleware.handleValidationErrors.
    rewrite bind_run.
    destruct (ValidationMiddleware.validatePagination pageQ limitQ); [| reflexivity].
    unfold ret. apply findAllSales_unknown_column.
  - unfold ValidationMiddleware.validatePagination, ValidationMiddleware.check,
      ValidationMiddleware.isInt_min.
    destruct pageQ as [| |p]; destruct limitQ as [| |l]; cbn;
      try (destruct (1 <=? p) eqn:Ep);
      try (destruct ((1 <=? l) && (l <=? 100)) eqn:El);
      cbn;
      try (apply Z.leb_le in Ep); try (apply Z.leb_gt in Ep);
      try (apply andb_true_iff in El; destruct El as [El1 El2];
           apply Z.leb_le in El1; apply Z.leb_le in El2);
      try (apply andb_false_iff in El);
      (split;
       [ intros H; try discriminate H;
         (split; [first [left; reflexivity | right; eexists; split; [reflexivity | lia]]
                 | first [left; reflexivity | right; eexists; split; [reflexivity | lia]]])
       | intros [[Hp | [p' [Hp Hp1]]] [Hq | [l' [Hq Hq1]]]];
         try discriminate; try reflexivity;
         try (injection Hp as <-); try (injection Hq as <-);
         try lia;
         try (destruct El as [El | El];
              [apply Z.leb_gt in El | apply Z.leb_gt in El]; lia) ]).
Qed.

(** Advisor 2 asks for page 1 with limit 10 of their sales in [db0], and
    then with limit 500. *)
Lemma my_sales_route_returns_no_page_witness :
  SaleController.getMySalesRoute tiesInTableOrder (val 1) (val 10) advisorA db0
  = (inl SequelizeDatabaseError, db0)
  /\ SaleController.getMySalesRoute tiesInTableOrder (val 1) (val 500) advisorA db0
     = (inl (ValidationError "Validation failed"), db0).
Proof.
  split.
  - exact (proj1 (my_sales_route_returns_no_page tiesInTableOrder db0 (val 1) (val 10)
                    advisorA)).
  - exact (proj1 (my_sales_route_returns_no_page tiesInTableOrder db0 (val 1) (val 500)
                    advisorA)).
Defined.

(** X26. Through the update route a sale's franchise or rate cannot be set
    to null: a patch that carries [franquiciaId: null] or [tasa: null] is
    refused by the validation, for every id, caller and store, and nothing
    is written. *)
Theorem put_sale_refuses_null_fields :
  forall (db : DB) (id now : Z) (body : SaleData.t) (currentUser : User.t),
    SaleData.franquiciaId body = null \/ SaleData.tasa body = null ->
    SaleController.putSale id body currentUser now db
    = (inl (ValidationError "Validation failed"), db).
Proof.
  intros db id now body cu Hnull.
  unfold SaleController.putSale. rewrite bind_run.
  destruct (ValidationMiddleware.validateId id) as [|e es];
    cbn [ValidationMiddleware.handleValidationErrors]; [| reflexivity].
  unfold ret at 1. rewrite bind_run.
  assert (Hne : ValidationMiddleware.validateSaleUpdate body <> []).
  { unfold ValidationMiddleware.validateSaleUpdate.
    destruct body as [p c f t e]. cbn [SaleData.franquiciaId SaleData.tasa] in Hnull.
    intros H. apply app_eq_nil in H. destruct H as [_ H].
    apply app_eq_nil in H. destruct H as [_ H].
    apply app_eq_nil in H. destruct H as [Hf H].
    apply app_eq_nil in H. destruct H as [Ht _].
    destruct Hnull as [-> | ->]; discriminate. }
  destruct (ValidationMiddleware.validateSaleUpdate body) as [|e es];
    [contradiction | reflexivity].
Qed.

(** The admin tries to clear the rate of sale 1 of [db0]. *)
Lemma put_sale_refuses_null_fields_witness :
  SaleController.putSale 1 (SaleData.mk undefined undefined undefined null undefined)
                         admin 7000 db0
  = (inl (ValidationError "Validation failed"), db0).
Proof.
  apply (put_sale_refuses_null_fields db0 1 7000
           (SaleData.mk undefined undefined undefined null undefined) admin).
  right. reflexivity.
Defined.

(** X27. The counts of users by role: [total] is the sum of the two
    counts, and it is the number of users when every user is an admin or an
    advisor. *)
Theorem users_count_by_role_total :
  forall db : DB,
    Forall (fun u => User.rolId u = ROLES.ADMIN_ID \/ User.rolId u = ROLES.ADVISOR_ID)
           (usuarios db) ->
    exists c : UserService.RoleCounts,
      UserService.getUsersCountByRole db = (inr c, db)
      /\ UserService.totalUsers c
         = UserService.adminCount c + UserService.advisorCount c
      /\ UserService.totalUsers c = Z.of_nat (List.length (usuarios db)).
Proof.
  intros db H. unfold UserService.getUsersCountByRole, UserService.countByRole.
  unfold_m. eexists. split; [reflexivity |].
  cbn [UserService.totalUsers UserService.adminCount UserService.advisorCount].
  split; [reflexivity |].
  induction H as [|u l Hu Hl IH]; [reflexivity |].
  cbn [filter List.length].
  destruct Hu as [Hu | Hu]; rewrite Hu;
    cbn [Z.eqb ROLES.ADMIN_ID ROLES.ADVISOR_ID Pos.eqb]; cbn [List.length]; lia.
Qed.

(** The three users of [db0]. *)
Lemma users_count_by_role_total_witness :
  exists c : UserService.RoleCounts,
    UserService.getUsersCountByRole db0 = (inr c, db0)
    /\ UserService.totalUsers c = UserService.adminCount c + UserService.advisorCount c
    /\ UserService.totalUsers c = Z.of_nat (List.length (usuarios db0)).
Proof.
  apply (users_count_by_role_total db0).
  apply Forall_cons; [left; reflexivity |].
  apply Forall_cons; [right; reflexivity |].
  apply Forall_cons; [right; reflexivity |].
  apply Forall_nil.
Defined.

(** ** Top products, and the errors of a creation *)

(** X28. The top products are the most sold: they are lines of the
    by-product statistics for the same caller and filters, at most [limit]
    of them, by count descending, and no product that is left out has more
    sales than one that is listed. *)
Theorem top_products_are_the_most_sold :
  forall (db : DB) (userRolId : Z) (userId : js Z) (limit : Z) (filters : Filters.t)
         (tops everyProduct : list (Group Z)),
    StatsService.getTopProducts userRolId userId limit filters db = (inr tops, db) ->
    StatsService.getSalesGroupedByProduct userRolId userId filters db
    = (inr everyProduct, db) ->
    Z.of_nat (List.length tops) <= limit
    /\ incl tops everyProduct
    /\ StronglySorted countDesc tops
    /\ NoDup (map g_key tops)
    /\ (forall g h, In g tops -> In h everyProduct -> ~ In h tops ->
                    g_count h <= g_count g).
Proof.
  intros db role user limit filters tops every.
  unfold StatsService.getTopProducts, StatsService.getSalesGroupedByProduct,
    findAllGrouped. unfold_m.
  set (gs := groupRows Z.eqb Sale.productoId
               (filter (selects (StatsService.buildWhereClause role user filters))
                       (ventas db))).
  destruct (limit <? 0) eqn:E; [discriminate |]. apply Z.ltb_ge in E.
  intros H1 H2. injection H1 as <-. injection H2 as <-.
  set (S := sortByCountDesc gs).
  pose proof (sortByCountDesc_sorted gs) as Hsorted. fold S in Hsorted.
  split; [rewrite length_firstn; lia |].
  split; [apply incl_firstn |].
  split; [apply StronglySorted_firstn; exact Hsorted |].
  split.
  - rewrite <- firstn_map. apply NoDup_firstn.
    eapply Permutation_NoDup.
    + apply Permutation_map, Permutation_sym, sortByCountDesc_perm.
    + apply (groupRows_spec Z.eqb Z.eqb_eq Sale.productoId).
  - intros g h Hg Hh Hnot.
    assert (Hskip : In h (skipn (Z.to_nat limit) S)).
    { rewrite <- (firstn_skipn (Z.to_nat limit) S) in Hh.
      apply in_app_or in Hh. destruct Hh as [Hh | Hh]; [contradiction | exact Hh]. }
    rewrite <- (firstn_skipn (Z.to_nat limit) S) in Hsorted.
    exact (StronglySorted_app_cross countDesc _ _ Hsorted g h Hg Hskip).
Qed.

(** The admin asks for the top product of [db0]. *)
Lemma top_products_are_the_most_sold_witness :
  Z.of_nat (List.length [ {| g_key := 1; g_count := 1; g_totalAmount := 500000000 |} ])
  <= 1.
Proof.
  exact (proj1 (top_products_are_the_most_sold db0 1 (val 1) 1 Filters.empty
                  [ {| g_key := 1; g_count := 1; g_totalAmount := 500000000 |} ]
                  [ {| g_key := 1; g_count := 1; g_totalAmount := 500000000 |};
                    {| g_key := 3; g_count := 1; g_totalAmount := 200000000 |} ]
                  eq_refl eq_refl)).
Defined.

(** X29. The validation errors of a creation, in the order in which the
    rules are tried, each leaving the store as it was: a missing (or zero)
    product or amount; a product that is not in the catalog; a credit card
    without franchise; another product with a franchise; a franchise that
    is not in the catalog; a product that bears a rate without one; a
    credit card with a rate. *)
Theorem createNewSale_validation_errors :
  forall (db : DB) (userId now : Z) (p : js Z) (c : js decimal) (f : js Z)
         (t : js decimal) (e : js string),
    let run := createNewSale (SaleData.mk p c f t e) userId now db in
    let known := match p with
                 | val z => existsb (Z.eqb z) (productos_tipos db)
                 | _ => false
                 end in
    let isCard := num_is (parseInt p) PRODUCTS.CREDIT_CARD_ID in
    let bearsRate := num_is (parseInt p) PRODUCTS.CONSUMER_CREDIT_ID
                     || num_is (parseInt p) PRODUCTS.FREE_INVESTMENT_PAYROLL_ID in
    (truthyNum p = false \/ truthyNum c = false ->
     run = (inl (ValidationError "Product and requested amount are required"), db))
    /\ (truthyNum p = true -> truthyNum c = true -> known = false ->
        run = (inl (ValidationError "Invalid product ID"), db))
    /\ (truthyNum c = true -> known = true -> isCard = true -> truthyNum f = false ->
        run = (inl (ValidationError "Franchise is required for credit cards"), db))
    /\ (truthyNum p = true -> truthyNum c = true -> known = true -> isCard = false ->
        truthyNum f = true ->
        run = (inl (ValidationError "Franchise is only applicable to credit cards"), db))
    /\ (truthyNum c = true -> known = true -> isCard = true ->
        forall z, f = val z -> z <> 0 -> ~ In z (franquicias db) ->
        run = (inl (ValidationError "Invalid franchise ID"), db))
    /\ (truthyNum c = true -> known = true -> bearsRate = true ->
        truthyNum f = false -> truthyNum t = false ->
        run = (inl (ValidationError "Rate is required for credits and payrolls"), db))
    /\ (truthyNum c = true -> known = true -> isCard = true ->
        forall z, f = val z -> z <> 0 -> In z (franquicias db) ->
        isUndefined t = false -> isNull t = false ->
        run = (inl (ValidationError "Rate is only applicable to credits and payrolls"),
               db)).
Proof.
  intros db userId now p c f t e run known isCard bearsRate.
  subst run. unfold createNewSale.
  assert (Hcard_p : isCard = true -> truthyNum p = true /\ bearsRate = false).
  { subst isCard bearsRate. destruct p as [| |z]; cbn; try discriminate.
    intros H. apply Z.eqb_eq in H. subst z. split; reflexivity. }
  assert (Hrate_p : bearsRate = true -> truthyNum p = true /\ isCard = false).
  { subst isCard bearsRate. destruct p as [| |z]; cbn; try discriminate.
    intros H. apply orb_true_iff in H.
    destruct H as [H | H]; apply Z.eqb_eq in H; subst z; split; reflexivity. }
  repeat split.
  - intros H. rewrite bind_run.
    assert (X : negb (truthyNum p) || negb (truthyNum c) = true).
    { destruct H as [-> | ->]; [reflexivity | apply orb_true_r]. }
    rewrite X. reflexivity.
  - intros Hp Hc Hk.
    guard_false ltac:(rewrite Hp, Hc; reflexivity).
    rewrite bind_run. unfold Product.findByPk at 1. unfold gets at 1.
    rewrite bind_run. fold known. rewrite Hk. reflexivity.
  - intros Hc Hk Hcard Hf. destruct (Hcard_p Hcard) as [Hp _].
    guard_false ltac:(rewrite Hp, Hc; reflexivity).
    rewrite bind_run. unfold Product.findByPk at 1. unfold gets at 1.
    guard_false ltac:(fold known; rewrite Hk; reflexivity).
    rewrite bind_run. fold isCard. rewrite Hcard, Hf. reflexivity.
  - intros Hp Hc Hk Hcard Hf.
    guard_false ltac:(rewrite Hp, Hc; reflexivity).
    rewrite bind_run. unfold Product.findByPk at 1. unfold gets at 1.
    guard_false ltac:(fold known; rewrite Hk; reflexivity).
    guard_false ltac:(fold isCard; rewrite Hcard; reflexivity).
    rewrite bind_run. fold isCard. rewrite Hcard, Hf. reflexivity.
  - intros Hc Hk Hcard z -> Hz Hnot. destruct (Hcard_p Hcard) as [Hp _].
    assert (Hf : truthyNum (val z) = true)
      by (cbn; apply negb_true_iff, Z.eqb_neq; exact Hz).
    guard_false ltac:(rewrite Hp, Hc; reflexivity).
    rewrite bind_run. unfold Product.findByPk at 1. unfold gets at 1.
    guard_false ltac:(fold known; rewrite Hk; reflexivity).
    guard_false ltac:(fold isCard; rewrite Hcard, Hf; reflexivity).
    guard_false ltac:(fold isCard; rewrite Hcard; reflexivity).
    rewrite bind_run, Hf. unfold Franchise.findByPk. rewrite bind_run.
    unfold gets at 1. rewrite (existsb_Zeqb_false _ _ Hnot). reflexivity.
  - intros Hc Hk Hrate Hf Ht. destruct (Hrate_p Hrate) as [Hp Hcard].
    guard_false ltac:(rewrite Hp, Hc; reflexivity).
    rewrite bind_run. unfold Product.findByPk at 1. unfold gets at 1.
    guard_false ltac:(fold known; rewrite Hk; reflexivity).
    guard_false ltac:(fold isCard; rewrite Hcard; reflexivity).
    guard_false ltac:(rewrite Hf; apply andb_false_r).
    rewrite bind_run, Hf. unfold ret at 1.
    rewrite bind_run. fold bearsRate. rewrite Hrate, Ht. reflexivity.
  - intros Hc Hk Hcard z -> Hz Hin Hu Hn. destruct (Hcard_p Hcard) as [Hp Hrate].
    assert (Hf : truthyNum (val z) = true)
      by (cbn; apply negb_true_iff, Z.eqb_neq; exact Hz).
    guard_false ltac:(rewrite Hp, Hc; reflexivity).
    rewrite bind_run. unfold Product.findByPk at 1. unfold gets at 1.
    guard_false ltac:(fold known; rewrite Hk; reflexivity).
    guard_false ltac:(fold isCard; rewrite Hcard, Hf; reflexivity).
    guard_false ltac:(fold isCard; rewrite Hcard; reflexivity).
    rewrite bind_run, Hf. unfold Franchise.findByPk. rewrite bind_run.
    unfold gets at 1. rewrite (existsb_Zeqb_true _ _ Hin). cbn [negb].
    rewrite throwIf_false.
    guard_false ltac:(fold bearsRate; rewrite Hrate; reflexivity).
    rewrite bind_run.
    assert (X : negb (num_is (parseInt p) PRODUCTS.CONSUMER_CREDIT_ID)
                && negb (num_is (parseInt p) PRODUCTS.FREE_INVESTMENT_PAYROLL_ID)
                && negb (isUndefined t) && negb (isNull t) = true).
    { fold bearsRate in Hrate. apply orb_false_iff in Hrate.
      destruct Hrate as [-> ->]. rewrite Hu, Hn. reflexivity. }
    rewrite X. reflexivity.
Qed.

(** Advisor 2 asks [db0] for a credit card of franchise 9, and for a
    consumer credit without a rate. *)
Lemma createNewSale_validation_errors_witness :
  createNewSale (SaleData.mk (val 3) (val 100) (val 9) undefined (val "Abierto"))
                2 5000 db0
  = (inl (ValidationError "Invalid franchise ID"), db0)
  /\ createNewSale (SaleData.mk (val 1) (val 100) undefined undefined (val "Abierto"))
                   2 5000 db0
     = (inl (ValidationError "Rate is required for credits and payrolls"), db0).
Proof.
  split.
  - refine (proj1 (proj2 (proj2 (proj2 (proj2
             (createNewSale_validation_errors db0 2 5000 (val 3) (val 100) (val 9)
                undefined (val "Abierto"))))))
             eq_refl eq_refl eq_refl 9 eq_refl _ _).
    + lia.
    + simpl. intuition lia.
  - exact (proj1 (proj2 (proj2 (proj2 (proj2 (proj2
             (createNewSale_validation_errors db0 2 5000 (val 1) (val 100) undefined
                undefined (val "Abierto")))))))
             eq_refl eq_refl eq_refl eq_refl eq_refl).
Defined.

(** ** The counts by status *)

(** X30. The counts by status.  The sale service never gives them: every
    call fails with a TypeError when it reads the status table, before any
    query, and writes nothing.  The statistics service does: one line per
    status that occurs among the selected sales, with the number and the
    total amount of the selected sales in that status, and the counts and
    totals of the lines add up to those of all selected sales. *)
Theorem counts_by_status :
  forall (db : DB) (userRolId userId : Z) (filters : Filters.t),
    let selected :=
      filter (selects (StatsService.buildWhereClause userRolId (val userId) filters))
             (ventas db) in
    getSalesCountByStatus userRolId userId db
    = (inl (TypeError "Cannot read properties of undefined (reading 'OPEN')"), db)
    /\ exists lines : list (Group string),
         StatsService.getSalesGroupedByStatus userRolId (val userId) filters db
         = (inr lines, db)
         /\ NoDup (map g_key lines)
         /\ (forall g, In g lines ->
               0 < g_count g
               /\ g_count g
                  = Z.of_nat (List.length
                                (rowsOf String.eqb Sale.estado (g_key g) selected))
               /\ g_totalAmount g
                  = sumOf (rowsOf String.eqb Sale.estado (g_key g) selected))
         /\ (forall s, In s selected ->
               exists g, In g lines /\ g_key g = Sale.estado s)
         /\ sumCounts lines = Z.of_nat (List.length selected)
         /\ sumTotals lines = sumOf selected.
Proof.
  intros db role user filters selected. split; [reflexivity |].
  unfold StatsService.getSalesGroupedByStatus, findAllGrouped, gets.
  fold selected. eexists. split; [reflexivity |].
  split; [apply (groupRows_spec String.eqb String.eqb_eq Sale.estado) |].
  split.
  - intros g Hg.
    destruct (groupRows_groups String.eqb String.eqb_eq Sale.estado selected g Hg)
      as [Hc [Ht Hpos]].
    split; [exact Hpos |]. split; [exact Hc | exact Ht].
  - split; [apply (groupRows_complete String.eqb String.eqb_eq Sale.estado) |].
    apply (sums_groupRows String.eqb Sale.estado selected).
Qed.
